(** * ACF Guidance Harvester v2: content validation and source chain

    A shallow embedding of [scripts_v2/validate.py], of the source chain,
    the loading of the inventory and the validation of an output directory
    of [scripts_v2/harvest_v2.py], of the audit of [scripts_v2/audit_v1.py]
    and of the selection of the rows to repair of [scripts_v2/repair.py],
    with the properties of the resolution engine and of the validation gate
    proved over it.

    Conventions.
    - A Python [str] is a list of Unicode code points ([pystr]); [bytes] is a
      [list byte].  Literals of the source are written as Rocq strings and
      coerced.
    - What the Python runtime and the third-party libraries compute (UTF-8
      decoding, [str.lower], [re], [os.path], [urllib.parse], BeautifulSoup,
      SHA-256) is a field of the class [PyRuntime]; the program text is
      written over these fields, so each definition reads like the function
      it embeds and every theorem holds for every runtime.  [Ascii7] is an
      executable instance, exact on the 7-bit inputs used in the examples.
    - The file system, the persisted [metadata.json] records, the HTTP
      requests issued and the lines written to the debug logger form the
      [world] threaded through the harvesting functions.
    - [time.sleep] has no counterpart; the fields [harvested_at] and
      [harvester_version] of the metadata are left out. *)

From Stdlib Require Import String Ascii NArith Arith Bool Lia List.
From Stdlib.Strings Require Import Byte.
From Stdlib Require Import DecimalString DecimalNat Sorted.
Import ListNotations.
Open Scope string_scope.
Open Scope list_scope.
Open Scope nat_scope.

Set Implicit Arguments.

(** ** Python values *)

Definition pystr := list N.

Definition lit (s : string) : pystr := map Byte.to_N (list_byte_of_string s).
Coercion lit : string >-> pystr.

Definition bytes := list byte.

Definition b (s : string) : bytes := list_byte_of_string s.

Fixpoint eqb_list {A : Type} (eqb : A -> A -> bool) (l1 l2 : list A) : bool :=
  match l1, l2 with
  | [], [] => true
  | x :: l1', y :: l2' => eqb x y && eqb_list eqb l1' l2'
  | _, _ => false
  end.

Definition str_eqb (s t : pystr) : bool := eqb_list N.eqb s t.

(** [s.startswith(p)], on [str] and on [bytes]. *)
Fixpoint prefixb {A : Type} (eqb : A -> A -> bool) (p s : list A) : bool :=
  match p, s with
  | [], _ => true
  | x :: p', y :: s' => eqb x y && prefixb eqb p' s'
  | _ :: _, [] => false
  end.

Definition startswith (s p : pystr) : bool := prefixb N.eqb p s.
Definition bytes_startswith (s p : bytes) : bool := prefixb Byte.eqb p s.

(** [sub in s]. *)
Fixpoint contains (s sub : pystr) : bool :=
  startswith s sub
  || match s with
     | [] => false
     | _ :: s' => contains s' sub
     end.

(** [s.replace(old, new)] for a non-empty [old]: leftmost occurrences, not
    overlapping. *)
Fixpoint replace_from (fuel : nat) (old new s : pystr) : pystr :=
  match fuel with
  | O => s
  | S fuel' =>
      match s with
      | [] => []
      | c :: s' =>
          if startswith s old
          then new ++ replace_from fuel' old new (skipn (length old) s)
          else c :: replace_from fuel' old new s'
      end
  end.

Definition replace (s old new : pystr) : pystr :=
  replace_from (length s) old new s.

(** Truthiness of a list or of a [str]. *)
Definition truthy {A : Type} (l : list A) : bool :=
  match l with
  | [] => false
  | _ :: _ => true
  end.

(** [x in (a, b, ...)] for literal tags. *)
Definition tag_in (x : string) (l : list string) : bool :=
  existsb (String.eqb x) l.

(** [str(n)] for a non-negative [int]. *)
Definition str_of_nat (n : nat) : pystr :=
  lit (NilEmpty.string_of_uint (Nat.to_uint n)).

(** ** The runtime *)

Record re_flags := { DOTALL : bool; IGNORECASE : bool }.

Definition no_flags : re_flags := {| DOTALL := false; IGNORECASE := false |}.

Class PyRuntime := {
  (** [data.decode("utf-8", errors="ignore")] *)
  decode_utf8_ignore : bytes -> pystr;
  (** [open(p, "r", encoding="utf-8", errors="ignore").read()] on a file
      holding [data] *)
  read_text : bytes -> pystr;
  (** what [open(p, "w", encoding="utf-8").write(s)] stores *)
  write_text : pystr -> bytes;
  (** [s.lower()], [s.strip()] *)
  lower : pystr -> pystr;
  strip : pystr -> pystr;
  (** [re.sub(pattern, repl, text, flags)] *)
  re_sub : string -> re_flags -> pystr -> pystr -> pystr;
  (** [re.search(pattern, text, flags)]: the groups of the match, group 0
      first *)
  re_search : string -> re_flags -> pystr -> option (list pystr);
  (** [os.path.splitext], [os.path.basename], [os.path.join] *)
  splitext : pystr -> pystr * pystr;
  basename : pystr -> pystr;
  path_join : pystr -> pystr -> pystr;
  (** [urlparse(u).path], [urlparse(u).netloc], [urljoin(base, href)] *)
  urlparse_path : pystr -> pystr;
  urlparse_netloc : pystr -> pystr;
  urljoin : pystr -> pystr -> pystr;
  (** [[tag["href"] for tag in BeautifulSoup(text, "html.parser")
        .find_all("a", href=True)]] *)
  soup_hrefs : pystr -> list pystr;
  (** [hashlib.sha256(data).hexdigest()] *)
  sha256_hex : bytes -> pystr
}.

(** ** The file system *)

Definition filesystem := list (pystr * bytes).

Fixpoint fs_read (fs : filesystem) (p : pystr) : option bytes :=
  match fs with
  | [] => None
  | (q, data) :: fs' => if str_eqb q p then Some data else fs_read fs' p
  end.

Definition fs_exists (fs : filesystem) (p : pystr) : bool :=
  match fs_read fs p with
  | Some _ => true
  | None => false
  end.

Fixpoint fs_remove (fs : filesystem) (p : pystr) : filesystem :=
  match fs with
  | [] => []
  | (q, data) :: fs' =>
      if str_eqb q p then fs_remove fs' p else (q, data) :: fs_remove fs' p
  end.

Definition fs_write (fs : filesystem) (p : pystr) (data : bytes) : filesystem :=
  (p, data) :: fs_remove fs p.

(** ** validate.py *)

Module Validate.

Definition DOJ_INDICATORS : list pystr :=
  [ lit "access denied";
    lit "you don't have permission to access";
    lit "403 forbidden";
    lit "department of justice";
    lit "justice.gov";
    lit "you are not authorized";
    lit "access to this page is restricted" ].

Definition WAYBACK_ERROR_INDICATORS : list pystr :=
  [ lit "the wayback machine has not archived";
    lit "this url has been excluded from the wayback machine";
    lit "hrly captures";
    lit "web.archive.org/web/";
    lit "sorry. this url has been excluded";
    lit "this snapshot cannot be displayed";
    lit "wayback machine doesn't have that page archived";
    lit "got an http 302 response" ].

Definition GENERIC_ERROR_INDICATORS : list pystr :=
  [ lit "page not found";
    lit "404 not found";
    lit "404 error";
    lit "the page you are looking for";
    lit "this page has been removed";
    lit "this page is no longer available";
    lit "the requested url was not found";
    lit "we're sorry, but the page you requested";
    lit "content no longer available";
    lit "has been archived or removed";
    lit "server error";
    lit "500 internal server error";
    lit "502 bad gateway";
    lit "503 service unavailable" ].

Definition SHELL_ONLY_PATTERNS : list string :=
  [ "skip\s+to\s+(main\s+)?content";
    "skip\s+navigation" ].

(** The dict [FILE_SIGNATURES], in insertion order. *)
Definition FILE_SIGNATURES : list (bytes * string) :=
  [ (b "%PDF", "pdf");
    (b "PK" ++ [x03; x04], "zip_based");
    ([xd0; xcf; x11], "ole");
    (x89 :: b "PNG", "png");
    ([xff; xd8; xff], "jpg");
    (b "GIF8", "gif");
    (b "{\", "rtf") ].

(** The [for sig, ftype in FILE_SIGNATURES.items()] loop of
    [detect_file_type]. *)
Fixpoint match_signature (sigs : list (bytes * string)) (header : bytes)
  : option string :=
  match sigs with
  | [] => None
  | (sig, ftype) :: sigs' =>
      if bytes_startswith header sig then Some ftype
      else match_signature sigs' header
  end.

(** The signatures of the binary document formats that [validate_content]
    accepts without inspection. *)
Definition is_document_signature (sig : bytes) : Prop :=
  exists ftype,
    In (sig, ftype) FILE_SIGNATURES
    /\ In ftype ["pdf"; "zip_based"; "ole"; "rtf"].

Record ValidationResult := {
  valid : bool;
  filepath : pystr;
  reason : string;
  details : list (string * (nat + string + list pystr))
}.

Definition d_int (n : nat) : nat + string + list pystr := inl (inl n).
Definition d_tag (s : string) : nat + string + list pystr := inl (inr s).
Definition d_list (l : list pystr) : nat + string + list pystr := inr l.

Section WithRuntime.
Context {RT : PyRuntime}.

Definition detect_file_type (fs : filesystem) (fpath : pystr) : string :=
  match fs_read fs fpath with
  | None => "unknown"
  | Some data =>
      let header := firstn 16 data in
      match match_signature FILE_SIGNATURES header with
      | Some ftype => ftype
      | None =>
          let text_start := lower (strip (decode_utf8_ignore header)) in
          if startswith text_start "<!doctype"
             || startswith text_start "<html"
             || startswith text_start "<?xml"
          then "html"
          else
            let sample := firstn 2000 (read_text data) in
            if contains (lower sample) "<html" || contains (lower sample) "<body"
            then "html"
            else "text"
      end
  end.

Definition is_html_masquerading_as_pdf (fs : filesystem) (fpath : pystr) : bool :=
  let ext := lower (snd (splitext fpath)) in
  if negb (str_eqb ext ".pdf") then false
  else String.eqb (detect_file_type fs fpath) "html".

Definition block_pattern (tag : string) : string :=
  ("<" ++ tag ++ "[^>]*>.*?</" ++ tag ++ ">")%string.

Definition extract_visible_text (html_content : pystr) : pystr :=
  let text := html_content in
  let text :=
    fold_left
      (fun text tag =>
         re_sub (block_pattern tag) {| DOTALL := true; IGNORECASE := true |}
                [] text)
      [ "script"; "style"; "noscript"; "nav"; "header"; "footer" ]
      text in
  let text := re_sub "<[^>]+>" no_flags " " text in
  let text := replace (replace text "&nbsp;" " ")
                      "&amp;" "&" in
  let text := replace (replace text "&lt;" "<")
                      "&gt;" ">" in
  let text := re_sub "&#?\w+;" no_flags " " text in
  let text := strip (re_sub "\s+" no_flags " " text) in
  text.

Definition check_for_junk_indicators (text : pystr) (indicators : list pystr)
  : list pystr :=
  let text_lower := lower text in
  filter (fun indicator => contains text_lower (lower indicator)) indicators.

(** A text contains one of the indicator phrases, the way
    [check_for_junk_indicators] tests it: the lowered phrase occurs in the
    lowered text. *)
Definition has_indicator (text : pystr) (indicators : list pystr) : Prop :=
  exists indicator,
    In indicator indicators /\ contains (lower text) (lower indicator) = true.

(** The loop over [SHELL_ONLY_PATTERNS] in [is_empty_shell]: [Some] is the
    [return] inside the loop. *)
Fixpoint shell_loop (patterns : list string) (html_content visible_text : pystr)
  (min_chars : nat) : option (bool * nat * string) :=
  match patterns with
  | [] => None
  | pattern :: patterns' =>
      if match re_search pattern {| DOTALL := false; IGNORECASE := true |}
                         html_content with
         | Some _ => length visible_text <? min_chars
         | None => false
         end
      then Some (true, length visible_text, "shell_page_no_content")
      else shell_loop patterns' html_content visible_text min_chars
  end.

Definition is_empty_shell (html_content : pystr) (min_chars : nat)
  : bool * nat * string :=
  let visible_text := extract_visible_text html_content in
  match shell_loop SHELL_ONLY_PATTERNS html_content visible_text min_chars with
  | Some r => r
  | None =>
      if length visible_text <? min_chars
      then (true, length visible_text, "insufficient_content")
      else (false, length visible_text, "ok")
  end.

Definition result (v : bool) (fpath : pystr) (r : string)
  (d : list (string * (nat + string + list pystr))) : ValidationResult :=
  {| valid := v; filepath := fpath; reason := r; details := d |}.

(** [validate_content(filepath, min_text_chars=500)].  The file is read from
    [fs]; a file that exists can be read, so the [read_error] exit of the
    source is not taken. *)
Definition validate_content (fs : filesystem) (fpath : pystr)
  (min_text_chars : nat) : ValidationResult :=
  match fs_read fs fpath with
  | None => result false fpath "file_not_found" []
  | Some data =>
      let file_size := length data in
      if file_size =? 0 then result false fpath "file_empty" []
      else if file_size <? 200 then
        result false fpath "file_too_small" [("size_bytes", d_int file_size)]
      else
        let actual_type := detect_file_type fs fpath in
        if tag_in actual_type ["pdf"; "zip_based"; "ole"; "rtf"] then
          result true fpath "ok"
                 [("actual_type", d_tag actual_type);
                  ("size_bytes", d_int file_size)]
        else if tag_in actual_type ["png"; "jpg"; "gif"] then
          result true fpath "ok"
                 [("actual_type", d_tag actual_type);
                  ("size_bytes", d_int file_size)]
        else if negb (tag_in actual_type ["html"; "text"]) then
          if 5000 <? file_size then
            result true fpath "ok"
                   [("actual_type", d_tag "unknown_binary");
                    ("size_bytes", d_int file_size)]
          else
            result false fpath "file_too_small"
                   [("actual_type", d_tag actual_type);
                    ("size_bytes", d_int file_size)]
        else
          let content := read_text data in
          let ext := lower (snd (splitext fpath)) in
          if str_eqb ext ".pdf" && String.eqb actual_type "html" then
            result false fpath "html_masquerade"
                   [("declared_type", d_tag "pdf"); ("actual_type", d_tag "html")]
          else
            let doj_matches := check_for_junk_indicators content DOJ_INDICATORS in
            if truthy doj_matches then
              result false fpath "doj_access_denied"
                     [("matched_indicators", d_list doj_matches)]
            else
              let wb_matches :=
                check_for_junk_indicators content WAYBACK_ERROR_INDICATORS in
              if truthy wb_matches then
                result false fpath "wayback_error"
                       [("matched_indicators", d_list wb_matches)]
              else
                let err_matches :=
                  check_for_junk_indicators content GENERIC_ERROR_INDICATORS in
                let generic_error :=
                  if truthy err_matches then
                    let visible_text := extract_visible_text content in
                    if length visible_text <? 2000 then
                      Some (result false fpath "generic_error_page"
                              [("matched_indicators", d_list err_matches);
                               ("visible_chars", d_int (length visible_text))])
                    else None
                  else None in
                match generic_error with
                | Some r => r
                | None =>
                    let '(is_shell, char_count, shell_reason) :=
                      is_empty_shell content min_text_chars in
                    if is_shell then
                      result false fpath shell_reason
                             [("visible_chars", d_int char_count)]
                    else
                      result true fpath "ok"
                             [("actual_type", d_tag actual_type);
                              ("size_bytes", d_int file_size);
                              ("visible_chars",
                               d_int (length (extract_visible_text content)))]
                end
  end.

End WithRuntime.

End Validate.

(** ** harvest_v2.py *)

Module Harvest.
Import Validate.

(** *** Data *)

(** A [requests.Response]: status, final URL, the two headers the program
    reads, body as [bytes] ([content]) and as [str] ([text]). *)
Record response := {
  status_code : nat;
  url : pystr;
  header_content_type : option pystr;
  header_content_disposition : option pystr;
  content : bytes;
  text : pystr
}.

(** [session.get(u, timeout=30, allow_redirects=True)], retries of the
    mounted adapter included: the answer to the [n]-th request of the run,
    [None] when [requests.exceptions.RequestException] is raised. *)
Definition session := nat -> pystr -> option response.

(** The file dicts returned by the fetchers. *)
Record file_entry := {
  filename : pystr;
  source_url : pystr;
  wayback_url : option pystr;
  page_url : option pystr;
  size_bytes : nat;
  sha256 : option pystr;
  content_type : pystr;
  source : string;
  download_type : option string;
  needs_conversion : bool;
  validation_failed : bool;
  validation : ValidationResult
}.

(** The dicts appended to [metadata["attempts"]]. *)
Record attempt := {
  attempt_source : string;
  attempt_result : string
}.

Record row_data := {
  row_id : pystr;
  office : pystr;
  doc_number : pystr;
  title : pystr;
  date : pystr;
  doc_type : pystr;
  urls : list pystr
}.

Record portal_entry := {
  sheet : pystr;
  portal_url : option pystr;
  entry_status : option pystr
}.

Definition portal_map := list (pystr * portal_entry).

Fixpoint portal_get (pm : portal_map) (k : pystr) : option portal_entry :=
  match pm with
  | [] => None
  | (k', e) :: pm' => if str_eqb k' k then Some e else portal_get pm' k
  end.

Record metadata := {
  md_row_id : pystr;
  md_office : pystr;
  md_doc_number : pystr;
  md_title : pystr;
  md_date : pystr;
  md_doc_type : pystr;
  md_urls : list pystr;
  portal_status : pystr;
  status : string;
  source_used : option string;
  files_downloaded : list file_entry;
  attempts : list attempt
}.

Definition set_attempts (m : metadata) (l : list attempt) : metadata :=
  {| md_row_id := md_row_id m; md_office := md_office m;
     md_doc_number := md_doc_number m; md_title := md_title m;
     md_date := md_date m; md_doc_type := md_doc_type m;
     md_urls := md_urls m; portal_status := portal_status m;
     status := status m; source_used := source_used m;
     files_downloaded := files_downloaded m; attempts := l |}.

(** The three assignments [files_downloaded], [source_used], [status]. *)
Definition set_outcome (m : metadata) (fl : list file_entry)
  (src : option string) (st : string) : metadata :=
  {| md_row_id := md_row_id m; md_office := md_office m;
     md_doc_number := md_doc_number m; md_title := md_title m;
     md_date := md_date m; md_doc_type := md_doc_type m;
     md_urls := md_urls m; portal_status := portal_status m;
     status := st; source_used := src;
     files_downloaded := fl; attempts := attempts m |}.

(** [metadata["attempts"].append({"source": s, "result": r})] *)
Definition append_attempt (m : metadata) (s r : string) : metadata :=
  set_attempts m (attempts m ++ [{| attempt_source := s; attempt_result := r |}]).

(** *** The world *)

(** The calls of [logger.debug], with the source tag of the line. *)
Inductive message :=
| Trying (u : pystr)
| RequestFailed (u : pystr)
| FailedValidation (r : string)
| FoundFileLink (name : pystr)
| Rejected (why : string).

Record log_line := { tag : string; msg : message }.

(** What a [metadata.json] holds: [json.load] fails, or gives a record. *)
Inductive metadata_json :=
| Unparsable
| Parsed (existing : metadata).

Record world := {
  files : filesystem;
  metadata_files : list (pystr * metadata_json);
  requests : list pystr;
  log : list log_line
}.

Fixpoint metadata_read (l : list (pystr * metadata_json)) (p : pystr)
  : option metadata_json :=
  match l with
  | [] => None
  | (q, j) :: l' => if str_eqb q p then Some j else metadata_read l' p
  end.

(** A state monad over the world. *)
Definition M (A : Type) : Type := world -> A * world.

Definition ret {A : Type} (a : A) : M A := fun w => (a, w).

Definition bind {A B : Type} (c : M A) (k : A -> M B) : M B :=
  fun w => let (a, w') := c w in k a w'.

Notation "x <- c ;; k" := (bind c (fun x => k))
  (at level 61, c at next level, right associativity).
Notation "c ;;; k" := (bind c (fun _ => k))
  (at level 61, right associativity).

Definition debug (src : string) (m : message) : M unit :=
  fun w =>
    (tt, {| files := files w; metadata_files := metadata_files w;
            requests := requests w;
            log := log w ++ [{| tag := src; msg := m |}] |}).

Definition session_get (s : session) (u : pystr) : M (option response) :=
  fun w =>
    (s (length (requests w)) u,
     {| files := files w; metadata_files := metadata_files w;
        requests := requests w ++ [u]; log := log w |}).

Definition on_files (f : filesystem -> filesystem) : M unit :=
  fun w =>
    (tt, {| files := f (files w); metadata_files := metadata_files w;
            requests := requests w; log := log w |}).

Definition write_bytes (p : pystr) (data : bytes) : M unit :=
  on_files (fun fs => fs_write fs p data).

Definition os_remove (p : pystr) : M unit :=
  on_files (fun fs => fs_remove fs p).

Definition read_files {A : Type} (f : filesystem -> A) : M A :=
  fun w => (f (files w), w).

Definition getsize (fs : filesystem) (p : pystr) : nat :=
  match fs_read fs p with
  | Some data => length data
  | None => 0
  end.

(** *** Helpers *)

(** [resp.raise_for_status()] raises [HTTPError]. *)
Definition raises_for_status (resp : response) : bool :=
  (400 <=? status_code resp) && (status_code resp <? 600).

Definition header (h : option pystr) : pystr :=
  match h with
  | Some v => v
  | None => []
  end.

(** [any(ct in content_type for ct in l)] *)
Definition any_in (content_type : pystr) (l : list string) : bool :=
  existsb (fun ct => contains content_type (lit ct)) l.

Definition dquote : string :=
  String (Ascii.Ascii false true false false false true false false) EmptyString.

(** [s.strip(chars)] *)
Fixpoint lstrip_chars (chars s : pystr) : pystr :=
  match s with
  | [] => []
  | c :: s' => if existsb (N.eqb c) chars then lstrip_chars chars s' else s
  end.

Definition strip_chars (chars s : pystr) : pystr :=
  rev (lstrip_chars chars (rev (lstrip_chars chars s))).

(** The [while os.path.exists(fpath)] loop; the file system holds finitely
    many files, which bounds the number of turns. *)
Fixpoint avoid_overwriting (fuel : nat) (fs : filesystem)
  (base ext fpath : pystr) (counter : nat) : pystr :=
  match fuel with
  | O => fpath
  | S fuel' =>
      if fs_exists fs fpath
      then avoid_overwriting fuel' fs base ext
             (base ++ lit "_" ++ str_of_nat counter ++ ext) (S counter)
      else fpath
  end.

Section WithRuntime.
Context {RT : PyRuntime}.

Definition unused_path (fs : filesystem) (fpath : pystr) : pystr :=
  let '(base, ext) := splitext fpath in
  avoid_overwriting (2 + length fs) fs base ext fpath 1.

Definition sha256_file (fs : filesystem) (p : pystr) : pystr :=
  match fs_read fs p with
  | Some data => sha256_hex data
  | None => sha256_hex []
  end.

Definition safe_filename (name : pystr) : pystr :=
  let max_len := 100 in
  let name :=
    re_sub ("[<>:" ++ dquote ++ "/\\|?*]")%string no_flags (lit "_") name in
  let name := strip_chars (lit "_.") (re_sub "\s+" no_flags (lit "_") name) in
  if truthy name then firstn max_len name else lit "document".

Definition ext_map : list (string * string) :=
  [ ("pdf", ".pdf"); ("msword", ".doc"); ("wordprocessingml", ".docx");
    ("spreadsheetml", ".xlsx"); ("ms-excel", ".xls");
    ("presentationml", ".pptx"); ("ms-powerpoint", ".ppt");
    ("html", ".html"); ("plain", ".txt"); ("rtf", ".rtf") ].

Fixpoint guess_ext (m : list (string * string)) (ct : pystr) : string :=
  match m with
  | [] => ".bin"
  | (key, val) :: m' => if contains ct (lit key) then val else guess_ext m' ct
  end.

Definition path_name_of (u : pystr) : option pystr :=
  let path_name := basename (urlparse_path u) in
  if truthy path_name && contains path_name (lit ".") then Some path_name
  else None.

Definition guess_filename (resp : response) (original_url : pystr) : pystr :=
  let cd := header (header_content_disposition resp) in
  let from_header :=
    if contains cd (lit "filename=") then
      match re_search
              ("filename[*]?=" ++ dquote ++ "?([^" ++ dquote ++ ";\n]+)"
                 ++ dquote ++ "?")%string
              no_flags cd with
      | Some groups => Some (safe_filename (nth 1 groups []))
      | None => None
      end
    else None in
  match from_header with
  | Some name => name
  | None =>
      match path_name_of (url resp) with
      | Some path_name => safe_filename path_name
      | None =>
          match path_name_of original_url with
          | Some path_name => safe_filename path_name
          | None =>
              let ct := lower (header (header_content_type resp)) in
              lit "document" ++ lit (guess_ext ext_map ct)
          end
      end
  end.

(** [session.get] followed by [raise_for_status] inside one [try]: [None]
    is the [except requests.exceptions.RequestException] exit. *)
Definition get_checked (s : session) (u : pystr) : M (option response) :=
  r <- session_get s u ;;
  ret match r with
      | Some resp => if raises_for_status resp then None else Some resp
      | None => None
      end.

(** *** Fetchers *)

Definition save_html_page (html_content page_url row_dir : pystr)
  (src : string) : M (list file_entry) :=
  let html_path := path_join row_dir (lit "page_content.html") in
  write_bytes html_path (write_text html_content) ;;;
  vr <- read_files (fun fs => validate_content fs html_path 500) ;;
  size <- read_files (fun fs => getsize fs html_path) ;;
  if valid vr then
    hash <- read_files (fun fs => sha256_file fs html_path) ;;
    ret [ {| filename := lit "page_content.html"; source_url := page_url;
             wayback_url := None; page_url := None; size_bytes := size;
             sha256 := Some hash; content_type := lit "text/html";
             source := src; download_type := None;
             needs_conversion := true; validation_failed := false;
             validation := vr |} ]
  else
    debug src (FailedValidation (reason vr)) ;;;
    ret [ {| filename := lit "page_content.html"; source_url := page_url;
             wayback_url := None; page_url := None; size_bytes := size;
             sha256 := None; content_type := lit "text/html";
             source := src; download_type := None;
             needs_conversion := false; validation_failed := true;
             validation := vr |} ].

Definition file_extensions : list string :=
  [ ".pdf"; ".doc"; ".docx"; ".xls"; ".xlsx"; ".ppt"; ".pptx"; ".rtf"; ".txt" ].

(** The [for tag in soup.find_all("a", href=True)] loop of
    [scrape_page_for_files], with its two accumulators. *)
Fixpoint scrape_links (hrefs : list pystr) (page : pystr) (s : session)
  (row_dir : pystr) (src : string)
  (downloaded : list file_entry) (seen_urls : list pystr)
  : M (list file_entry) :=
  match hrefs with
  | [] => ret downloaded
  | h :: hrefs' =>
      let href := strip h in
      if negb (truthy href) then
        scrape_links hrefs' page s row_dir src downloaded seen_urls
      else
        let full_url := urljoin page href in
        let path := urlparse_path full_url in
        let ext := lower (snd (splitext path)) in
        if existsb (fun e => str_eqb ext (lit e)) file_extensions
           && negb (existsb (str_eqb full_url) seen_urls)
        then
          let seen_urls := full_url :: seen_urls in
          debug src (FoundFileLink (basename path)) ;;;
          r <- get_checked s full_url ;;
          match r with
          | None =>
              debug src (RequestFailed full_url) ;;;
              scrape_links hrefs' page s row_dir src downloaded seen_urls
          | Some dl_resp =>
              let fname := guess_filename dl_resp full_url in
              fpath <- read_files
                         (fun fs => unused_path fs (path_join row_dir fname)) ;;
              let fname := basename fpath in
              write_bytes fpath (content dl_resp) ;;;
              vr <- read_files (fun fs => validate_content fs fpath 500) ;;
              if valid vr then
                size <- read_files (fun fs => getsize fs fpath) ;;
                hash <- read_files (fun fs => sha256_file fs fpath) ;;
                scrape_links hrefs' page s row_dir src
                  (downloaded ++
                   [ {| filename := fname; source_url := full_url;
                        wayback_url := None; page_url := Some page;
                        size_bytes := size; sha256 := Some hash;
                        content_type := header (header_content_type dl_resp);
                        source := src;
                        download_type := Some "scraped_from_page";
                        needs_conversion := false;
                        validation_failed := false; validation := vr |} ])
                  seen_urls
              else
                debug src (FailedValidation (reason vr)) ;;;
                os_remove fpath ;;;
                scrape_links hrefs' page s row_dir src downloaded seen_urls
          end
        else scrape_links hrefs' page s row_dir src downloaded seen_urls
  end.

(** [bs4] is listed in the requirements of the script: the import in
    [scrape_page_for_files] succeeds. *)
Definition scrape_page_for_files (resp : response) (page : pystr)
  (s : session) (row_dir : pystr) (src : string) : M (list file_entry) :=
  downloaded <- scrape_links (soup_hrefs (text resp)) page s row_dir src [] [] ;;
  if truthy downloaded then ret downloaded
  else save_html_page (text resp) page row_dir src.

Definition try_download_url (u : pystr) (s : session) (row_dir : pystr)
  (src : string) : M (list file_entry) :=
  r <- get_checked s u ;;
  match r with
  | None => debug src (RequestFailed u) ;;; ret []
  | Some resp =>
      let content_type := lower (header (header_content_type resp)) in
      if any_in content_type
           [ "pdf"; "msword"; "officedocument"; "octet-stream"; "ms-excel";
             "ms-powerpoint"; "rtf" ]
      then
        let fname := guess_filename resp u in
        fpath <- read_files
                   (fun fs => unused_path fs (path_join row_dir fname)) ;;
        let fname := basename fpath in
        write_bytes fpath (content resp) ;;;
        vr <- read_files (fun fs => validate_content fs fpath 500) ;;
        if valid vr then
          size <- read_files (fun fs => getsize fs fpath) ;;
          hash <- read_files (fun fs => sha256_file fs fpath) ;;
          ret [ {| filename := fname; source_url := u;
                   wayback_url := None; page_url := None;
                   size_bytes := size; sha256 := Some hash;
                   content_type := content_type; source := src;
                   download_type := None; needs_conversion := false;
                   validation_failed := false; validation := vr |} ]
        else
          debug src (FailedValidation (reason vr)) ;;;
          os_remove fpath ;;;
          ret []
      else if contains content_type (lit "html")
              || contains content_type (lit "text")
      then scrape_page_for_files resp u s row_dir src
      else ret []
  end.

Definition try_portal_source (row : row_data) (pm : portal_map) (s : session)
  (row_dir : pystr) : M (list file_entry) :=
  let purl :=
    match portal_get pm (row_id row) with
    | Some e => header (portal_url e)
    | None => []
    end in
  if negb (truthy purl) then ret []
  else
    debug "portal" (Trying purl) ;;;
    try_download_url purl s row_dir "portal".

(** The [for url in urls] loop of [try_direct_urls]. *)
Fixpoint direct_loop (l : list pystr) (s : session) (row_dir : pystr)
  (all_files : list file_entry) : M (list file_entry) :=
  match l with
  | [] => ret all_files
  | u :: l' =>
      debug "direct" (Trying u) ;;;
      fl <- try_download_url u s row_dir "direct" ;;
      let all_files := all_files ++ fl in
      if truthy fl then ret all_files
      else direct_loop l' s row_dir all_files
  end.

Definition try_direct_urls (row : row_data) (s : session) (row_dir : pystr)
  : M (list file_entry) :=
  if negb (truthy (urls row)) then ret []
  else direct_loop (urls row) s row_dir [].

(** The [for url in urls[:3]] loop of [try_wayback_source]; every
    [continue] is the recursive call. *)
Fixpoint wayback_loop (l : list pystr) (s : session) (row_dir : pystr)
  : M (list file_entry) :=
  match l with
  | [] => ret []
  | u :: l' =>
      let wb_url := lit "https://web.archive.org/web/2/" ++ u in
      debug "wayback" (Trying wb_url) ;;;
      r <- session_get s wb_url ;;
      match r with
      | None =>
          debug "wayback" (RequestFailed wb_url) ;;;
          wayback_loop l' s row_dir
      | Some resp =>
          if negb (status_code resp =? 200) then wayback_loop l' s row_dir
          else
            let final_url := url resp in
            if contains (lower (urlparse_netloc final_url)) (lit "justice.gov")
            then
              debug "wayback" (Rejected "redirected to DOJ") ;;;
              wayback_loop l' s row_dir
            else
              let content_type := lower (header (header_content_type resp)) in
              if any_in content_type
                   [ "pdf"; "msword"; "officedocument"; "octet-stream" ]
              then
                let fname := guess_filename resp u in
                let fpath := path_join row_dir fname in
                write_bytes fpath (content resp) ;;;
                vr <- read_files (fun fs => validate_content fs fpath 500) ;;
                if valid vr then
                  size <- read_files (fun fs => getsize fs fpath) ;;
                  hash <- read_files (fun fs => sha256_file fs fpath) ;;
                  ret [ {| filename := fname; source_url := u;
                           wayback_url := Some wb_url; page_url := None;
                           size_bytes := size; sha256 := Some hash;
                           content_type := content_type; source := "wayback";
                           download_type := None; needs_conversion := false;
                           validation_failed := false; validation := vr |} ]
                else
                  debug "wayback" (FailedValidation (reason vr)) ;;;
                  os_remove fpath ;;;
                  wayback_loop l' s row_dir
              else if contains content_type (lit "html")
                      || contains content_type (lit "text")
              then
                let html_content := text resp in
                if truthy (check_for_junk_indicators html_content DOJ_INDICATORS)
                then
                  debug "wayback" (Rejected "DOJ content detected") ;;;
                  wayback_loop l' s row_dir
                else if truthy (check_for_junk_indicators html_content
                                  WAYBACK_ERROR_INDICATORS)
                then
                  debug "wayback" (Rejected "Wayback error page") ;;;
                  wayback_loop l' s row_dir
                else
                  let html_fname := lit "wayback_page.html" in
                  let html_path := path_join row_dir html_fname in
                  write_bytes html_path (write_text html_content) ;;;
                  vr <- read_files
                          (fun fs => validate_content fs html_path 500) ;;
                  if valid vr then
                    size <- read_files (fun fs => getsize fs html_path) ;;
                    hash <- read_files (fun fs => sha256_file fs html_path) ;;
                    ret [ {| filename := html_fname; source_url := u;
                             wayback_url := Some wb_url; page_url := None;
                             size_bytes := size; sha256 := Some hash;
                             content_type := lit "text/html";
                             source := "wayback"; download_type := None;
                             needs_conversion := true;
                             validation_failed := false; validation := vr |} ]
                  else
                    debug "wayback" (FailedValidation (reason vr)) ;;;
                    os_remove html_path ;;;
                    wayback_loop l' s row_dir
              else wayback_loop l' s row_dir
      end
  end.

Definition try_wayback_source (row : row_data) (s : session) (row_dir : pystr)
  : M (list file_entry) :=
  if negb (truthy (urls row)) then ret []
  else wayback_loop (firstn 3 (urls row)) s row_dir.

(** *** Orchestrator *)

(** [json.dump(metadata, ...)] into [row_dir/metadata.json]. *)
Definition save_metadata (m : metadata) (row_dir : pystr) : M unit :=
  fun w =>
    (tt, {| files := files w;
            metadata_files :=
              (path_join row_dir (lit "metadata.json"), Parsed m)
                :: metadata_files w;
            requests := requests w; log := log w |}).

(** [any(f.get("validation_failed") for f in files)] *)
Definition any_validation_failed (fl : list file_entry) : bool :=
  existsb validation_failed fl.

Definition initial_metadata (row : row_data) (pm : portal_map) : metadata :=
  {| md_row_id := row_id row; md_office := office row;
     md_doc_number := doc_number row; md_title := title row;
     md_date := date row; md_doc_type := doc_type row;
     md_urls := urls row;
     portal_status :=
       match portal_get pm (row_id row) with
       | Some e =>
           match entry_status e with
           | Some st => st
           | None => lit "unknown"
           end
       | None => lit "unknown"
       end;
     status := "pending"; source_used := None;
     files_downloaded := []; attempts := [] |}.

Definition harvest_row (row : row_data) (pm : portal_map) (s : session)
  (output_dir : pystr) (dry_run : bool) : M metadata :=
  let row_dir := path_join output_dir (row_id row) in
  let metadata := initial_metadata row pm in
  if dry_run then ret metadata
  else
    (* 1. Portal *)
    fl <- try_portal_source row pm s row_dir ;;
    let metadata :=
      append_attempt metadata "portal"
                     (if truthy fl then "success" else "no_match") in
    if truthy fl && negb (any_validation_failed fl) then
      let metadata := set_outcome metadata fl (Some "portal") "success" in
      save_metadata metadata row_dir ;;; ret metadata
    else
      (* 2. Direct URLs *)
      fl <- try_direct_urls row s row_dir ;;
      let metadata :=
        append_attempt metadata "direct"
                       (if truthy fl then "success" else "failed") in
      if truthy fl && negb (any_validation_failed fl) then
        let metadata := set_outcome metadata fl (Some "direct") "success" in
        save_metadata metadata row_dir ;;; ret metadata
      else
        (* 3. Wayback Machine *)
        fl <- try_wayback_source row s row_dir ;;
        let metadata :=
          append_attempt metadata "wayback"
                         (if truthy fl then "success" else "failed") in
        if truthy fl && negb (any_validation_failed fl) then
          let metadata := set_outcome metadata fl (Some "wayback") "success" in
          save_metadata metadata row_dir ;;; ret metadata
        else
          (* All sources exhausted: [fl] is the result of the Wayback step *)
          let metadata :=
            if truthy fl && any_validation_failed fl then
              set_outcome metadata fl
                          (Some match fl with
                                | f :: _ => source f
                                | [] => "unknown"
                                end)
                          "validation_failed"
            else if truthy (urls row) then
              set_outcome metadata (files_downloaded metadata)
                          (source_used metadata) "failed"
            else
              set_outcome metadata (files_downloaded metadata)
                          (source_used metadata) "no_urls" in
          save_metadata metadata row_dir ;;; ret metadata.

(** *** The loop of [main] *)

Record arguments := { resume : bool; dry_run : bool }.

(** The dict [stats]; [sources] is the nested dict. *)
Record statistics := {
  total : nat;
  n_success : nat;
  n_failed : nat;
  n_no_urls : nat;
  n_validation_failed : nat;
  n_skipped : nat;
  sources : list (string * nat)
}.

Definition count_skipped (st : statistics) : statistics :=
  {| total := total st; n_success := n_success st; n_failed := n_failed st;
     n_no_urls := n_no_urls st;
     n_validation_failed := n_validation_failed st;
     n_skipped := n_skipped st + 1; sources := sources st |}.

Definition bump (src : string) (l : list (string * nat)) : list (string * nat) :=
  map (fun kv => if String.eqb (fst kv) src then (fst kv, snd kv + 1) else kv) l.

(** The [# Update stats] block. *)
Definition update_stats (st : statistics) (m : metadata) : statistics :=
  if String.eqb (status m) "success" then
    {| total := total st; n_success := n_success st + 1;
       n_failed := n_failed st; n_no_urls := n_no_urls st;
       n_validation_failed := n_validation_failed st;
       n_skipped := n_skipped st;
       sources :=
         match source_used m with
         | Some src => bump src (sources st)
         | None => sources st
         end |}
  else if String.eqb (status m) "no_urls" then
    {| total := total st; n_success := n_success st; n_failed := n_failed st;
       n_no_urls := n_no_urls st + 1;
       n_validation_failed := n_validation_failed st;
       n_skipped := n_skipped st; sources := sources st |}
  else if String.eqb (status m) "validation_failed" then
    {| total := total st; n_success := n_success st; n_failed := n_failed st;
       n_no_urls := n_no_urls st;
       n_validation_failed := n_validation_failed st + 1;
       n_skipped := n_skipped st; sources := sources st |}
  else
    {| total := total st; n_success := n_success st;
       n_failed := n_failed st + 1; n_no_urls := n_no_urls st;
       n_validation_failed := n_validation_failed st;
       n_skipped := n_skipped st; sources := sources st |}.

(** The resume check: [metadata.json] exists, loads, and its status is
    [success]. *)
Definition recorded_success (output_dir : pystr) (row : row_data) : M bool :=
  fun w =>
    let meta_path :=
      path_join (path_join output_dir (row_id row)) (lit "metadata.json") in
    (match metadata_read (metadata_files w) meta_path with
     | Some (Parsed existing) => String.eqb (status existing) "success"
     | Some Unparsable => false
     | None => false
     end, w).

(** [for i, row_data in enumerate(rows)] in [main]. *)
Fixpoint main_loop (args : arguments) (pm : portal_map) (s : session)
  (output_dir : pystr) (rows : list row_data) (st : statistics)
  : M statistics :=
  match rows with
  | [] => ret st
  | row :: rows' =>
      skip <- (if resume args then recorded_success output_dir row
               else ret false) ;;
      if skip then main_loop args pm s output_dir rows' (count_skipped st)
      else
        m <- harvest_row row pm s output_dir (dry_run args) ;;
        main_loop args pm s output_dir rows' (update_stats st m)
  end.

End WithRuntime.

End Harvest.

(** ** An executable runtime for 7-bit text

    Each function below computes what the Python runtime computes when its
    arguments hold only 7-bit characters; the patterns handled by [re_sub]
    and [re_search] are the ones the program uses.  The digest is a
    placeholder: no decision of the program reads it. *)

Module Ascii7.

Definition is_space (c : N) : bool :=
  (N.leb 9 c && N.leb c 13) || (N.leb 28 c && N.leb c 32).

Definition is_word (c : N) : bool :=
  (N.leb 48 c && N.leb c 57) || (N.leb 65 c && N.leb c 90)
  || (N.leb 97 c && N.leb c 122) || N.eqb c 95.

Definition lower_char (c : N) : N :=
  if N.leb 65 c && N.leb c 90 then N.add c 32 else c.

Definition lower (s : pystr) : pystr := map lower_char s.

Fixpoint lstrip (s : pystr) : pystr :=
  match s with
  | [] => []
  | c :: s' => if is_space c then lstrip s' else s
  end.

Definition strip (s : pystr) : pystr := rev (lstrip (rev (lstrip s))).

Definition decode_utf8_ignore (data : bytes) : pystr :=
  filter (fun c => N.ltb c 128) (map Byte.to_N data).

(** Universal newlines of a file opened in text mode. *)
Fixpoint newlines (s : pystr) : pystr :=
  match s with
  | [] => []
  | 13%N :: ((10%N :: _) as s') => newlines s'
  | 13%N :: s' => 10%N :: newlines s'
  | c :: s' => c :: newlines s'
  end.

Definition read_text (data : bytes) : pystr := newlines (decode_utf8_ignore data).

Definition byte_of_char (c : N) : byte :=
  match Byte.of_N c with
  | Some x => x
  | None => x3f
  end.

Definition write_text (s : pystr) : bytes := map byte_of_char s.

(** Case-insensitive prefix test and search. *)
Definition startswith_ci (s p : pystr) : bool := startswith (lower s) (lower p).

(** The text after the first occurrence of [sub] in [s]. *)
Fixpoint after_first (ci : bool) (sub s : pystr) : option pystr :=
  if (if ci then startswith_ci s sub else startswith s sub)
  then Some (skipn (length sub) s)
  else match s with
       | [] => None
       | _ :: s' => after_first ci sub s'
       end.

(** [<tag[^>]*>.*?</tag>] with DOTALL and IGNORECASE, replaced by [repl]. *)
Fixpoint sub_blocks (fuel : nat) (tg repl s : pystr) : pystr :=
  match fuel with
  | O => s
  | S fuel' =>
      match s with
      | [] => []
      | c :: s' =>
          let found :=
            if startswith_ci s (60%N :: tg) then
              match after_first false [62%N] (skipn (length (60%N :: tg)) s) with
              | Some inner => after_first true ([60%N; 47%N] ++ tg ++ [62%N]) inner
              | None => None
              end
            else None in
          match found with
          | Some rest => repl ++ sub_blocks fuel' tg repl rest
          | None => c :: sub_blocks fuel' tg repl s'
          end
      end
  end.

(** [<[^>]+>] *)
Fixpoint sub_tags (fuel : nat) (repl s : pystr) : pystr :=
  match fuel with
  | O => s
  | S fuel' =>
      match s with
      | [] => []
      | c :: s' =>
          let found :=
            match s with
            | 60%N :: c1 :: s'' =>
                if N.eqb c1 62 then None else after_first false [62%N] s''
            | _ => None
            end in
          match found with
          | Some rest => repl ++ sub_tags fuel' repl rest
          | None => c :: sub_tags fuel' repl s'
          end
      end
  end.

Fixpoint drop_while (f : N -> bool) (s : pystr) : pystr :=
  match s with
  | [] => []
  | c :: s' => if f c then drop_while f s' else s
  end.

(** One or more characters of the class [f], greedily. *)
Definition plus (f : N -> bool) (s : pystr) : option pystr :=
  match s with
  | c :: s' => if f c then Some (drop_while f s') else None
  | [] => None
  end.

Definition expect (p s : pystr) (ci : bool) : option pystr :=
  if (if ci then startswith_ci s p else startswith s p)
  then Some (skipn (length p) s) else None.

Definition optional (p s : pystr) : pystr :=
  if startswith s p then skipn (length p) s else s.

Definition and_then {A : Type} (o : option pystr) (k : pystr -> option A)
  : option A :=
  match o with
  | Some s => k s
  | None => None
  end.

(** [&#?\w+;] *)
Definition entity_at (s : pystr) : option pystr :=
  and_then (expect [38%N] s false) (fun s1 =>
  and_then (plus is_word (optional [35%N] s1)) (fun s2 =>
  expect [59%N] s2 false)).

(** [re.sub] for a pattern given by its matcher at a position (every match
    is non-empty). *)
Fixpoint sub_at (fuel : nat) (at_pos : pystr -> option pystr) (repl s : pystr)
  : pystr :=
  match fuel with
  | O => s
  | S fuel' =>
      match s with
      | [] => []
      | c :: s' =>
          match at_pos s with
          | Some rest => repl ++ sub_at fuel' at_pos repl rest
          | None => c :: sub_at fuel' at_pos repl s'
          end
      end
  end.

(** [re.search] for a pattern given by its matcher at a position. *)
Fixpoint search_at {A : Type} (at_pos : pystr -> option A) (s : pystr)
  : option A :=
  match at_pos s with
  | Some r => Some r
  | None => match s with
            | [] => None
            | _ :: s' => search_at at_pos s'
            end
  end.

Definition matched (s rest : pystr) : pystr := firstn (length s - length rest) s.

(** [skip\s+to\s+(main\s+)?content] with IGNORECASE *)
Definition skip_to_content_at (s : pystr) : option (list pystr) :=
  and_then (expect (lit "skip") s true) (fun s1 =>
  and_then (plus is_space s1) (fun s2 =>
  and_then (expect (lit "to") s2 true) (fun s3 =>
  and_then (plus is_space s3) (fun s4 =>
  match and_then (expect (lit "main") s4 true) (fun s5 =>
        and_then (plus is_space s5) (fun s6 =>
        and_then (expect (lit "content") s6 true) (fun s7 =>
        Some [matched s s7; matched s4 s6]))) with
  | Some r => Some r
  | None => and_then (expect (lit "content") s4 true) (fun s5 =>
            Some [matched s s5; []])
  end)))).

(** [skip\s+navigation] with IGNORECASE *)
Definition skip_navigation_at (s : pystr) : option (list pystr) :=
  and_then (expect (lit "skip") s true) (fun s1 =>
  and_then (plus is_space s1) (fun s2 =>
  and_then (expect (lit "navigation") s2 true) (fun s3 =>
  Some [matched s s3]))).

(** The pattern of [guess_filename] for the Content-Disposition header. *)
Definition filename_at (s : pystr) : option (list pystr) :=
  and_then (expect (lit "filename") s false) (fun s1 =>
  and_then (expect [61%N] (optional [42%N] s1) false) (fun s2 =>
  let s3 := optional [34%N] s2 in
  and_then (plus (fun c => negb (N.eqb c 34 || N.eqb c 59 || N.eqb c 10)) s3)
           (fun s4 =>
  Some [matched s (optional [34%N] s4); matched s3 s4]))).

Definition forbidden_in_filename (c : N) : bool :=
  existsb (N.eqb c) [60; 62; 58; 34; 47; 92; 124; 63; 42]%N.

Definition re_sub (pattern : string) (flags : re_flags) (repl s : pystr) : pystr :=
  match find (fun tg => String.eqb pattern (Validate.block_pattern tg))
             [ "script"; "style"; "noscript"; "nav"; "header"; "footer" ] with
  | Some tg => sub_blocks (length s) (lit tg) repl s
  | None =>
      if String.eqb pattern "<[^>]+>" then sub_tags (length s) repl s
      else if String.eqb pattern "&#?\w+;" then sub_at (length s) entity_at repl s
      else if String.eqb pattern "\s+" then sub_at (length s) (plus is_space) repl s
      else if String.eqb pattern ("[<>:" ++ Harvest.dquote ++ "/\\|?*]")%string
      then flat_map (fun c => if forbidden_in_filename c then repl else [c]) s
      else s
  end.

Definition re_search (pattern : string) (flags : re_flags) (s : pystr)
  : option (list pystr) :=
  if String.eqb pattern "skip\s+to\s+(main\s+)?content"
  then search_at skip_to_content_at s
  else if String.eqb pattern "skip\s+navigation"
  then search_at skip_navigation_at s
  else if String.eqb pattern
            ("filename[*]?=" ++ Harvest.dquote ++ "?([^" ++ Harvest.dquote
               ++ ";\n]+)" ++ Harvest.dquote ++ "?")%string
  then search_at filename_at s
  else None.

(** [posixpath] *)
Fixpoint last_index (c : N) (s : pystr) (i : nat) (found : option nat)
  : option nat :=
  match s with
  | [] => found
  | x :: s' => last_index c s' (S i) (if N.eqb x c then Some i else found)
  end.

Definition basename (p : pystr) : pystr :=
  match last_index 47 p 0 None with
  | Some i => skipn (S i) p
  | None => p
  end.

Definition splitext (p : pystr) : pystr * pystr :=
  let name_start :=
    match last_index 47 p 0 None with
    | Some i => S i
    | None => 0
    end in
  match last_index 46 p 0 None with
  | Some dot =>
      if (name_start <=? dot)
         && truthy (drop_while (N.eqb 46) (firstn (dot - name_start)
                                                  (skipn name_start p)))
      then (firstn dot p, skipn dot p)
      else (p, [])
  | None => (p, [])
  end.

Definition path_join (a p : pystr) : pystr :=
  if startswith p [47%N] then p
  else if negb (truthy a) || N.eqb (last a 0%N) 47 then a ++ p
  else a ++ [47%N] ++ p.

(** [urllib.parse] for URLs of the form [scheme://netloc/path?query#fragment] *)
Fixpoint take_until (f : N -> bool) (s : pystr) : pystr :=
  match s with
  | [] => []
  | c :: s' => if f c then [] else c :: take_until f s'
  end.

Definition after_scheme (u : pystr) : pystr :=
  match after_first false (lit "://") u with
  | Some r => r
  | None => u
  end.

Definition is_delim (c : N) : bool := N.eqb c 47 || N.eqb c 63 || N.eqb c 35.

Definition urlparse_netloc (u : pystr) : pystr :=
  match after_first false (lit "://") u with
  | Some r => take_until is_delim r
  | None => []
  end.

Definition urlparse_path (u : pystr) : pystr :=
  take_until (fun c => N.eqb c 63 || N.eqb c 35 || N.eqb c 59)
             (drop_while (fun c => negb (is_delim c)) (after_scheme u)).

Definition urljoin (base href : pystr) : pystr :=
  if contains href (lit "://") then href
  else
    let origin := firstn (length base - length (drop_while (fun c => negb (is_delim c))
                                                         (after_scheme base))) base in
    if startswith href [47%N] then origin ++ href
    else
      let dir := firstn (length (urlparse_path base)
                         - length (basename (urlparse_path base)))
                        (urlparse_path base) in
      origin ++ (if truthy dir then dir else [47%N]) ++ href.

(** The [href] values of the anchors, for double-quoted attributes. *)
Definition href_at (s : pystr) : option pystr :=
  and_then (expect (lit "<a") s true) (fun s1 =>
  and_then (plus is_space s1) (fun _ =>
  and_then (after_first true (lit "href=") (take_until (N.eqb 62) s1)) (fun s2 =>
  and_then (expect [34%N] s2 false) (fun s3 =>
  Some (take_until (N.eqb 34) s3))))).

Fixpoint soup_hrefs (s : pystr) : list pystr :=
  match href_at s with
  | Some h => [h]
  | None => []
  end ++ match s with
         | [] => []
         | _ :: s' => soup_hrefs s'
         end.

Definition sha256_hex (data : bytes) : pystr := lit "sha256".

#[export] Instance runtime : PyRuntime := {
  decode_utf8_ignore := Ascii7.decode_utf8_ignore;
  read_text := Ascii7.read_text;
  write_text := Ascii7.write_text;
  lower := Ascii7.lower;
  strip := Ascii7.strip;
  re_sub := Ascii7.re_sub;
  re_search := Ascii7.re_search;
  splitext := Ascii7.splitext;
  basename := Ascii7.basename;
  path_join := Ascii7.path_join;
  urlparse_path := Ascii7.urlparse_path;
  urlparse_netloc := Ascii7.urlparse_netloc;
  urljoin := Ascii7.urljoin;
  soup_hrefs := Ascii7.soup_hrefs;
  sha256_hex := Ascii7.sha256_hex
}.

End Ascii7.

(** ** Vocabulary of the statements about the source chain *)

Module Spec.
Import Validate Harvest.

(** [w'] is [w] with lines satisfying [P] added to the log and requests
    added to the trace. *)
Definition grows (P : log_line -> Prop) (w w' : world) : Prop :=
  (exists l, log w' = log w ++ l /\ Forall P l)
  /\ (exists r, requests w' = requests w ++ r).

(** A computation that only adds lines satisfying [P] and returns a value
    satisfying [R]. *)
Definition ok {A : Type} (P : log_line -> Prop) (R : A -> Prop) (c : M A)
  : Prop :=
  forall w, grows P w (snd (c w)) /\ R (fst (c w)).

(** A file entry counts as accepted or as rejected by the validator. *)
Definition accepted (f : file_entry) : Prop :=
  valid (validation f) = true /\ validation_failed f = false.

Definition rejected (f : file_entry) : Prop :=
  valid (validation f) = false /\ validation_failed f = true.

(** What a fetcher returns: accepted entries only, or the one entry of a
    page that failed validation. *)
Definition fetched (l : list file_entry) : Prop :=
  Forall accepted l \/ exists f, l = [f] /\ rejected f.

(** The lines written for the source [src]. *)
Definition line_of (src : string) (l : log_line) : Prop := tag l = src.

Section WithRuntime.
Context {RT : PyRuntime}.
(** One turn of the loop of [try_direct_urls], up to its test. *)
Definition direct_fetch (s : session) (row_dir u : pystr)
  : M (list file_entry) :=
  debug "direct" (Trying u) ;;; try_download_url u s row_dir "direct".

(** [misses s row_dir l w w']: starting in [w], each URL of [l] is fetched
    in turn and none returns a file entry; [w'] is the world reached. *)
Inductive misses (s : session) (row_dir : pystr)
  : list pystr -> world -> world -> Prop :=
| misses_nil w : misses s row_dir [] w w
| misses_cons u l w w' w'' :
    direct_fetch s row_dir u w = ([], w') ->
    misses s row_dir l w' w'' ->
    misses s row_dir (u :: l) w w''.
End WithRuntime.


Definition settled (fl : list file_entry) : bool :=
  truthy fl && negb (any_validation_failed fl).

End Spec.

(** ** Reading the inventory: [extract_urls_from_row] *)

Module Inventory.
Import Harvest.

(** A cell of the sheet, as [extract_urls_from_row] reads it: the target
    of its hyperlink when it has one, and [str(cell.value or "")] for
    [value]. *)
Record cell := {
  hyperlink_target : option pystr;
  value : pystr
}.

(** [s.rstrip(chars)] *)
Definition rstrip_chars (chars s : pystr) : pystr :=
  rev (lstrip_chars chars (rev s)).

(** [u in seen] *)
Definition seen_in (u : pystr) (seen : list pystr) : bool :=
  existsb (str_eqb u) seen.

(** The pattern of the URLs embedded in a text: [https?://] followed by
    characters that are neither spaces nor angle brackets nor quotes. *)
Definition url_pattern : string :=
  ("https?://[^\s<>" ++ dquote ++ "\']+")%string.

Section WithRuntime.
Context {RT : PyRuntime}.

(** [re.findall(pattern, text)] *)
Variable re_findall : string -> pystr -> list pystr.

(** The loop [for u in url_pattern]. *)
Fixpoint add_found (found : list pystr) (l seen : list pystr)
  : list pystr * list pystr :=
  match found with
  | [] => (l, seen)
  | u :: found' =>
      let u := rstrip_chars (lit ".,;:)") u in
      if negb (seen_in u seen) then add_found found' (l ++ [u]) (u :: seen)
      else add_found found' l seen
  end.

(** The body of the loop [for col_idx in col_indices], for a cell. *)
Definition add_cell (c : cell) (l seen : list pystr)
  : list pystr * list pystr :=
  let '(l, seen) :=
    match hyperlink_target c with
    | Some target =>
        if truthy target then
          let u := strip target in
          if truthy u && negb (seen_in u seen) && startswith u (lit "http")
          then (l ++ [u], u :: seen)
          else (l, seen)
        else (l, seen)
    | None => (l, seen)
    end in
  let val := strip (value c) in
  let '(l, seen) :=
    if startswith val (lit "http") && negb (seen_in val seen)
    then (l ++ [val], val :: seen)
    else (l, seen) in
  add_found (re_findall url_pattern val) l seen.

Fixpoint extract_loop (row : list cell) (col_indices : list nat)
  (l seen : list pystr) : list pystr :=
  match col_indices with
  | [] => l
  | col_idx :: col_indices' =>
      match nth_error row col_idx with
      | None => extract_loop row col_indices' l seen
      | Some c =>
          let '(l, seen) := add_cell c l seen in
          extract_loop row col_indices' l seen
      end
  end.

Definition extract_urls_from_row (row : list cell) (col_indices : list nat)
  : list pystr :=
  extract_loop row col_indices [] [].

End WithRuntime.
End Inventory.

(** ** Validation of directories: [validate_directory] and
    [validate_existing] *)

Module Revalidate.
Import Validate Harvest.

(** [sorted(names)]: insertion sort by code points. *)
Fixpoint str_leb (s t : pystr) : bool :=
  match s, t with
  | [], _ => true
  | _ :: _, [] => false
  | x :: s', y :: t' =>
      if N.ltb x y then true else if N.ltb y x then false else str_leb s' t'
  end.

Fixpoint insert_sorted (x : pystr) (l : list pystr) : list pystr :=
  match l with
  | [] => [x]
  | y :: l' => if str_leb x y then x :: l else y :: insert_sorted x l'
  end.

Definition sorted (l : list pystr) : list pystr :=
  fold_right insert_sorted [] l.

(** The dict [stats] of [validate_existing], with its nested dict
    [reasons] in insertion order, and the entries of [invalid_details]. *)
Record validation_stats := {
  total_rows : nat;
  valid_rows : nat;
  invalid_rows : nat;
  reasons : list (string * nat)
}.

Record invalid_detail := {
  detail_row : pystr;
  detail_file : pystr;
  detail_reason : string;
  detail_details : list (string * (nat + string + list pystr))
}.

(** [reasons[reason] = reasons.get(reason, 0) + 1] *)
Fixpoint count_reason (r : string) (l : list (string * nat))
  : list (string * nat) :=
  match l with
  | [] => [(r, 1)]
  | (k, v) :: l' =>
      if String.eqb k r then (k, v + 1) :: l' else (k, v) :: count_reason r l'
  end.

Section WithRuntime.
Context {RT : PyRuntime}.

(** [os.listdir(d)] for a directory [d], [None] when [os.path.isdir(d)] is
    false; [os.path.isfile(p)] is [fs_exists]. *)
Variable listdir : pystr -> option (list pystr).

(** [name.isdigit()] *)
Variable isdigit : pystr -> bool.

(** The loop of [validate_directory]. *)
Fixpoint directory_loop (fs : filesystem) (dir_path : pystr)
  (names : list pystr) (min_text_chars : nat)
  (results : list ValidationResult) : list ValidationResult :=
  match names with
  | [] => results
  | fname :: names' =>
      if str_eqb fname (lit "metadata.json")
      then directory_loop fs dir_path names' min_text_chars results
      else
        let fpath := path_join dir_path fname in
        if fs_exists fs fpath
        then directory_loop fs dir_path names' min_text_chars
               (results ++ [validate_content fs fpath min_text_chars])
        else directory_loop fs dir_path names' min_text_chars results
  end.

Definition validate_directory (fs : filesystem) (dir_path : pystr)
  (min_text_chars : nat) : list ValidationResult :=
  match listdir dir_path with
  | None => []
  | Some names => directory_loop fs dir_path names min_text_chars []
  end.

(** The inner loop of [validate_existing], over the files of a row. *)
Fixpoint files_loop (fs : filesystem) (folder_name row_dir : pystr)
  (names : list pystr) (row_valid : bool) (rs : list (string * nat))
  (invalid_details : list invalid_detail)
  : bool * list (string * nat) * list invalid_detail :=
  match names with
  | [] => (row_valid, rs, invalid_details)
  | fname :: names' =>
      if str_eqb fname (lit "metadata.json")
      then files_loop fs folder_name row_dir names' row_valid rs
                      invalid_details
      else
        let fpath := path_join row_dir fname in
        if negb (fs_exists fs fpath)
        then files_loop fs folder_name row_dir names' row_valid rs
                        invalid_details
        else
          let vr := validate_content fs fpath 500 in
          if valid vr
          then files_loop fs folder_name row_dir names' true rs
                          invalid_details
          else files_loop fs folder_name row_dir names' row_valid
                 (count_reason (reason vr) rs)
                 (invalid_details ++
                  [ {| detail_row := folder_name; detail_file := fname;
                       detail_reason := reason vr;
                       detail_details := details vr |} ])
  end.

(** The outer loop, over the folders of the output directory. *)
Fixpoint rows_loop (fs : filesystem) (output_dir : pystr)
  (folders : list pystr) (st : validation_stats)
  (invalid_details : list invalid_detail)
  : validation_stats * list invalid_detail :=
  match folders with
  | [] => (st, invalid_details)
  | folder_name :: folders' =>
      let row_dir := path_join output_dir folder_name in
      match listdir row_dir with
      | None => rows_loop fs output_dir folders' st invalid_details
      | Some names =>
          if negb (isdigit folder_name)
          then rows_loop fs output_dir folders' st invalid_details
          else
            let '(row_valid, rs, invalid_details) :=
              files_loop fs folder_name row_dir names false (reasons st)
                         invalid_details in
            rows_loop fs output_dir folders'
              (if row_valid
               then {| total_rows := total_rows st + 1;
                       valid_rows := valid_rows st + 1;
                       invalid_rows := invalid_rows st; reasons := rs |}
               else {| total_rows := total_rows st + 1;
                       valid_rows := valid_rows st;
                       invalid_rows := invalid_rows st + 1; reasons := rs |})
              invalid_details
      end
  end.

(** [validate_existing(output_dir)]: the statistics it returns and the
    list it writes to the report; [None] when [os.listdir(output_dir)]
    raises.  Printing and the report file have no counterpart. *)
Definition validate_existing (fs : filesystem) (output_dir : pystr)
  : option (validation_stats * list invalid_detail) :=
  match listdir output_dir with
  | None => None
  | Some names =>
      Some (rows_loop fs output_dir (sorted names)
              {| total_rows := 0; valid_rows := 0; invalid_rows := 0;
                 reasons := [] |}
              [])
  end.

End WithRuntime.
End Revalidate.

(** ** Vocabulary of the further statements *)

Module Spec2.
Import Validate Harvest.

(** The requests that a computation adds to the trace, with its result. *)
Definition reqs {A : Type} (P : list pystr -> A -> Prop) (c : M A) : Prop :=
  forall w,
    exists new,
      requests (snd (c w)) = requests w ++ new /\ P new (fst (c w)).

(** A computation that requests nothing. *)
Definition silent {A : Type} (c : M A) : Prop :=
  forall w, requests (snd (c w)) = requests w.

(** A computation that leaves the files as they are. *)
Definition keeps_files {A : Type} (c : M A) : Prop :=
  forall w, files (snd (c w)) = files w.


(** The address asked from the Wayback Machine for a URL. *)
Definition wayback_address (u : pystr) : pystr :=
  lit "https://web.archive.org/web/2/" ++ u.

(** The sum of the counters of a dict of counts. *)
Definition sum_counts (l : list (string * nat)) : nat :=
  fold_right (fun kv n => snd kv + n) 0 l.

(** What the Wayback step returns: at most one entry, accepted by the
    validator and tagged with the source [wayback]. *)
Definition wayback_result (l : list file_entry) : Prop :=
  length l <= 1
  /\ Forall (fun f => Spec.accepted f /\ source f = "wayback") l.

(** Entries that carry the tag of the source [src]. *)
Definition from_source (src : string) (l : list file_entry) : Prop :=
  Forall (fun f => source f = src) l.

(** The state of the loop of [extract_urls_from_row]: the list of URLs
    has no duplicate and [seen] holds its elements. *)
Definition collected (l seen : list pystr) : Prop :=
  NoDup l /\ forall u, In u l <-> In u seen.

End Spec2.

(** ** Audit of a collection: [audit_collection] *)

Module Audit.
Import Validate Harvest.

(** The entries of [row_invalids], of [junk_rows] and of [mixed_rows]. *)
Record invalid_file := {
  inv_file : pystr;
  inv_reason : string;
  inv_details : list (string * (nat + string + list pystr))
}.

Record junk_row := {
  junk_name : pystr;
  junk_office : pystr;
  junk_status : pystr;
  junk_files : list invalid_file
}.

Record mixed_row := {
  mixed_name : pystr;
  mixed_office : pystr;
  mixed_invalids : list invalid_file
}.

(** The dict [stats], its three nested dicts in insertion order. *)
Record audit_stats := {
  total_rows : nat;
  rows_with_valid_content : nat;
  rows_with_only_junk : nat;
  rows_empty : nat;
  total_files : nat;
  valid_files : nat;
  invalid_files : nat;
  file_types : list (string * nat);
  failure_reasons : list (string * nat);
  failure_by_office : list (pystr * list (string * nat))
}.

(** [d[k] += 1] on a [defaultdict(int)]. *)
Definition count_key : string -> list (string * nat) -> list (string * nat) :=
  Revalidate.count_reason.

(** [failure_by_office[office][reason] += 1] *)
Fixpoint count_office (office : pystr) (r : string)
  (l : list (pystr * list (string * nat)))
  : list (pystr * list (string * nat)) :=
  match l with
  | [] => [(office, count_key r [])]
  | (k, v) :: l' =>
      if str_eqb k office then (k, count_key r v) :: l'
      else (k, v) :: count_office office r l'
  end.

(** The updates of [stats] for a file. *)
Definition count_file (st : audit_stats) (office : pystr) (ftype : string)
  (vr : ValidationResult) : audit_stats :=
  if valid vr
  then {| total_rows := total_rows st;
          rows_with_valid_content := rows_with_valid_content st;
          rows_with_only_junk := rows_with_only_junk st;
          rows_empty := rows_empty st;
          total_files := total_files st + 1;
          valid_files := valid_files st + 1;
          invalid_files := invalid_files st;
          file_types := count_key ftype (file_types st);
          failure_reasons := failure_reasons st;
          failure_by_office := failure_by_office st |}
  else {| total_rows := total_rows st;
          rows_with_valid_content := rows_with_valid_content st;
          rows_with_only_junk := rows_with_only_junk st;
          rows_empty := rows_empty st;
          total_files := total_files st + 1;
          valid_files := valid_files st;
          invalid_files := invalid_files st + 1;
          file_types := count_key ftype (file_types st);
          failure_reasons := count_key (reason vr) (failure_reasons st);
          failure_by_office :=
            count_office office (reason vr) (failure_by_office st) |}.

(** The updates of [stats] for a row: empty, with a valid file, or with
    invalid files only. *)
Inductive row_kind := Empty | HasValid | OnlyJunk.

Definition count_row (st : audit_stats) (k : row_kind) : audit_stats :=
  {| total_rows := total_rows st;
     rows_with_valid_content :=
       match k with
       | HasValid => rows_with_valid_content st + 1
       | _ => rows_with_valid_content st
       end;
     rows_with_only_junk :=
       match k with
       | OnlyJunk => rows_with_only_junk st + 1
       | _ => rows_with_only_junk st
       end;
     rows_empty :=
       match k with
       | Empty => rows_empty st + 1
       | _ => rows_empty st
       end;
     total_files := total_files st;
     valid_files := valid_files st;
     invalid_files := invalid_files st;
     file_types := file_types st;
     failure_reasons := failure_reasons st;
     failure_by_office := failure_by_office st |}.

Definition initial_stats (total : nat) : audit_stats :=
  {| total_rows := total; rows_with_valid_content := 0;
     rows_with_only_junk := 0; rows_empty := 0; total_files := 0;
     valid_files := 0; invalid_files := 0; file_types := [];
     failure_reasons := []; failure_by_office := [] |}.

Section WithRuntime.
Context {RT : PyRuntime}.

(** [os.listdir(d)] for a directory [d], [None] when [os.path.isdir(d)] is
    false; [name.isdigit()]; [random.sample(population, k)]. *)
Variable listdir : pystr -> option (list pystr).
Variable isdigit : pystr -> bool.
Variable random_sample : list pystr -> nat -> list pystr.

Definition isdir (p : pystr) : bool :=
  match listdir p with
  | Some _ => true
  | None => false
  end.

(** The loop [for fname in files]. *)
Fixpoint files_loop (fs : filesystem) (office row_dir : pystr)
  (names : list pystr) (st : audit_stats) (row_has_valid : bool)
  (row_invalids : list invalid_file)
  : audit_stats * bool * list invalid_file :=
  match names with
  | [] => (st, row_has_valid, row_invalids)
  | fname :: names' =>
      let fpath := path_join row_dir fname in
      let ftype := detect_file_type fs fpath in
      let vr := validate_content fs fpath 500 in
      if valid vr
      then files_loop fs office row_dir names'
             (count_file st office ftype vr) true row_invalids
      else files_loop fs office row_dir names'
             (count_file st office ftype vr) row_has_valid
             (row_invalids ++
              [ {| inv_file := fname; inv_reason := reason vr;
                   inv_details := details vr |} ])
  end.

(** [office] and [status] of a row, from its [metadata.json]. *)
Definition office_status (mds : list (pystr * metadata_json))
  (meta_path : pystr) : pystr * pystr :=
  match metadata_read mds meta_path with
  | Some (Parsed meta) => (md_office meta, lit (status meta))
  | _ => (lit "unknown", lit "unknown")
  end.

(** The loop [for i, folder in enumerate(folders)]; [None] when
    [os.listdir(row_dir)] raises. *)
Fixpoint rows_loop (fs : filesystem) (mds : list (pystr * metadata_json))
  (scan_dir : pystr) (folders : list pystr) (st : audit_stats)
  (junk_rows : list junk_row) (mixed_rows : list mixed_row)
  : option (audit_stats * list junk_row * list mixed_row) :=
  match folders with
  | [] => Some (st, junk_rows, mixed_rows)
  | folder :: folders' =>
      let row_dir := path_join scan_dir folder in
      let meta_path := path_join row_dir (lit "metadata.json") in
      let '(office, status) := office_status mds meta_path in
      match listdir row_dir with
      | None => None
      | Some names =>
          let files :=
            filter (fun f => fs_exists fs (path_join row_dir f)
                             && negb (str_eqb f (lit "metadata.json")))
                   names in
          if negb (truthy files)
          then rows_loop fs mds scan_dir folders' (count_row st Empty)
                         junk_rows mixed_rows
          else
            let '(st, row_has_valid, row_invalids) :=
              files_loop fs office row_dir files st false [] in
            if row_has_valid
            then rows_loop fs mds scan_dir folders' (count_row st HasValid)
                   junk_rows
                   (if truthy row_invalids
                    then mixed_rows ++
                         [ {| mixed_name := folder; mixed_office := office;
                              mixed_invalids := row_invalids |} ]
                    else mixed_rows)
            else rows_loop fs mds scan_dir folders' (count_row st OnlyJunk)
                   (junk_rows ++
                    [ {| junk_name := folder; junk_office := office;
                         junk_status := status;
                         junk_files := row_invalids |} ])
                   mixed_rows
      end
  end.

(** [audit_collection(scan_dir, sample_size)]; [None] when it raises.
    The messages of the logger have no counterpart. *)
Definition audit_collection (fs : filesystem)
  (mds : list (pystr * metadata_json)) (scan_dir : pystr)
  (sample_size : option nat)
  : option (audit_stats * list junk_row * list mixed_row) :=
  match listdir scan_dir with
  | None => None
  | Some names =>
      let folders :=
        Revalidate.sorted
          (filter (fun f => isdir (path_join scan_dir f) && isdigit f)
                  names) in
      let folders :=
        match sample_size with
        | Some n =>
            if negb (n =? 0) && (n <? length folders)
            then Revalidate.sorted (random_sample folders n)
            else folders
        | None => folders
        end in
      rows_loop fs mds scan_dir folders (initial_stats (length folders))
                [] []
  end.

End WithRuntime.
End Audit.

(** ** Reading the inventory: [load_inventory] *)

Module Loading.
Import Harvest Inventory.

(** A cell of the sheet as [load_inventory] reads it: whether
    [cell.value is None], and what [extract_urls_from_row] reads. *)
Record sheet_cell := {
  is_none : bool;
  read : cell
}.

(** [s.zfill(4)] for a string of digits: the format [04d]. *)
Definition zfill4 (s : pystr) : pystr := repeat 48%N (4 - length s) ++ s.

(** [f"{row_idx:04d}"] *)
Definition row_id_of (row_idx : nat) : pystr := zfill4 (str_of_nat row_idx).

(** [d[k] = v] on a dict in insertion order. *)
Fixpoint dict_set (k : pystr) (v : nat) (d : list (pystr * nat))
  : list (pystr * nat) :=
  match d with
  | [] => [(k, v)]
  | (k', v') :: d' =>
      if str_eqb k' k then (k', v) :: d' else (k', v') :: dict_set k v d'
  end.

(** The patterns of the expected columns, in the order of the source. *)
Definition column_patterns : list (string * list string) :=
  [ ("office", ["office"; "program"; "agency"]);
    ("doc_number",
     ["document number"; "doc number"; "doc #"; "doc_number"; "number"]);
    ("title", ["title"; "document title"; "name"]);
    ("date", ["date"; "issued"; "effective date"]);
    ("type", ["type"; "document type"; "category"]) ].

(** The loop [for header_name, idx in headers.items()]. *)
Fixpoint find_header (pat : string) (headers : list (pystr * nat))
  : option nat :=
  match headers with
  | [] => None
  | (header_name, idx) :: headers' =>
      if contains header_name (lit pat) then Some idx
      else find_header pat headers'
  end.

(** The loop [for pat in patterns]. *)
Fixpoint find_pattern (patterns : list string) (headers : list (pystr * nat))
  : option nat :=
  match patterns with
  | [] => None
  | pat :: patterns' =>
      match find_header pat headers with
      | Some idx => Some idx
      | None => find_pattern patterns' headers
      end
  end.

Definition col_map_of (headers : list (pystr * nat)) : list (string * nat) :=
  flat_map (fun kp =>
              match find_pattern (snd kp) headers with
              | Some idx => [(fst kp, idx)]
              | None => []
              end)
           column_patterns.

(** [col_map.get(key, default)] *)
Fixpoint col_get (col_map : list (string * nat)) (key : string) (default : nat)
  : nat :=
  match col_map with
  | [] => default
  | (k, idx) :: col_map' =>
      if String.eqb k key then idx else col_get col_map' key default
  end.

(** Truthiness of [end_row], [None] or an integer. *)
Definition past_end (end_row : option nat) (row_idx : nat) : bool :=
  match end_row with
  | Some e => negb (e =? 0) && (e <? row_idx)
  | None => false
  end.

Section WithRuntime.
Context {RT : PyRuntime}.
Variable re_findall : string -> pystr -> list pystr.

(** The dict [headers], from the first row of the sheet. *)
Fixpoint headers_from (cells : list sheet_cell) (idx : nat)
  (headers : list (pystr * nat)) : list (pystr * nat) :=
  match cells with
  | [] => headers
  | c :: cells' =>
      headers_from cells' (S idx)
        (dict_set (lower (strip (value (read c)))) idx headers)
  end.

(** [str(row[i].value or "").strip()]; [None] when [row[i]] raises
    [IndexError]. *)
Definition field (row : list sheet_cell) (i : nat) : option pystr :=
  match nth_error row i with
  | Some c => Some (strip (value (read c)))
  | None => None
  end.

Definition build_row (row : list sheet_cell) (row_idx : nat)
  (col_map : list (string * nat)) (url_cols : list nat) : option row_data :=
  match field row (col_get col_map "office" 0),
        field row (col_get col_map "doc_number" 1),
        field row (col_get col_map "title" 2),
        field row (col_get col_map "date" 3),
        field row (col_get col_map "type" 4) with
  | Some o, Some n, Some t, Some d, Some ty =>
      Some {| row_id := row_id_of row_idx; office := o; doc_number := n;
              title := t; date := d; doc_type := ty;
              urls := extract_urls_from_row re_findall (map read row)
                                            url_cols |}
  | _, _, _, _, _ => None
  end.

(** The loop over [ws.iter_rows(min_row=2)], numbered from [row_idx];
    [None] when building a row raises. *)
Fixpoint rows_from (sheet : list (list sheet_cell)) (row_idx : nat)
  (start_row : nat) (end_row : option nat)
  (col_map : list (string * nat)) (url_cols : list nat)
  (rows : list row_data) : option (list row_data) :=
  match sheet with
  | [] => Some rows
  | row :: sheet' =>
      if row_idx <? start_row
      then rows_from sheet' (S row_idx) start_row end_row col_map url_cols rows
      else if past_end end_row row_idx then Some rows
      else if forallb is_none row
      then rows_from sheet' (S row_idx) start_row end_row col_map url_cols rows
      else
        match build_row row row_idx col_map url_cols with
        | Some r =>
            rows_from sheet' (S row_idx) start_row end_row col_map url_cols
                      (rows ++ [r])
        | None => None
        end
  end.

(** [load_inventory(excel_path, start_row, end_row)] on a sheet given by
    its first row and the rows below it. *)
Definition load_inventory (header_row : list sheet_cell)
  (sheet : list (list sheet_cell)) (start_row : nat) (end_row : option nat)
  : option (list row_data) :=
  let headers := headers_from header_row 0 [] in
  let col_map := col_map_of headers in
  let url_cols := seq 0 (length header_row) in
  rows_from sheet 1 start_row end_row col_map url_cols [].

End WithRuntime.
End Loading.

(** ** The rows to repair: [identify_bad_files] of [repair.py] *)

Module Repair.
Import Validate Harvest.

(** The entries of [bad_files] and of [bad_rows]; [metadata] is [None] for
    the empty dict. *)
Record bad_file := {
  filename : pystr;
  bad_filepath : pystr;
  bad_reason : string;
  bad_details : list (string * (nat + string + list pystr))
}.

Record bad_row := {
  row : pystr;
  bad_row_dir : pystr;
  has_valid_file : bool;
  bad_files : list bad_file;
  bad_metadata : option metadata
}.

Section WithRuntime.
Context {RT : PyRuntime}.

(** [os.listdir(d)] for a directory [d], [None] when [os.path.isdir(d)] is
    false; [name.isdigit()]. *)
Variable listdir : pystr -> option (list pystr).
Variable isdigit : pystr -> bool.

Definition isdir (p : pystr) : bool :=
  match listdir p with
  | Some _ => true
  | None => false
  end.

(** The loop [for fname in files]. *)
Fixpoint files_loop (fs : filesystem) (row_dir : pystr) (names : list pystr)
  (has_valid : bool) (bad : list bad_file) : bool * list bad_file :=
  match names with
  | [] => (has_valid, bad)
  | fname :: names' =>
      let fpath := path_join row_dir fname in
      let vr := validate_content fs fpath 500 in
      if valid vr
      then files_loop fs row_dir names' true bad
      else files_loop fs row_dir names' has_valid
             (bad ++
              [ {| filename := fname; bad_filepath := fpath;
                   bad_reason := reason vr; bad_details := details vr |} ])
  end.

(** The metadata of a row: what [json.load] gives, or the empty dict. *)
Definition metadata_of (mds : list (pystr * metadata_json))
  (meta_path : pystr) : option metadata :=
  match metadata_read mds meta_path with
  | Some (Parsed meta) => Some meta
  | _ => None
  end.

(** The loop [for folder in folders]; [None] when [os.listdir(row_dir)]
    raises. *)
Fixpoint rows_loop (fs : filesystem) (mds : list (pystr * metadata_json))
  (output_dir : pystr) (folders : list pystr) (bad_rows : list bad_row)
  : option (list bad_row) :=
  match folders with
  | [] => Some bad_rows
  | folder :: folders' =>
      let row_dir := path_join output_dir folder in
      let meta_path := path_join row_dir (lit "metadata.json") in
      let metadata := metadata_of mds meta_path in
      match listdir row_dir with
      | None => None
      | Some names =>
          let files :=
            filter (fun f => fs_exists fs (path_join row_dir f)
                             && negb (str_eqb f (lit "metadata.json")))
                   names in
          if negb (truthy files)
          then rows_loop fs mds output_dir folders' bad_rows
          else
            let '(has_valid, bad) := files_loop fs row_dir files false [] in
            if truthy bad
            then rows_loop fs mds output_dir folders'
                   (bad_rows ++
                    [ {| row := folder; bad_row_dir := row_dir;
                         has_valid_file := has_valid; bad_files := bad;
                         bad_metadata := metadata |} ])
            else rows_loop fs mds output_dir folders' bad_rows
      end
  end.

(** [identify_bad_files(output_dir)]; [None] when it raises. *)
Definition identify_bad_files (fs : filesystem)
  (mds : list (pystr * metadata_json)) (output_dir : pystr)
  : option (list bad_row) :=
  match listdir output_dir with
  | None => None
  | Some names =>
      rows_loop fs mds output_dir
        (Revalidate.sorted
           (filter (fun f => isdir (path_join output_dir f) && isdigit f)
                   names))
        []
  end.

End WithRuntime.
End Repair.

(** ** Vocabulary of the statements on loading and auditing *)

Module Spec3.
Import Harvest Loading.

(** The numbered rows of the sheet that [load_inventory] keeps: those of
    the range that are not empty. *)
Definition loaded (start_row : nat) (end_row : option nat)
  (p : nat * list sheet_cell) : bool :=
  (start_row <=? fst p) && negb (past_end end_row (fst p))
  && negb (forallb is_none (snd p)).

(** The sum of the counters of [failure_by_office]. *)
Definition sum_offices (l : list (pystr * list (string * nat))) : nat :=
  fold_right (fun kv n => Spec2.sum_counts (snd kv) + n) 0 l.

(** What the loops of [audit_collection] keep true of the counters of the
    files, and the rows that they have counted. *)
Definition files_counted (st : Audit.audit_stats) : Prop :=
  Audit.total_files st = Audit.valid_files st + Audit.invalid_files st
  /\ Spec2.sum_counts (Audit.file_types st) = Audit.total_files st
  /\ Spec2.sum_counts (Audit.failure_reasons st) = Audit.invalid_files st
  /\ sum_offices (Audit.failure_by_office st) = Audit.invalid_files st.

Definition rows_counted (st : Audit.audit_stats) : nat :=
  Audit.rows_with_valid_content st + Audit.rows_with_only_junk st
  + Audit.rows_empty st.

(** The folders that [audit_collection] and [validate_existing] scan. *)
Definition row_folder (listdir : pystr -> option (list pystr))
  (isdigit : pystr -> bool) {RT : PyRuntime} (scan_dir f : pystr) : bool :=
  Audit.isdir listdir (path_join scan_dir f) && isdigit f.

(** What the audit and the repair report of a row: its folder, and the
    names and reasons of its rejected files. *)
Definition junk_report (j : Audit.junk_row)
  : pystr * list (pystr * string) :=
  (Audit.junk_name j,
   map (fun f => (Audit.inv_file f, Audit.inv_reason f)) (Audit.junk_files j)).

Definition mixed_report (m : Audit.mixed_row)
  : pystr * list (pystr * string) :=
  (Audit.mixed_name m,
   map (fun f => (Audit.inv_file f, Audit.inv_reason f))
       (Audit.mixed_invalids m)).

Definition bad_report (b : Repair.bad_row) : pystr * list (pystr * string) :=
  (Repair.row b,
   map (fun f => (Repair.filename f, Repair.bad_reason f))
       (Repair.bad_files b)).

(** The order of [sorted] on strings. *)
Definition leq (s t : pystr) : Prop := Revalidate.str_leb s t = true.

End Spec3.

(** ** More of the runtime for 7-bit text *)

Module Ascii7Ext.
Import Ascii7.

(** A character of a URL for [Inventory.url_pattern]. *)
Definition url_char (c : N) : bool :=
  negb (is_space c || N.eqb c 60 || N.eqb c 62 || N.eqb c 34 || N.eqb c 39).

Definition url_at (s : pystr) : option pystr :=
  and_then (expect (lit "http") s false) (fun s1 =>
  and_then (expect (lit "://") (optional (lit "s") s1) false) (fun s2 =>
  plus url_char s2)).

(** [re.findall] for a pattern given by its matcher at a position. *)
Fixpoint findall_at (fuel : nat) (at_pos : pystr -> option pystr) (s : pystr)
  : list pystr :=
  match fuel with
  | O => []
  | S fuel' =>
      match s with
      | [] => []
      | _ :: s' =>
          match at_pos s with
          | Some rest => matched s rest :: findall_at fuel' at_pos rest
          | None => findall_at fuel' at_pos s'
          end
      end
  end.

Definition re_findall (pattern : string) (s : pystr) : list pystr :=
  if String.eqb pattern Inventory.url_pattern
  then findall_at (length s) url_at s
  else [].

(** [s.isdigit()] *)
Definition isdigit (s : pystr) : bool :=
  truthy s && forallb (fun c => N.leb 48 c && N.leb c 57) s.

(** [os.listdir] over a table of directories. *)
Fixpoint listdir (tree : list (pystr * list pystr)) (d : pystr)
  : option (list pystr) :=
  match tree with
  | [] => None
  | (d', names) :: tree' => if str_eqb d' d then Some names else listdir tree' d
  end.

End Ascii7Ext.

(** ** Concrete rows, pages and sites

    The inputs at which the theorems are instantiated and the chain is
    run, over the runtime [Ascii7]. *)

Module Scenario.
Import Validate Harvest.

Definition out : pystr := lit "output_v2".

Definition empty_world : world :=
  {| files := []; metadata_files := []; requests := []; log := [] |}.

Definition row (l : list pystr) : row_data :=
  {| row_id := lit "0001"; office := lit "OCC";
     doc_number := lit "CCDF-ACF-IM-2016-02";
     title := lit "Information Memorandum";
     date := lit "2016-03-01"; doc_type := lit "IM"; urls := l |}.

Definition url_page : pystr :=
  lit "https://www.acf.hhs.gov/occ/policy-guidance/ccdf-acf-im-2016-02".

Definition url_pdf : pystr :=
  lit "https://www.acf.hhs.gov/sites/default/files/occ/ccdf_acf_im_2016_02.pdf".

Definition url_dead : pystr :=
  lit "https://archive.acf.hhs.gov/programs/ccb/law/guidance/im1602.htm".

Definition url_stub : pystr :=
  lit "https://www.acf.hhs.gov/sites/default/files/occ/stub.pdf".

(** A block page without links, with the phrase
    [Access Denied]. *)
Definition denied_page : pystr :=
  lit ("<html><head><title>Access Denied</title></head><body>"
       ++ "<h1>Access Denied</h1><p>You don't have permission to access "
       ++ "this resource on this server. Please contact the administrator "
       ++ "of the site if you believe that this is an error.</p>"
       ++ "<p>Reference 18.2d3c1402.1700000000</p></body></html>")%string.

(** An error page without links, with the phrase [404 Not Found]. *)
Definition not_found_page : pystr :=
  lit ("<html><head><title>404 Not Found</title></head><body>"
       ++ "<h1>Not Found</h1><p>The requested URL was not found on this "
       ++ "server. Check the address, or go back to the home page and "
       ++ "use the search box to find the document.</p>"
       ++ "<hr><address>Apache Server at www.acf.hhs.gov</address>"
       ++ "</body></html>")%string.

(** A PDF of 408 bytes and one of 4 bytes. *)
Definition pdf_document : bytes := b "%PDF-1.4" ++ repeat x20 400.

Definition pdf_stub : bytes := b "%PDF".

Definition html_response (u text : pystr) : response :=
  {| status_code := 200; url := u;
     header_content_type := Some (lit "text/html; charset=UTF-8");
     header_content_disposition := None;
     content := Ascii7.write_text text; text := text |}.

Definition pdf_response (u : pystr) (data : bytes) : response :=
  {| status_code := 200; url := u;
     header_content_type := Some (lit "application/pdf");
     header_content_disposition := None;
     content := data; text := [] |}.

Definition not_found_response (u : pystr) : response :=
  {| status_code := 404; url := u;
     header_content_type := Some (lit "text/html");
     header_content_disposition := None;
     content := Ascii7.write_text not_found_page; text := not_found_page |}.

Fixpoint answer (pages : list (pystr * option response)) (u : pystr)
  : option (option response) :=
  match pages with
  | [] => None
  | (v, r) :: pages' => if str_eqb v u then Some r else answer pages' u
  end.

(** A site that serves [pages] ([None]: the request raises) and answers
    404 to every other URL, the Wayback ones included. *)
Definition site (pages : list (pystr * option response)) : session :=
  fun _ u =>
    match answer pages u with
    | Some r => r
    | None => Some (not_found_response u)
    end.

(** The block page, then the PDF. *)
Definition site_denied_then_pdf : session :=
  site [ (url_page, Some (html_response url_page denied_page));
         (url_pdf, Some (pdf_response url_pdf pdf_document)) ].

(** A dead URL, then a PDF too small to be one. *)
Definition site_dead_then_stub : session :=
  site [ (url_dead, None);
         (url_stub, Some (pdf_response url_stub pdf_stub)) ].

(** A file system with one file. *)
Definition one_file (name : pystr) (data : bytes) : filesystem :=
  [ (name, data) ].

(** A row already harvested with success. *)
Definition harvested : metadata :=
  set_outcome (initial_metadata (row [url_pdf]) []) [] (Some "direct") "success".

Definition harvested_world : world :=
  {| files := [];
     metadata_files :=
       [ (Ascii7.path_join (Ascii7.path_join out (lit "0001"))
                           (lit "metadata.json"),
          Parsed harvested) ];
     requests := []; log := [] |}.

(** The directory of the row, and two names for a file in it. *)
Definition row_dir : pystr := Ascii7.path_join out (lit "0001").

Definition named_pdf : pystr := lit "output_v2/0001/report.pdf".

Definition named_html : pystr := lit "output_v2/0001/page_content.html".

(** Resume mode, and the counters before the first row. *)
Definition resume_args : arguments := {| resume := true; dry_run := false |}.

Definition no_stats : statistics :=
  {| total := 1; n_success := 0; n_failed := 0; n_no_urls := 0;
     n_validation_failed := 0; n_skipped := 0;
     sources := [("portal", 0); ("direct", 0); ("wayback", 0)] |}.

End Scenario.

(** ** More rows, pages and directories *)

Module Scenario2.
Import Validate Harvest Inventory Revalidate Scenario.

(** A page of guidance: 20 paragraphs and no link. *)
Definition guidance_page : pystr :=
  lit "<html><head><title>Information Memorandum</title></head><body>"
  ++ concat (repeat (lit "<p>Lead Agencies must submit the plan by July.</p>")
                    20)
  ++ lit "</body></html>".

(** A PNG image of 304 bytes. *)
Definition png_image : bytes := x89 :: b "PNG" ++ repeat x00 300.

(** A row of the sheet: a title with a hyperlink, and a note that quotes
    the same address and another one. *)
Definition sheet_row : list cell :=
  [ {| hyperlink_target := Some (lit " https://www.acf.hhs.gov/occ/im-2016-02 ");
       value := lit "CCDF-ACF-IM-2016-02" |};
    {| hyperlink_target := None;
       value := lit ("See https://www.acf.hhs.gov/occ/im-2016-02, "
                     ++ "or http://archive.acf.hhs.gov/im1602.htm.")%string |} ].

(** An output directory with two rows and a folder of reports. *)
Definition tree : list (pystr * list pystr) :=
  [ (lit "output_v2", [lit "0002"; lit "reports"; lit "0001"]);
    (lit "output_v2/0001",
     [lit "metadata.json"; lit "im.pdf"; lit "page_content.html"]);
    (lit "output_v2/0002", [lit "page_content.html"; lit "stub.pdf"]);
    (lit "output_v2/reports", [lit "harvest_v2.json"]) ].

Definition tree_files : filesystem :=
  [ (lit "output_v2/0001/metadata.json", b "{}");
    (lit "output_v2/0001/im.pdf", pdf_document);
    (lit "output_v2/0001/page_content.html", Ascii7.write_text denied_page);
    (lit "output_v2/0002/page_content.html", Ascii7.write_text not_found_page);
    (lit "output_v2/0002/stub.pdf", pdf_stub);
    (lit "output_v2/reports/harvest_v2.json", b "{}") ].

End Scenario2.

(** ** A sheet and an audit *)

Module Scenario3.
Import Validate Harvest Inventory Loading Scenario Scenario2.
#[local] Existing Instance Ascii7.runtime.

Definition text_cell (s : string) : sheet_cell :=
  {| is_none := false;
     read := {| hyperlink_target := None; value := lit s |} |}.

Definition link_cell (s target : string) : sheet_cell :=
  {| is_none := false;
     read := {| hyperlink_target := Some (lit target); value := lit s |} |}.

Definition empty_cell : sheet_cell :=
  {| is_none := true;
     read := {| hyperlink_target := None; value := [] |} |}.

(** An inventory of six columns: two documents, and an empty row between
    them. *)
Definition inventory_header : list sheet_cell :=
  [ text_cell "Program Office"; text_cell "Doc Number"; text_cell "Title";
    text_cell "Date Issued"; text_cell "Type"; text_cell "Link" ].

Definition inventory : list (list sheet_cell) :=
  [ [ text_cell "OCC"; text_cell "CCDF-ACF-IM-2016-02";
      text_cell "Information Memorandum"; text_cell "2016-03-01";
      text_cell "IM";
      link_cell "link" "https://www.acf.hhs.gov/occ/im-2016-02" ];
    repeat empty_cell 6;
    [ text_cell "OHS"; text_cell "ACF-PI-HS-17-01";
      text_cell "Program Instruction"; text_cell "2017-01-10";
      text_cell "PI"; text_cell "https://eclkc.ohs.acf.hhs.gov/pi" ] ].

Definition loaded_rows : list row_data :=
  match load_inventory Ascii7Ext.re_findall inventory_header inventory 1
                       None with
  | Some rows => rows
  | None => []
  end.

(** A sheet of three columns whose headers name no date and no type. *)
Definition narrow_header : list sheet_cell :=
  [ text_cell "Office"; text_cell "Title"; text_cell "Link" ].

Definition narrow_inventory : list (list sheet_cell) :=
  [ [ text_cell "OCC"; text_cell "Information Memorandum";
      text_cell "https://www.acf.hhs.gov/occ/im-2016-02" ] ].

(** The audit of the output directory of [Scenario2], without sampling,
    and the validation of the same directory. *)
Definition audited
  : option (Audit.audit_stats * list Audit.junk_row * list Audit.mixed_row) :=
  Audit.audit_collection (Ascii7Ext.listdir tree) Ascii7Ext.isdigit
    (fun folders n => firstn n folders) tree_files [] out None.

Definition audit_result
  : Audit.audit_stats * list Audit.junk_row * list Audit.mixed_row :=
  match audited with
  | Some r => r
  | None => (Audit.initial_stats 0, [], [])
  end.

Definition revalidated
  : Revalidate.validation_stats * list Revalidate.invalid_detail :=
  match Revalidate.validate_existing (Ascii7Ext.listdir tree)
          Ascii7Ext.isdigit tree_files out with
  | Some r => r
  | None =>
      ({| Revalidate.total_rows := 0; Revalidate.valid_rows := 0;
          Revalidate.invalid_rows := 0; Revalidate.reasons := [] |}, [])
  end.

End Scenario3.

(** * Properties *)

(** ** Strings and the file system *)

Lemma eqb_list_eq {A : Type} (eqb : A -> A -> bool) :
  (forall x y, eqb x y = true <-> x = y) ->
  forall l1 l2, eqb_list eqb l1 l2 = true <-> l1 = l2.
Proof.
  intros Heq l1; induction l1 as [|x l1 IH]; intros [|y l2]; simpl;
    try (split; [discriminate | discriminate]); try tauto.
  rewrite andb_true_iff, Heq, IH. split.
  - intros [-> ->]; reflexivity.
  - intros E; inversion E; auto.
Qed.

Lemma str_eqb_eq (s t : pystr) : str_eqb s t = true <-> s = t.
Proof. apply eqb_list_eq, N.eqb_eq. Qed.

Lemma str_eqb_refl (s : pystr) : str_eqb s s = true.
Proof. apply str_eqb_eq; reflexivity. Qed.

Lemma prefixb_firstn {A : Type} (eqb : A -> A -> bool) (p s : list A) (n : nat) :
  length p <= n -> prefixb eqb p (firstn n s) = prefixb eqb p s.
Proof.
  revert s n; induction p as [|x p IH]; intros s n Hn; [reflexivity|].
  simpl in Hn. destruct n as [|n]; [lia|].
  destruct s as [|y s]; simpl; [reflexivity|].
  rewrite IH by lia; reflexivity.
Qed.

Lemma prefixb_app {A : Type} (eqb : A -> A -> bool) (p s : list A) :
  (forall x y, eqb x y = true -> x = y) ->
  prefixb eqb p s = true -> exists rest, s = p ++ rest.
Proof.
  intros Heq; revert s; induction p as [|x p IH]; intros s H.
  - exists s; reflexivity.
  - destruct s as [|y s]; simpl in H; [discriminate|].
    apply andb_true_iff in H as [Hxy Hp].
    apply Heq in Hxy; subst y.
    destruct (IH _ Hp) as [rest ->]. exists rest; reflexivity.
Qed.

Lemma tag_in_spec (x : string) (l : list string) :
  tag_in x l = true <-> In x l.
Proof.
  unfold tag_in. rewrite existsb_exists. split.
  - intros [y [Hy E]]. apply String.eqb_eq in E; subst; exact Hy.
  - intros H; exists x; split; [exact H | apply String.eqb_refl].
Qed.

Lemma truthy_nonempty {A : Type} (l : list A) : truthy l = true <-> l <> [].
Proof. destruct l; simpl; split; congruence. Qed.

(** ** The validation gate *)

Module ValidateProps.
Import Validate.

(** Case analysis over the exits of [validate_content]. *)
Ltac exits :=
  unfold validate_content; cbv zeta;
  repeat match goal with
         | |- context [match fs_read ?fs ?p with _ => _ end] =>
             destruct (fs_read fs p) eqn:?
         | |- context [if ?c then _ else _] => destruct c eqn:?
         | |- context [match ?e with pair _ _ => _ end] =>
             destruct e as [? ?] eqn:?
         end.

Section WithRuntime.
Context {RT : PyRuntime}.

Lemma check_for_junk_indicators_spec (text : pystr) (indicators : list pystr) :
  truthy (check_for_junk_indicators text indicators) = true
  <-> has_indicator text indicators.
Proof.
  unfold check_for_junk_indicators, has_indicator.
  rewrite truthy_nonempty. split.
  - intros H.
    destruct (filter _ indicators) as [|i l] eqn:E; [congruence|].
    assert (Hi : In i (i :: l)) by (left; reflexivity).
    rewrite <- E in Hi. apply filter_In in Hi. exists i; exact Hi.
  - intros [i Hi] E.
    pose proof (proj2 (filter_In
                         (fun indicator =>
                            contains (lower text) (lower indicator))
                         i indicators) Hi) as Hf.
    rewrite E in Hf. exact Hf.
Qed.

Lemma shell_loop_reason patterns html visible n r :
  shell_loop patterns html visible n = Some r ->
  r = (true, length visible, "shell_page_no_content").
Proof.
  induction patterns as [|p ps IH]; simpl; [discriminate|].
  destruct (match re_search p _ html with Some _ => _ | None => _ end).
  - intros E; inversion E; reflexivity.
  - exact IH.
Qed.

(** [is_empty_shell] answers with a rejection reason exactly when it
    reports a shell. *)
Lemma is_empty_shell_reason html n :
  let '(is_shell, _, shell_reason) := is_empty_shell html n in
  if is_shell
  then shell_reason = "shell_page_no_content"
       \/ shell_reason = "insufficient_content"
  else shell_reason = "ok".
Proof.
  unfold is_empty_shell.
  destruct (shell_loop _ _ _ _) as [r|] eqn:E.
  - apply shell_loop_reason in E; subst r. left; reflexivity.
  - destruct (_ <? _); [right|]; reflexivity.
Qed.

Lemma is_empty_shell_count html n :
  snd (fst (is_empty_shell html n)) = length (extract_visible_text html).
Proof.
  unfold is_empty_shell.
  destruct (shell_loop _ _ _ _) as [r|] eqn:E.
  - apply shell_loop_reason in E; subst r. reflexivity.
  - destruct (_ <? _); reflexivity.
Qed.


(** C10. Every result of [validate_content] is accepted exactly when its
    reason code is [ok]: a rejection never carries [ok], an acceptance
    never carries a rejection reason. *)
Theorem valid_iff_reason_ok (fs : filesystem) (fpath : pystr) (n : nat) :
  valid (validate_content fs fpath n) = true
  <-> reason (validate_content fs fpath n) = "ok".
Proof.
  exits; simpl; try (split; [discriminate | discriminate]);
    try (split; reflexivity).
  all: match goal with
       | E : is_empty_shell ?c ?m = (true, _, _) |- _ =>
           pose proof (is_empty_shell_reason c m) as H; rewrite E in H;
           split; [discriminate | intros ->; destruct H; discriminate]
       end.
Qed.

Lemma detect_file_type_signature fs fpath data sig ftype :
  fs_read fs fpath = Some data ->
  In (sig, ftype) FILE_SIGNATURES ->
  bytes_startswith data sig = true ->
  detect_file_type fs fpath = ftype.
Proof.
  intros Hread Hsig Hpre.
  apply prefixb_app in Hpre as [rest ->]; [|apply byte_dec_bl].
  unfold detect_file_type. rewrite Hread.
  unfold FILE_SIGNATURES in *. simpl in Hsig.
  repeat destruct Hsig as [Hsig|Hsig]; try contradiction;
    inversion Hsig; subst; reflexivity.
Qed.

(** C7. A file that starts with the signature of a binary document (PDF,
    ZIP-based Office, OLE, RTF) is accepted with reason [ok] whatever its
    name and extension, as soon as it holds at least 200 bytes; below
    that floor it is rejected. *)
Theorem document_signature_accepted (fs : filesystem) (fpath : pystr)
  (n : nat) (data sig : bytes) :
  fs_read fs fpath = Some data ->
  is_document_signature sig ->
  bytes_startswith data sig = true ->
  (200 <= length data ->
   valid (validate_content fs fpath n) = true
   /\ reason (validate_content fs fpath n) = "ok")
  /\ (length data < 200 -> valid (validate_content fs fpath n) = false).
Proof.
  intros Hread [ftype [Hsig Hdoc]] Hpre.
  pose proof (detect_file_type_signature _ _ Hread Hsig Hpre) as Htype.
  apply tag_in_spec in Hdoc.
  unfold validate_content. rewrite Hread, Htype, Hdoc.
  split; intros Hsize.
  - destruct (length data =? 0) eqn:E0; [apply Nat.eqb_eq in E0; lia|].
    destruct (length data <? 200) eqn:E1; [apply Nat.ltb_lt in E1; lia|].
    split; reflexivity.
  - destruct (length data =? 0); [reflexivity|].
    apply Nat.ltb_lt in Hsize. rewrite Hsize. reflexivity.
Qed.

Lemma masquerade_check fs fpath :
  is_html_masquerading_as_pdf fs fpath
  = str_eqb (lower (snd (splitext fpath))) ".pdf"
    && String.eqb (detect_file_type fs fpath) "html".
Proof.
  unfold is_html_masquerading_as_pdf.
  destruct (str_eqb _ _); reflexivity.
Qed.

(** C6 (amended). An HTML or text file of at least 200 bytes that is not
    an HTML file named [.pdf], and whose content holds an access-denied
    phrase, is rejected with [doj_access_denied], whatever the length of
    its visible text and whatever the minimum asked for. *)
Theorem access_denied_before_length_checks (fs : filesystem) (fpath : pystr)
  (n : nat) (data : bytes) :
  fs_read fs fpath = Some data ->
  200 <= length data ->
  tag_in (detect_file_type fs fpath) ["html"; "text"] = true ->
  is_html_masquerading_as_pdf fs fpath = false ->
  has_indicator (read_text data) DOJ_INDICATORS ->
  valid (validate_content fs fpath n) = false
  /\ reason (validate_content fs fpath n) = "doj_access_denied".
Proof.
  intros Hread Hsize Htype Hmasq Hdoj.
  rewrite masquerade_check in Hmasq.
  apply check_for_junk_indicators_spec in Hdoj.
  unfold validate_content. rewrite Hread.
  destruct (length data =? 0) eqn:E0; [apply Nat.eqb_eq in E0; lia|].
  destruct (length data <? 200) eqn:E1; [apply Nat.ltb_lt in E1; lia|].
  rewrite Htype, Hmasq, Hdoj.
  apply tag_in_spec in Htype.
  destruct Htype as [<-|[<-|[]]]; split; reflexivity.
Qed.

(** C8. For a file whose content holds a generic error-page phrase,
    [generic_error_page] is the verdict only if the visible text is
    shorter than 2000 characters; with 2000 characters or more the file is
    not rejected for that reason. *)
Theorem generic_error_page_only_if_short (fs : filesystem) (fpath : pystr)
  (n : nat) (data : bytes) :
  fs_read fs fpath = Some data ->
  has_indicator (read_text data) GENERIC_ERROR_INDICATORS ->
  (reason (validate_content fs fpath n) = "generic_error_page" ->
   length (extract_visible_text (read_text data)) < 2000)
  /\ (2000 <= length (extract_visible_text (read_text data)) ->
      reason (validate_content fs fpath n) <> "generic_error_page").
Proof.
  intros Hread _.
  assert (H : reason (validate_content fs fpath n) = "generic_error_page" ->
              length (extract_visible_text (read_text data)) < 2000).
  { unfold validate_content. rewrite Hread.
    exits; simpl; try (intros E; discriminate E).
    - intros _. apply Nat.ltb_lt. assumption.
    - match goal with
      | E : is_empty_shell ?c ?m = (true, _, _) |- _ =>
          pose proof (is_empty_shell_reason c m) as H; rewrite E in H;
          intros ->; destruct H; discriminate
      end.
    - match goal with
      | E : is_empty_shell ?c ?m = (true, _, _) |- _ =>
          pose proof (is_empty_shell_reason c m) as H; rewrite E in H;
          intros ->; destruct H; discriminate
      end. }
  split; [exact H|]. intros Hlong E. apply H in E. lia.
Qed.

(** The check is live: an HTML or text file that passes the earlier
    checks, holds a generic error-page phrase and shows fewer than 2000
    visible characters gets the verdict [generic_error_page]. *)
Lemma generic_error_page_when_short (fs : filesystem) (fpath : pystr)
  (n : nat) (data : bytes) :
  fs_read fs fpath = Some data ->
  200 <= length data ->
  tag_in (detect_file_type fs fpath) ["html"; "text"] = true ->
  is_html_masquerading_as_pdf fs fpath = false ->
  ~ has_indicator (read_text data) DOJ_INDICATORS ->
  ~ has_indicator (read_text data) WAYBACK_ERROR_INDICATORS ->
  has_indicator (read_text data) GENERIC_ERROR_INDICATORS ->
  length (extract_visible_text (read_text data)) < 2000 ->
  reason (validate_content fs fpath n) = "generic_error_page".
Proof.
  intros Hread Hsize Htype Hmasq Hdoj Hwb Herr Hshort.
  rewrite masquerade_check in Hmasq.
  rewrite <- check_for_junk_indicators_spec in Hdoj, Hwb, Herr.
  apply not_true_is_false in Hdoj, Hwb. apply Nat.ltb_lt in Hshort.
  unfold validate_content. rewrite Hread.
  destruct (length data =? 0) eqn:E0; [apply Nat.eqb_eq in E0; lia|].
  destruct (length data <? 200) eqn:E1; [apply Nat.ltb_lt in E1; lia|].
  rewrite Htype, Hmasq, Hdoj, Hwb, Herr. cbv zeta. rewrite Hshort.
  apply tag_in_spec in Htype.
  destruct Htype as [<-|[<-|[]]]; reflexivity.
Qed.

End WithRuntime.
End ValidateProps.


(** ** The source chain *)

Module HarvestProps.
Import Validate Harvest Spec.

Lemma grows_same P w w' :
  log w' = log w -> requests w' = requests w -> grows P w w'.
Proof.
  intros E1 E2.
  split; [exists [] | exists []]; rewrite app_nil_r; auto.
Qed.

Lemma grows_refl P w : grows P w w.
Proof. apply grows_same; reflexivity. Qed.

Lemma grows_trans P w1 w2 w3 : grows P w1 w2 -> grows P w2 w3 -> grows P w1 w3.
Proof.
  intros [[l1 [E1 F1]] [r1 Q1]] [[l2 [E2 F2]] [r2 Q2]]. split.
  - exists (l1 ++ l2). rewrite E2, E1, app_assoc. split; [reflexivity|].
    apply Forall_app; auto.
  - exists (r1 ++ r2). rewrite Q2, Q1, app_assoc. reflexivity.
Qed.

Lemma grows_weaken (P Q : log_line -> Prop) w w' :
  (forall l, P l -> Q l) -> grows P w w' -> grows Q w w'.
Proof.
  intros H [[l [E F]] R]. split; [|exact R].
  exists l; split; [exact E|]. eapply Forall_impl; eauto.
Qed.

Lemma ok_ret {A : Type} P (R : A -> Prop) (a : A) : R a -> ok P R (ret a).
Proof. intros H w; split; [apply grows_refl | exact H]. Qed.

Lemma ok_bind {A B : Type} P (R1 : A -> Prop) (R : B -> Prop)
  (c : M A) (k : A -> M B) :
  ok P R1 c -> (forall a, R1 a -> ok P R (k a)) -> ok P R (bind c k).
Proof.
  intros Hc Hk w. unfold bind.
  destruct (Hc w) as [G1 Ha]. destruct (c w) as [a w1]; simpl in *.
  destruct (Hk a Ha w1) as [G2 Hb]. split; [|exact Hb].
  eapply grows_trans; eauto.
Qed.

Lemma ok_weaken {A : Type} (P Q : log_line -> Prop) (R S : A -> Prop) c :
  (forall l, P l -> Q l) -> (forall a, R a -> S a) -> ok P R c -> ok Q S c.
Proof.
  intros HP HR H w. destruct (H w) as [G Ha]. split; [|auto].
  eapply grows_weaken; eauto.
Qed.

Lemma ok_debug P src m :
  P {| tag := src; msg := m |} -> ok P (fun _ => True) (debug src m).
Proof.
  intros H w; split; [|exact I]. split; simpl.
  - eexists; split; [reflexivity|]. constructor; auto.
  - exists []. rewrite app_nil_r; reflexivity.
Qed.

Lemma ok_session_get P s u : ok P (fun _ => True) (session_get s u).
Proof.
  intros w; split; [|exact I]. split; simpl.
  - exists []. rewrite app_nil_r; auto.
  - eexists; reflexivity.
Qed.

Lemma ok_on_files P f : ok P (fun _ => True) (on_files f).
Proof. intros w; split; [apply grows_same; reflexivity | exact I]. Qed.

Lemma ok_read_files {A : Type} P (f : filesystem -> A) :
  ok P (fun _ => True) (read_files f).
Proof. intros w; split; [apply grows_refl | exact I]. Qed.

Lemma ok_get_checked P s u : ok P (fun _ => True) (get_checked s u).
Proof.
  unfold get_checked. eapply ok_bind; [apply ok_session_get|].
  intros r _. apply ok_ret. exact I.
Qed.

(** One step through a computation. *)
Ltac mstep :=
  lazymatch goal with
  | |- ok _ _ (bind (debug _ _) _) =>
      eapply ok_bind; [apply ok_debug | intros [] _; cbv beta]
  | |- ok _ _ (bind (read_files _) _) =>
      eapply ok_bind; [apply ok_read_files | intros ? _; cbv beta]
  | |- ok _ _ (bind (write_bytes _ _) _) =>
      eapply ok_bind; [apply ok_on_files | intros [] _; cbv beta]
  | |- ok _ _ (bind (os_remove _) _) =>
      eapply ok_bind; [apply ok_on_files | intros [] _; cbv beta]
  | |- ok _ _ (bind (get_checked _ _) _) =>
      eapply ok_bind; [apply ok_get_checked | intros ? _; cbv beta]
  | |- ok _ _ (bind (session_get _ _) _) =>
      eapply ok_bind; [apply ok_session_get | intros ? _; cbv beta]
  | |- ok _ _ (ret _) => apply ok_ret
  | |- ok _ _ (if ?c then _ else _) => destruct c eqn:?
  | |- ok _ _ (match ?x with _ => _ end) => destruct x eqn:?
  end.

Ltac accept_entry :=
  constructor; [split; [assumption | reflexivity] | try constructor].

Section WithRuntime.
Context {RT : PyRuntime}.

Lemma save_html_page_ok html page row_dir src :
  ok (line_of src) fetched (save_html_page html page row_dir src).
Proof.
  unfold save_html_page. repeat mstep.
  - left. accept_entry.
  - reflexivity.
  - right. eexists; split; [reflexivity|]. split; [assumption | reflexivity].
Qed.

Lemma scrape_links_ok hrefs page s row_dir src :
  forall downloaded seen_urls,
    Forall accepted downloaded ->
    ok (line_of src) (Forall accepted)
       (scrape_links hrefs page s row_dir src downloaded seen_urls).
Proof.
  induction hrefs as [|h hrefs IH]; intros downloaded seen_urls Hd; simpl.
  - apply ok_ret. exact Hd.
  - repeat first [ mstep | apply IH ]; try reflexivity; try exact Hd.
    apply Forall_app. split; [exact Hd | accept_entry].
Qed.

Lemma fetched_accepted l : Forall accepted l -> fetched l.
Proof. intros H; left; exact H. Qed.

Lemma scrape_page_for_files_ok resp page s row_dir src :
  ok (line_of src) fetched (scrape_page_for_files resp page s row_dir src).
Proof.
  unfold scrape_page_for_files.
  eapply ok_bind; [apply scrape_links_ok; constructor|].
  intros downloaded Hd; cbv beta.
  destruct (truthy downloaded).
  - apply ok_ret. left; exact Hd.
  - apply save_html_page_ok.
Qed.

Lemma try_download_url_ok u s row_dir src :
  ok (line_of src) fetched (try_download_url u s row_dir src).
Proof.
  unfold try_download_url.
  repeat first [ mstep | apply scrape_page_for_files_ok ];
    try reflexivity; left; try accept_entry; constructor.
Qed.

Lemma try_portal_source_ok row pm s row_dir :
  ok (line_of "portal") fetched (try_portal_source row pm s row_dir).
Proof.
  unfold try_portal_source.
  repeat first [ mstep | apply try_download_url_ok ];
    try reflexivity; left; constructor.
Qed.

Lemma truthy_false {A : Type} (l : list A) : truthy l = false -> l = [].
Proof. destruct l; [reflexivity | discriminate]. Qed.

Lemma direct_loop_ok l s row_dir :
  ok (line_of "direct") fetched (direct_loop l s row_dir []).
Proof.
  induction l as [|u l IH]; simpl.
  - apply ok_ret. left; constructor.
  - mstep; [reflexivity|].
    eapply ok_bind; [apply try_download_url_ok|].
    intros fl Hfl; cbv beta.
    destruct (truthy fl) eqn:E.
    + apply ok_ret. exact Hfl.
    + apply truthy_false in E; subst fl. exact IH.
Qed.

Lemma try_direct_urls_ok row s row_dir :
  ok (line_of "direct") fetched (try_direct_urls row s row_dir).
Proof.
  unfold try_direct_urls. mstep.
  - apply ok_ret. left; constructor.
  - apply direct_loop_ok.
Qed.

Lemma wayback_loop_ok l s row_dir :
  ok (line_of "wayback") (Forall accepted) (wayback_loop l s row_dir).
Proof.
  induction l as [|u l IH]; simpl.
  - apply ok_ret. constructor.
  - repeat first [ mstep | apply IH ]; try reflexivity; accept_entry.
Qed.

Lemma try_wayback_source_ok row s row_dir :
  ok (line_of "wayback") (Forall accepted) (try_wayback_source row s row_dir).
Proof.
  unfold try_wayback_source. mstep.
  - apply ok_ret. constructor.
  - apply wayback_loop_ok.
Qed.

Lemma accepted_not_failed l :
  Forall accepted l -> any_validation_failed l = false.
Proof.
  induction 1 as [|f l [_ Hf] _ IH]; simpl; [reflexivity|].
  rewrite Hf, IH. reflexivity.
Qed.

(** Among fetched entries, one accepted entry excludes a rejected one. *)
Lemma fetched_settled l :
  fetched l -> (exists f, In f l /\ accepted f) -> settled l = true.
Proof.
  intros [Hall | [g [-> [Hg1 Hg2]]]] [f [Hin [Hf1 Hf2]]]; unfold settled.
  - rewrite (accepted_not_failed Hall). destruct l; [destruct Hin | reflexivity].
  - destruct Hin as [<- | []]. congruence.
Qed.

Lemma accepted_settled l : Forall accepted l -> settled l = truthy l.
Proof.
  intros H. unfold settled. rewrite (accepted_not_failed H).
  apply andb_true_r.
Qed.

(** The source chain of [harvest_row], written over the results of the
    three steps. *)
Lemma harvest_row_chain row pm s out w :
  let row_dir := path_join out (row_id row) in
  let md0 := initial_metadata row pm in
  let p := try_portal_source row pm s row_dir w in
  let md1 := append_attempt md0 "portal"
               (if truthy (fst p) then "success" else "no_match") in
  let d := try_direct_urls row s row_dir (snd p) in
  let md2 := append_attempt md1 "direct"
               (if truthy (fst d) then "success" else "failed") in
  let y := try_wayback_source row s row_dir (snd d) in
  let md3 := append_attempt md2 "wayback"
               (if truthy (fst y) then "success" else "failed") in
  let finish m w' := (m, snd (save_metadata m row_dir w')) in
  harvest_row row pm s out false w
  = if settled (fst p)
    then finish (set_outcome md1 (fst p) (Some "portal") "success") (snd p)
    else if settled (fst d)
    then finish (set_outcome md2 (fst d) (Some "direct") "success") (snd d)
    else if settled (fst y)
    then finish (set_outcome md3 (fst y) (Some "wayback") "success") (snd y)
    else finish
           (if truthy (fst y) && any_validation_failed (fst y) then
              set_outcome md3 (fst y)
                (Some match fst y with
                      | f :: _ => source f
                      | [] => "unknown"
                      end)
                "validation_failed"
            else if truthy (urls row) then
              set_outcome md3 (files_downloaded md3) (source_used md3) "failed"
            else
              set_outcome md3 (files_downloaded md3) (source_used md3)
                          "no_urls")
           (snd y).
Proof.
  cbv zeta. unfold harvest_row, bind, ret, settled.
  destruct (try_portal_source _ _ _ _ w) as [pfl w1]; simpl fst; simpl snd.
  destruct (truthy pfl && negb (any_validation_failed pfl)); [reflexivity|].
  destruct (try_direct_urls _ _ _ w1) as [dfl w2]; simpl fst; simpl snd.
  destruct (truthy dfl && negb (any_validation_failed dfl)); [reflexivity|].
  destruct (try_wayback_source _ _ _ w2) as [yfl w3]; simpl fst; simpl snd.
  destruct (truthy yfl && negb (any_validation_failed yfl)); reflexivity.
Qed.

Lemma save_metadata_grows P m row_dir w :
  grows P w (snd (save_metadata m row_dir w)).
Proof. apply grows_same; reflexivity. Qed.

(** C4. When the Direct step is reached and returns an accepted artifact,
    the row is settled there: the Wayback step is not run, no request
    follows those of the Direct step, no line of the log comes from
    Wayback, and the attempt log names Portal and Direct only. *)
Theorem direct_success_skips_wayback (row : row_data) (pm : portal_map)
  (s : session) (out : pystr) (w : world) :
  let row_dir := path_join out (row_id row) in
  let p := try_portal_source row pm s row_dir w in
  let d := try_direct_urls row s row_dir (snd p) in
  let h := harvest_row row pm s out false w in
  settled (fst p) = false ->
  (exists f, In f (fst d) /\ accepted f) ->
  status (fst h) = "success"
  /\ source_used (fst h) = Some "direct"
  /\ files_downloaded (fst h) = fst d
  /\ map attempt_source (attempts (fst h)) = ["portal"; "direct"]
  /\ requests (snd h) = requests (snd d)
  /\ exists new,
       log (snd h) = log w ++ new /\ Forall (fun l => tag l <> "wayback") new.
Proof.
  intros row_dir p d h Hp Hd. subst h.
  rewrite harvest_row_chain. fold row_dir. fold p. rewrite Hp. fold d.
  destruct (try_direct_urls_ok row s row_dir (snd p)) as [Gd Fd]. fold d in Gd, Fd.
  rewrite (fetched_settled Fd Hd). simpl.
  repeat split.
  destruct (try_portal_source_ok row pm s row_dir w) as [Gp _]. fold p in Gp.
  assert (G : grows (fun l => tag l <> "wayback") w (snd d)).
  { eapply grows_trans; eapply grows_weaken; eauto;
      unfold line_of; intros l ->; discriminate. }
  destruct G as [[new [E F]] _]. exists new. split; assumption.
Qed.

(** C1 (amended). A row without candidate URL and without entry in the
    portal map ends with status [no_urls]; nothing is requested, logged
    or written, and the attempt log holds the three summary entries of
    the chain, none of them a success. *)
Theorem no_urls_no_portal_entry (row : row_data) (pm : portal_map)
  (s : session) (out : pystr) (w : world) :
  urls row = [] ->
  portal_get pm (row_id row) = None ->
  let h := harvest_row row pm s out false w in
  status (fst h) = "no_urls"
  /\ attempts (fst h)
     = [ {| attempt_source := "portal"; attempt_result := "no_match" |};
         {| attempt_source := "direct"; attempt_result := "failed" |};
         {| attempt_source := "wayback"; attempt_result := "failed" |} ]
  /\ files_downloaded (fst h) = []
  /\ source_used (fst h) = None
  /\ requests (snd h) = requests w
  /\ log (snd h) = log w
  /\ files (snd h) = files w.
Proof.
  intros Hurls Hpm h. subst h.
  unfold harvest_row, try_portal_source, try_direct_urls, try_wayback_source.
  rewrite Hurls, Hpm. simpl. repeat split; reflexivity.
Qed.

(** The status [validation_failed] is never produced: after the Wayback
    step [files] holds its result, which is empty or accepted. *)
Lemma validation_failed_unreachable (row : row_data) (pm : portal_map)
  (s : session) (out : pystr) (dry : bool) (w : world) :
  status (fst (harvest_row row pm s out dry w)) <> "validation_failed".
Proof.
  destruct dry; [discriminate|].
  rewrite harvest_row_chain. cbv zeta.
  destruct (settled (fst (try_portal_source _ _ _ _ _))); [discriminate|].
  destruct (settled (fst (try_direct_urls _ _ _ _))); [discriminate|].
  match goal with
  | |- context [try_wayback_source ?r ?s ?d ?w0] =>
      destruct (try_wayback_source_ok r s d w0) as [_ Hy];
      set (y := try_wayback_source r s d w0) in *
  end.
  rewrite (accepted_settled Hy), (accepted_not_failed Hy), andb_false_r.
  destruct (truthy (fst y)); [discriminate|].
  destruct (truthy (urls row)); discriminate.
Qed.


Lemma direct_loop_run l s row_dir : forall w,
  let r := direct_loop l s row_dir [] w in
  (fst r = [] /\ misses s row_dir l w (snd r))
  \/ (exists pre u post w1,
         l = pre ++ u :: post
         /\ misses s row_dir pre w w1
         /\ direct_fetch s row_dir u w1 = r
         /\ fst r <> []).
Proof.
  induction l as [|u l IH]; intros w; cbv zeta.
  - left. split; [reflexivity | constructor].
  - destruct (debug "direct" (Trying u) w) as [[] w0] eqn:E0.
    destruct (try_download_url u s row_dir "direct" w0) as [fl w1] eqn:E1.
    assert (Ef : direct_fetch s row_dir u w = (fl, w1)).
    { unfold direct_fetch, bind. rewrite E0. exact E1. }
    assert (Eq : direct_loop (u :: l) s row_dir [] w
                 = if truthy fl then (fl, w1)
                   else direct_loop l s row_dir fl w1).
    { simpl. unfold bind. rewrite E0, E1. destruct (truthy fl); reflexivity. }
    rewrite Eq. clear Eq.
    destruct fl as [|f fl]; simpl truthy; cbv iota.
    + specialize (IH w1). cbv zeta in IH.
      destruct IH as [[Hr Hm] | [pre [u' [post [w2 [El [Hm [Hf Hr]]]]]]]].
      * left. split; [exact Hr|]. econstructor; eauto.
      * right. exists (u :: pre), u', post, w2. subst l.
        split; [reflexivity|]. split; [econstructor; eauto|].
        split; assumption.
    + right. exists [], u, l, w. split; [reflexivity|].
      split; [constructor|]. split; [exact Ef | discriminate].
Qed.

(** C3 (amended). The Direct step takes the candidate URLs in the order
    supplied.  Either every URL is fetched and none returns a file entry,
    and the step returns nothing; or it stops at the first URL whose fetch
    returns file entries, returns them and leaves the world as that fetch
    left it: the URLs before it returned nothing, the URLs after it are
    not fetched. *)
Theorem direct_stops_at_first_result (row : row_data) (s : session)
  (row_dir : pystr) (w : world) :
  let r := try_direct_urls row s row_dir w in
  (fst r = [] /\ misses s row_dir (urls row) w (snd r))
  \/ (exists pre u post w1,
         urls row = pre ++ u :: post
         /\ misses s row_dir pre w w1
         /\ direct_fetch s row_dir u w1 = r
         /\ fst r <> []).
Proof.
  cbv zeta. unfold try_direct_urls.
  destruct (urls row) as [|u l] eqn:E.
  - left. split; [reflexivity | constructor].
  - simpl truthy. cbv iota. simpl negb. cbv iota.
    apply (direct_loop_run (u :: l) s row_dir w).
Qed.

(** C9. In resume mode a row whose [metadata.json] records [success] is
    skipped: the loop goes on with the next row in the same world, only
    the count of skipped rows changes.  Alone in the batch, the row leaves
    the world as it was: no request, no line logged, its record
    untouched. *)
Theorem resume_skips_recorded_success (args : arguments) (pm : portal_map)
  (s : session) (out : pystr) (row : row_data) (rows : list row_data)
  (st : statistics) (w : world) (existing : metadata) :
  resume args = true ->
  metadata_read (metadata_files w)
                (path_join (path_join out (row_id row)) (lit "metadata.json"))
  = Some (Parsed existing) ->
  status existing = "success" ->
  main_loop args pm s out (row :: rows) st w
  = main_loop args pm s out rows (count_skipped st) w
  /\ main_loop args pm s out [row] st w = (count_skipped st, w).
Proof.
  intros Hres Hread Hst.
  assert (H : forall l, main_loop args pm s out (row :: l) st w
                        = main_loop args pm s out l (count_skipped st) w).
  { intros l. simpl. unfold bind. rewrite Hres.
    unfold recorded_success. rewrite Hread, Hst. reflexivity. }
  split; [apply H|]. rewrite H. reflexivity.
Qed.

(** A whole batch of rows recorded as [success] is skipped in resume
    mode. *)
Lemma resume_idempotent (args : arguments) (pm : portal_map)
  (s : session) (out : pystr) (rows : list row_data) (w : world) :
  resume args = true ->
  (forall row, In row rows ->
     exists existing,
       metadata_read (metadata_files w)
         (path_join (path_join out (row_id row)) (lit "metadata.json"))
       = Some (Parsed existing)
       /\ status existing = "success") ->
  forall st, snd (main_loop args pm s out rows st w) = w.
Proof.
  intros Hres. induction rows as [|row rows IH]; intros Hall st.
  - reflexivity.
  - destruct (Hall row (or_introl eq_refl)) as [existing [Hread Hst]].
    simpl. unfold bind. rewrite Hres.
    unfold recorded_success. rewrite Hread, Hst. simpl.
    apply IH. intros r Hr. apply Hall. right; exact Hr.
Qed.
End WithRuntime.
End HarvestProps.

(** ** The chain and the gate at concrete inputs *)

Module Run.
Import Validate Harvest Spec Scenario ValidateProps HarvestProps.

#[local] Existing Instance Ascii7.runtime.

Lemma some_accepted (l : list file_entry) :
  existsb (fun f => valid (validation f) && negb (validation_failed f)) l = true ->
  exists f, In f l /\ accepted f.
Proof.
  intros H. apply existsb_exists in H as [f [Hin Hf]].
  apply andb_true_iff in Hf as [Hv Hn]. apply negb_true_iff in Hn.
  exists f. split; [exact Hin | split; assumption].
Qed.

(** C1, counterexample. The row has no URL and the portal map is empty;
    the status is [no_urls] but the attempt log is not empty. *)
Lemma no_urls_attempt_log_not_empty :
  ~ (forall (RT : PyRuntime) (r : row_data) (pm : portal_map) (s : session)
            (o : pystr) (w : world),
        urls r = [] ->
        portal_get pm (row_id r) = None ->
        status (fst (harvest_row r pm s o false w)) = "no_urls"
        /\ attempts (fst (harvest_row r pm s o false w)) = []).
Proof.
  intros H.
  destruct (H Ascii7.runtime (row []) [] site_dead_then_stub out empty_world
              eq_refl eq_refl) as [_ E].
  vm_compute in E. discriminate E.
Qed.

Lemma no_urls_no_portal_entry_witness :
  let h := harvest_row (row []) [] site_dead_then_stub out false empty_world in
  status (fst h) = "no_urls"
  /\ attempts (fst h)
     = [ {| attempt_source := "portal"; attempt_result := "no_match" |};
         {| attempt_source := "direct"; attempt_result := "failed" |};
         {| attempt_source := "wayback"; attempt_result := "failed" |} ]
  /\ files_downloaded (fst h) = []
  /\ source_used (fst h) = None
  /\ requests (snd h) = requests empty_world
  /\ log (snd h) = log empty_world
  /\ files (snd h) = files empty_world.
Proof.
  apply (@no_urls_no_portal_entry Ascii7.runtime (row []) []
           site_dead_then_stub out empty_world); reflexivity.
Defined.

(** C2, at the failing input. The only URL of the row serves a block page
    without links; the Direct step returns its entry, rejected by the
    validator as [doj_access_denied]; Wayback has nothing; the chain is
    exhausted and the status recorded is [failed], with no file listed. *)
Theorem rejected_page_recorded_as_failed :
  let d := try_direct_urls (row [url_page]) site_denied_then_pdf row_dir
                           empty_world in
  let h := harvest_row (row [url_page]) [] site_denied_then_pdf out false
                       empty_world in
  map (fun f => (validation_failed f, valid (validation f),
                 reason (validation f))) (fst d)
  = [(true, false, "doj_access_denied")]
  /\ map attempt_source (attempts (fst h)) = ["portal"; "direct"; "wayback"]
  /\ status (fst h) = "failed"
  /\ files_downloaded (fst h) = [].
Proof. vm_compute. repeat split; reflexivity. Qed.

(** C3, counterexample. The first candidate URL serves a block page that
    the validator rejects, the second a PDF that it accepts; the Direct
    step stops at the first one and never requests the second. *)
Lemma rejected_page_stops_direct_iteration :
  let r := try_direct_urls (row [url_page; url_pdf]) site_denied_then_pdf
                           row_dir empty_world in
  map (fun f => (validation_failed f, valid (validation f),
                 reason (validation f))) (fst r)
  = [(true, false, "doj_access_denied")]
  /\ requests (snd r) = [url_page]
  /\ map (fun f => valid (validation f))
         (fst (try_download_url url_pdf site_denied_then_pdf row_dir "direct"
                                (snd r)))
     = [true].
Proof. vm_compute. repeat split; reflexivity. Qed.

(** A binary download that the validator rejects leaves the Direct step
    without entry for that URL, and the next URL is fetched. *)
Example rejected_download_does_not_stop :
  let r := try_direct_urls (row [url_stub; url_pdf])
             (site [ (url_stub, Some (pdf_response url_stub pdf_stub));
                     (url_pdf, Some (pdf_response url_pdf pdf_document)) ])
             row_dir empty_world in
  requests (snd r) = [url_stub; url_pdf]
  /\ map (fun f => (source_url f, valid (validation f))) (fst r)
     = [(url_pdf, true)].
Proof. vm_compute. split; reflexivity. Qed.

Lemma direct_success_skips_wayback_witness :
  let d := try_direct_urls (row [url_pdf]) site_denied_then_pdf row_dir
                           empty_world in
  let h := harvest_row (row [url_pdf]) [] site_denied_then_pdf out false
                       empty_world in
  status (fst h) = "success"
  /\ source_used (fst h) = Some "direct"
  /\ files_downloaded (fst h) = fst d
  /\ map attempt_source (attempts (fst h)) = ["portal"; "direct"]
  /\ requests (snd h) = requests (snd d)
  /\ exists new,
       log (snd h) = log empty_world ++ new
       /\ Forall (fun l => tag l <> "wayback") new.
Proof.
  apply (@direct_success_skips_wayback Ascii7.runtime (row [url_pdf]) []
           site_denied_then_pdf out empty_world).
  - vm_compute. reflexivity.
  - apply some_accepted. vm_compute. reflexivity.
Defined.


(** C6, counterexample. An HTML file of 283 bytes that holds the phrase
    [Access Denied] and is named [report.pdf] is rejected as
    [html_masquerade], not as [doj_access_denied]. *)
Lemma access_denied_page_named_pdf :
  let fs := one_file named_pdf (write_text denied_page) in
  detect_file_type fs named_pdf = "html"
  /\ has_indicator (read_text (write_text denied_page)) DOJ_INDICATORS
  /\ reason (validate_content fs named_pdf 500) = "html_masquerade".
Proof.
  cbv zeta. split; [vm_compute; reflexivity|].
  split; [|vm_compute; reflexivity].
  exists (lit "access denied"). split; [left; reflexivity|].
  vm_compute. reflexivity.
Qed.

Lemma access_denied_before_length_checks_witness :
  let fs := one_file named_html (write_text denied_page) in
  valid (validate_content fs named_html 0) = false
  /\ reason (validate_content fs named_html 0) = "doj_access_denied".
Proof.
  apply (@access_denied_before_length_checks Ascii7.runtime
           (one_file named_html (write_text denied_page)) named_html 0
           (write_text denied_page)).
  - vm_compute. reflexivity.
  - apply Nat.leb_le. vm_compute. reflexivity.
  - vm_compute. reflexivity.
  - vm_compute. reflexivity.
  - exists (lit "access denied"). split; [left; reflexivity|].
    vm_compute. reflexivity.
Defined.

Lemma document_signature_accepted_witness :
  let fs := one_file named_html pdf_document in
  (200 <= length pdf_document ->
   valid (validate_content fs named_html 500) = true
   /\ reason (validate_content fs named_html 500) = "ok")
  /\ (length pdf_document < 200 ->
      valid (validate_content fs named_html 500) = false).
Proof.
  apply (@document_signature_accepted Ascii7.runtime
           (one_file named_html pdf_document) named_html 500 pdf_document
           (b "%PDF")).
  - vm_compute. reflexivity.
  - exists "pdf". split; [left; reflexivity | left; reflexivity].
  - vm_compute. reflexivity.
Defined.

Lemma generic_error_page_only_if_short_witness :
  let fs := one_file named_html (write_text not_found_page) in
  let shown :=
    length (extract_visible_text (read_text (write_text not_found_page))) in
  (reason (validate_content fs named_html 500) = "generic_error_page" ->
   shown < 2000)
  /\ (2000 <= shown ->
      reason (validate_content fs named_html 500) <> "generic_error_page").
Proof.
  apply (@generic_error_page_only_if_short Ascii7.runtime
           (one_file named_html (write_text not_found_page)) named_html 500
           (write_text not_found_page)).
  - vm_compute. reflexivity.
  - exists (lit "404 not found"). split; [right; left; reflexivity|].
    vm_compute. reflexivity.
Defined.

(** The error page of the scenario gets that verdict. *)
Example not_found_page_rejected :
  reason (validate_content (one_file named_html (write_text not_found_page))
                           named_html 500)
  = "generic_error_page".
Proof. vm_compute. reflexivity. Qed.

Lemma resume_skips_recorded_success_witness :
  main_loop resume_args [] site_denied_then_pdf out [row [url_pdf]] no_stats
            harvested_world
  = (count_skipped no_stats, harvested_world).
Proof.
  apply (@resume_skips_recorded_success Ascii7.runtime resume_args []
           site_denied_then_pdf out (row [url_pdf]) [] no_stats
           harvested_world harvested); reflexivity.
Defined.

End Run.


(** ** Names of the downloaded files *)

Module NamingProps.
Import Validate Harvest.

Lemma to_N_inj (x y : byte) : Byte.to_N x = Byte.to_N y -> x = y.
Proof.
  intros E. pose proof (Byte.of_to_N x) as Hx.
  rewrite E, Byte.of_to_N in Hx. congruence.
Qed.

Lemma lit_inj (s t : string) : lit s = lit t -> s = t.
Proof.
  unfold lit. intros E.
  assert (El : list_byte_of_string s = list_byte_of_string t).
  { revert E. generalize (list_byte_of_string s) (list_byte_of_string t).
    induction l as [|x l IH]; intros [|y l']; simpl; try discriminate;
      [reflexivity|].
    intros E; inversion E as [[Exy El]].
    apply to_N_inj in Exy. rewrite (IH _ El), Exy. reflexivity. }
  rewrite <- (string_of_list_byte_of_string s),
          <- (string_of_list_byte_of_string t), El.
  reflexivity.
Qed.

Lemma str_of_nat_inj (m n : nat) : str_of_nat m = str_of_nat n -> m = n.
Proof.
  unfold str_of_nat. intros E. apply lit_inj in E.
  assert (Eu : Nat.to_uint m = Nat.to_uint n).
  { pose proof (NilEmpty.usu (Nat.to_uint m)) as Hm.
    rewrite E, NilEmpty.usu in Hm. congruence. }
  rewrite <- (DecimalNat.Unsigned.of_to m), <- (DecimalNat.Unsigned.of_to n), Eu.
  reflexivity.
Qed.

(** The [counter]-th name tried by the loop. *)
Lemma numbered_inj (base ext : pystr) (m n : nat) :
  base ++ lit "_" ++ str_of_nat m ++ ext
  = base ++ lit "_" ++ str_of_nat n ++ ext ->
  m = n.
Proof.
  intros E. apply app_inv_head in E. apply app_inv_head in E.
  apply app_inv_tail in E. apply str_of_nat_inj. exact E.
Qed.

Lemma NoDup_map_inj {A B : Type} (f : A -> B) (l : list A) :
  (forall x y, f x = f y -> x = y) -> NoDup l -> NoDup (map f l).
Proof.
  intros Hinj. induction 1 as [|x l Hx _ IH]; simpl; constructor; [|exact IH].
  intros Hin. apply in_map_iff in Hin as [y [E Hy]].
  apply Hinj in E. subst y. exact (Hx Hy).
Qed.

Lemma fs_exists_In (fs : filesystem) (p : pystr) :
  fs_exists fs p = true -> In p (map fst fs).
Proof.
  unfold fs_exists. induction fs as [|[q data] fs IH]; simpl; [discriminate|].
  destruct (str_eqb q p) eqn:E.
  - intros _. left. apply str_eqb_eq. exact E.
  - intros H. right. apply IH. exact H.
Qed.

(** If the loop ends on a name that exists, every name it tested
    exists. *)
Lemma avoid_overwriting_exhausted (fs : filesystem) (base ext : pystr) :
  forall fuel fpath counter,
    fs_exists fs (avoid_overwriting fuel fs base ext fpath counter) = true ->
    forall k, counter <= k < counter + (fuel - 1) ->
      fs_exists fs (base ++ lit "_" ++ str_of_nat k ++ ext) = true.
Proof.
  induction fuel as [|fuel IH]; intros fpath counter H k Hk; [lia|].
  cbn [avoid_overwriting] in H. destruct (fs_exists fs fpath) eqn:E.
  - destruct fuel as [|fuel']; [lia|].
    destruct (Nat.eq_dec k counter) as [->|Hne].
    + cbn [avoid_overwriting] in H.
      destruct (fs_exists fs (base ++ lit "_" ++ str_of_nat counter ++ ext))
        eqn:Ec; [reflexivity | congruence].
    + apply (IH _ _ H). lia.
  - congruence.
Qed.

Section WithRuntime.
Context {RT : PyRuntime}.

(** With two turns more than the file system has files, the loop ends
    on a name that does not exist. *)
Lemma avoid_overwriting_fresh (fs : filesystem) (base ext fpath : pystr) :
  fs_exists fs (avoid_overwriting (2 + length fs) fs base ext fpath 1) = false.
Proof.
  destruct (fs_exists fs (avoid_overwriting _ fs base ext fpath 1)) eqn:E;
    [exfalso | reflexivity].
  pose proof (@avoid_overwriting_exhausted fs base ext _ _ _ E) as Hall.
  set (names := map (fun k => base ++ lit "_" ++ str_of_nat k ++ ext)
                    (seq 1 (S (length fs)))).
  assert (Hnd : NoDup names).
  { apply NoDup_map_inj; [|apply seq_NoDup].
    intros m n. apply numbered_inj. }
  assert (Hincl : incl names (map fst fs)).
  { intros p Hp. apply in_map_iff in Hp as [k [<- Hk]].
    apply in_seq in Hk. apply fs_exists_In, Hall. lia. }
  pose proof (NoDup_incl_length Hnd Hincl) as Hlen.
  unfold names in Hlen. rewrite !length_map, length_seq in Hlen. lia.
Qed.


(** A free name is kept as it is. *)
Lemma unused_path_keeps_free (fs : filesystem) (fpath : pystr) :
  fs_exists fs fpath = false -> unused_path fs fpath = fpath.
Proof.
  intros H. unfold unused_path. destruct (splitext fpath) as [base ext].
  simpl. rewrite H. reflexivity.
Qed.

Lemma lstrip_chars_suffix (chars s : pystr) :
  exists removed, s = removed ++ lstrip_chars chars s.
Proof.
  induction s as [|c s [r IH]]; simpl.
  - exists []; reflexivity.
  - destruct (existsb (N.eqb c) chars).
    + exists (c :: r). simpl. rewrite <- IH. reflexivity.
    + exists []. reflexivity.
Qed.

Lemma lstrip_chars_head (chars s : pystr) (c : N) (rest : pystr) :
  lstrip_chars chars s = c :: rest -> existsb (N.eqb c) chars = false.
Proof.
  induction s as [|x s IH]; simpl; [discriminate|].
  destruct (existsb (N.eqb x) chars) eqn:E; [exact IH|].
  intros H; inversion H; subst. exact E.
Qed.

(** What is left by [s.strip(chars)] does not start with one of
    [chars]. *)
Lemma strip_chars_head (chars s : pystr) (c : N) (rest : pystr) :
  strip_chars chars s = c :: rest -> existsb (N.eqb c) chars = false.
Proof.
  unfold strip_chars. intros H.
  destruct (lstrip_chars_suffix chars (rev (lstrip_chars chars s)))
    as [removed E].
  apply (f_equal (@rev N)) in E. rewrite rev_involutive, rev_app_distr, H in E.
  simpl in E. apply (lstrip_chars_head chars s E).
Qed.

Lemma safe_filename_sized (name : pystr) :
  safe_filename name <> [] /\ length (safe_filename name) <= 100.
Proof.
  unfold safe_filename.
  destruct (strip_chars (lit "_.") _) as [|c0 cleaned]; simpl truthy;
    cbv iota.
  - split; [discriminate | vm_compute; lia].
  - split; [discriminate | apply firstn_le_length].
Qed.

(** X2. [safe_filename] never returns an empty name nor more than 100
    characters, and the name does not start with an underscore or a
    dot. *)
Theorem safe_filename_bounds (name : pystr) :
  safe_filename name <> []
  /\ length (safe_filename name) <= 100
  /\ forall c rest,
       safe_filename name = c :: rest -> c <> 95%N /\ c <> 46%N.
Proof.
  destruct (safe_filename_sized name) as [Hne Hlen].
  split; [exact Hne|]. split; [exact Hlen|]. clear Hne Hlen.
  unfold safe_filename.
  set (cleaned := strip_chars (lit "_.") _).
  destruct cleaned as [|c0 cleaned'] eqn:E; simpl truthy; cbv iota.
  - intros c rest H. vm_compute in H. inversion H; subst.
    split; discriminate.
  - intros c rest H. simpl in H. inversion H; subst c.
    apply strip_chars_head in E. simpl in E.
    apply orb_false_iff in E as [E1 E2]. apply orb_false_iff in E2 as [E2 _].
    apply N.eqb_neq in E1, E2. split; assumption.
Qed.

Lemma guess_ext_length (ct : pystr) :
  0 < length (lit (guess_ext ext_map ct)) <= 5.
Proof.
  unfold ext_map. simpl.
  repeat match goal with
         | |- context [if ?c then _ else _] => destruct c
         end; vm_compute; lia.
Qed.

(** X3. [guess_filename] always gives a name, of 100 characters at most,
    whatever the response and the URL. *)
Theorem guess_filename_bounds (resp : response) (original_url : pystr) :
  guess_filename resp original_url <> []
  /\ length (guess_filename resp original_url) <= 100.
Proof.
  unfold guess_filename.
  assert (S : forall n, safe_filename n <> []
                        /\ length (safe_filename n) <= 100).
  { intros n. apply safe_filename_sized. }
  assert (F : forall r : pystr,
             (r <> [] /\ length r <= 100) ->
             forall o : option pystr,
               (forall n, o = Some n -> n <> [] /\ length n <= 100) ->
               match o with Some n => n | None => r end <> []
               /\ length match o with Some n => n | None => r end <= 100).
  { intros r Hr [n|] Ho; [apply Ho; reflexivity | exact Hr]. }
  apply F.
  2:{ intros n. destruct (contains _ _); [|discriminate].
      destruct (re_search _ _ _) as [groups|]; [|discriminate].
      intros H; inversion H. apply S. }
  destruct (path_name_of (url resp)); [apply S|].
  destruct (path_name_of original_url); [apply S|].
  pose proof (guess_ext_length
                (lower (header (header_content_type resp)))) as Hl.
  split.
  - intros E. apply (f_equal (@length N)) in E.
    rewrite length_app in E. simpl in E. lia.
  - rewrite length_app. change (length (lit "document")) with 8. lia.
Qed.

End WithRuntime.
End NamingProps.


(** ** More about the validation gate *)

Module ValidateMore.
Import Validate ValidateProps.

Section WithRuntime.
Context {RT : PyRuntime}.

(** X4. A file under 200 bytes is never accepted: it is rejected as
    [file_empty] when it holds nothing and as [file_too_small]
    otherwise, whatever its content and its name. *)
Theorem below_size_floor_rejected (fs : filesystem) (fpath : pystr)
  (n : nat) (data : bytes) :
  fs_read fs fpath = Some data ->
  length data < 200 ->
  valid (validate_content fs fpath n) = false
  /\ reason (validate_content fs fpath n)
     = if length data =? 0 then "file_empty" else "file_too_small".
Proof.
  intros Hread Hsize. unfold validate_content. rewrite Hread.
  destruct (length data =? 0); [split; reflexivity|].
  apply Nat.ltb_lt in Hsize. rewrite Hsize. split; reflexivity.
Qed.

Lemma shell_loop_short patterns html n r :
  shell_loop patterns html (extract_visible_text html) n = Some r ->
  (length (extract_visible_text html) <? n) = true
  /\ exists pattern,
      In pattern patterns
      /\ re_search pattern {| DOTALL := false; IGNORECASE := true |} html
         <> None.
Proof.
  revert r. induction patterns as [|p ps IH]; simpl; intros r; [discriminate|].
  destruct (re_search p _ html) eqn:Es.
  - destruct (length (extract_visible_text html) <? n) eqn:El.
    + intros _. split; [reflexivity|]. exists p. split; [left; reflexivity|].
      rewrite Es. discriminate.
    + intros H. destruct (IH _ H) as [H1 [q [Hq1 Hq2]]].
      split; [exact H1|]. exists q. split; [right; exact Hq1 | exact Hq2].
  - intros H. destruct (IH _ H) as [H1 [q [Hq1 Hq2]]].
    split; [exact H1|]. exists q. split; [right; exact Hq1 | exact Hq2].
Qed.

Lemma is_empty_shell_flag (html : pystr) (n : nat) :
  fst (fst (is_empty_shell html n)) = (length (extract_visible_text html) <? n).
Proof.
  unfold is_empty_shell.
  destruct (shell_loop _ _ _ _) as [r|] eqn:E.
  - destruct (shell_loop_short _ _ _ E) as [Hlt _].
    apply shell_loop_reason in E. subst r. simpl. symmetry. exact Hlt.
  - destruct (length (extract_visible_text html) <? n); reflexivity.
Qed.

(** X5. [is_empty_shell] reports a shell exactly when the visible text is
    shorter than the minimum, and always counts the visible characters;
    the shell patterns only choose between the two reasons. *)
Theorem is_empty_shell_verdict (html : pystr) (n : nat) :
  fst (fst (is_empty_shell html n)) = (length (extract_visible_text html) <? n)
  /\ snd (fst (is_empty_shell html n)) = length (extract_visible_text html)
  /\ (snd (is_empty_shell html n) = "shell_page_no_content" ->
      exists pattern,
        In pattern SHELL_ONLY_PATTERNS
        /\ re_search pattern {| DOTALL := false; IGNORECASE := true |} html
           <> None).
Proof.
  split; [apply is_empty_shell_flag|].
  split; [apply is_empty_shell_count|].
  unfold is_empty_shell.
  destruct (shell_loop _ _ _ _) as [r|] eqn:E.
  - intros _. apply (shell_loop_short _ _ _ E).
  - destruct (length (extract_visible_text html) <? n); discriminate.
Qed.

(** X6. The verdict [html_masquerade] is given exactly to the files of at
    least 200 bytes for which [is_html_masquerading_as_pdf] holds: an
    HTML content under a name that ends in [.pdf]. *)
Theorem html_masquerade_iff (fs : filesystem) (fpath : pystr) (n : nat) :
  reason (validate_content fs fpath n) = "html_masquerade"
  <-> (exists data, fs_read fs fpath = Some data /\ 200 <= length data)
      /\ is_html_masquerading_as_pdf fs fpath = true.
Proof.
  rewrite masquerade_check. split.
  - unfold validate_content.
    destruct (fs_read fs fpath) as [data|] eqn:Hread; [|discriminate].
    exits; simpl; try (intros E; discriminate E).
    + intros _. split; [|reflexivity].
      exists data. split; [reflexivity|].
      match goal with H : (_ <? 200) = false |- _ => apply Nat.ltb_ge in H end.
      assumption.
    + match goal with
      | E : is_empty_shell ?c ?m = (true, _, _) |- _ =>
          pose proof (is_empty_shell_reason c m) as H; rewrite E in H;
          intros ->; destruct H; discriminate
      end.
    + match goal with
      | E : is_empty_shell ?c ?m = (true, _, _) |- _ =>
          pose proof (is_empty_shell_reason c m) as H; rewrite E in H;
          intros ->; destruct H; discriminate
      end.
  - intros [[data [Hread Hsize]] Hm].
    apply andb_true_iff in Hm as [Hext Htype].
    apply String.eqb_eq in Htype.
    unfold validate_content. rewrite Hread, Htype, Hext.
    destruct (length data =? 0) eqn:E0; [apply Nat.eqb_eq in E0; lia|].
    destruct (length data <? 200) eqn:E1; [apply Nat.ltb_lt in E1; lia|].
    reflexivity.
Qed.

(** X7. An HTML or text file that the gate accepts is clean: it has at
    least 200 bytes, is not an HTML file named [.pdf], holds no
    access-denied and no Wayback-error phrase, shows at least the minimum
    of visible characters, and at least 2000 of them if it holds a generic
    error phrase. *)
Theorem accepted_text_is_clean (fs : filesystem) (fpath : pystr) (n : nat)
  (data : bytes) :
  fs_read fs fpath = Some data ->
  tag_in (detect_file_type fs fpath) ["html"; "text"] = true ->
  valid (validate_content fs fpath n) = true ->
  200 <= length data
  /\ is_html_masquerading_as_pdf fs fpath = false
  /\ ~ has_indicator (read_text data) DOJ_INDICATORS
  /\ ~ has_indicator (read_text data) WAYBACK_ERROR_INDICATORS
  /\ n <= length (extract_visible_text (read_text data))
  /\ (has_indicator (read_text data) GENERIC_ERROR_INDICATORS ->
      2000 <= length (extract_visible_text (read_text data))).
Proof.
  intros Hread Htype.
  rewrite masquerade_check.
  rewrite <- !check_for_junk_indicators_spec.
  pose proof (is_empty_shell_flag (read_text data) n) as Hshell.
  assert (Hnb : tag_in (detect_file_type fs fpath)
                       ["pdf"; "zip_based"; "ole"; "rtf"] = false
                /\ tag_in (detect_file_type fs fpath) ["png"; "jpg"; "gif"]
                   = false).
  { apply tag_in_spec in Htype.
    destruct Htype as [<-|[<-|[]]]; split; reflexivity. }
  destruct Hnb as [Hn1 Hn2].
  unfold validate_content. rewrite Hread, Hn1, Hn2, Htype. simpl negb.
  cbv iota zeta.
  destruct (length data =? 0) eqn:E0; [discriminate|].
  destruct (length data <? 200) eqn:E1; [discriminate|].
  destruct (_ && _) eqn:Em; [discriminate|].
  destruct (truthy (check_for_junk_indicators _ DOJ_INDICATORS)) eqn:Ed;
    [discriminate|].
  destruct (truthy (check_for_junk_indicators _ WAYBACK_ERROR_INDICATORS))
    eqn:Ew; [discriminate|].
  apply Nat.ltb_ge in E1.
  assert (Hmin : forall r : ValidationResult,
             (let '(is_shell, char_count, shell_reason) :=
                is_empty_shell (read_text data) n in
              if is_shell
              then result false fpath shell_reason
                          [("visible_chars", d_int char_count)]
              else r) = r
             \/ valid (let '(is_shell, char_count, shell_reason) :=
                         is_empty_shell (read_text data) n in
                       if is_shell
                       then result false fpath shell_reason
                                   [("visible_chars", d_int char_count)]
                       else r) = false).
  { intros r. destruct (is_empty_shell (read_text data) n) as [[sh c] rs].
    destruct sh; [right | left]; reflexivity. }
  assert (Hlen : forall r : ValidationResult,
             valid (let '(is_shell, char_count, shell_reason) :=
                      is_empty_shell (read_text data) n in
                    if is_shell
                    then result false fpath shell_reason
                                [("visible_chars", d_int char_count)]
                    else r) = true ->
             n <= length (extract_visible_text (read_text data))).
  { intros r. destruct (is_empty_shell (read_text data) n) as [[sh c] rs].
    simpl in Hshell. destruct sh; [discriminate|].
    intros _. symmetry in Hshell. apply Nat.ltb_ge in Hshell. exact Hshell. }
  destruct (truthy (check_for_junk_indicators _ GENERIC_ERROR_INDICATORS))
    eqn:Eg.
  - destruct (length (extract_visible_text (read_text data)) <? 2000) eqn:E2;
      [discriminate|].
    intros Hv. apply Hlen in Hv. apply Nat.ltb_ge in E2.
    repeat split; try assumption; try (intros H; congruence).
  - intros Hv. apply Hlen in Hv.
    repeat split; try assumption; try (intros H; congruence).
Qed.


(** X9. A file of at least 200 bytes that starts with one of the seven
    signatures of [FILE_SIGNATURES], images included, is accepted, and
    the result records the type of the signature and the size. *)
Theorem signature_recorded (fs : filesystem) (fpath : pystr) (n : nat)
  (data sig : bytes) (ftype : string) :
  fs_read fs fpath = Some data ->
  In (sig, ftype) FILE_SIGNATURES ->
  bytes_startswith data sig = true ->
  200 <= length data ->
  validate_content fs fpath n
  = result true fpath "ok"
           [("actual_type", d_tag ftype); ("size_bytes", d_int (length data))].
Proof.
  intros Hread Hsig Hpre Hsize.
  pose proof (detect_file_type_signature _ _ Hread Hsig Hpre) as Htype.
  unfold validate_content. rewrite Hread, Htype.
  destruct (length data =? 0) eqn:E0; [apply Nat.eqb_eq in E0; lia|].
  destruct (length data <? 200) eqn:E1; [apply Nat.ltb_lt in E1; lia|].
  unfold FILE_SIGNATURES in Hsig. simpl in Hsig.
  repeat destruct Hsig as [Hsig|Hsig]; try contradiction;
    inversion Hsig; subst; reflexivity.
Qed.

End WithRuntime.
End ValidateMore.


(** ** More about the fetchers and the orchestrator *)

Module HarvestMore.
Import Validate Harvest Spec Spec2 HarvestProps NamingProps.

Lemma fs_remove_absent (fs : filesystem) (p : pystr) :
  fs_exists fs p = false -> fs_remove fs p = fs.
Proof.
  unfold fs_exists. induction fs as [|[q data] fs IH]; simpl; [reflexivity|].
  destruct (str_eqb q p); [discriminate|].
  intros H. rewrite (IH H). reflexivity.
Qed.

(** Writing a file under a free name and removing it restores the file
    system. *)
Lemma fs_write_remove (fs : filesystem) (p : pystr) (data : bytes) :
  fs_exists fs p = false -> fs_remove (fs_write fs p data) p = fs.
Proof.
  intros H. unfold fs_write. simpl. rewrite str_eqb_refl.
  rewrite !(fs_remove_absent _ _ H). reflexivity.
Qed.

Lemma reqs_ret {A : Type} (P : list pystr -> A -> Prop) (a : A) :
  P [] a -> reqs P (ret a).
Proof. intros H w. exists []. rewrite app_nil_r. split; [reflexivity | exact H]. Qed.

Lemma reqs_bind_silent {A B : Type} (P : list pystr -> B -> Prop)
  (c : M A) (k : A -> M B) :
  silent c -> (forall a, reqs P (k a)) -> reqs P (bind c k).
Proof.
  intros Hc Hk w. unfold bind. specialize (Hc w).
  destruct (c w) as [a w1]. simpl in Hc.
  destruct (Hk a w1) as [new [E H]]. exists new. rewrite E, Hc. auto.
Qed.

Lemma reqs_bind_get {B : Type} (P : list pystr -> B -> Prop)
  (s : session) (u : pystr) (k : option response -> M B) :
  (forall r, reqs (fun new b => P (u :: new) b) (k r)) ->
  reqs P (bind (session_get s u) k).
Proof.
  intros Hk w. unfold bind, session_get.
  destruct (Hk (s (length (requests w)) u)
               {| files := files w; metadata_files := metadata_files w;
                  requests := requests w ++ [u]; log := log w |})
    as [new [E H]].
  exists (u :: new). rewrite E. simpl. rewrite <- app_assoc. auto.
Qed.

Lemma reqs_weaken {A : Type} (P Q : list pystr -> A -> Prop) (c : M A) :
  (forall new a, P new a -> Q new a) -> reqs P c -> reqs Q c.
Proof.
  intros H Hc w. destruct (Hc w) as [new [E Hp]]. exists new. auto.
Qed.

Lemma silent_debug src m : silent (debug src m).
Proof. intros w. reflexivity. Qed.

Lemma silent_on_files f : silent (on_files f).
Proof. intros w. reflexivity. Qed.

Lemma silent_read_files {A : Type} (f : filesystem -> A) :
  silent (read_files f).
Proof. intros w. reflexivity. Qed.

(** One step through a computation, for the requests. *)
Ltac rstep :=
  lazymatch goal with
  | |- reqs _ (bind (debug _ _) _) =>
      apply reqs_bind_silent; [apply silent_debug | intros []]
  | |- reqs _ (bind (read_files _) _) =>
      apply reqs_bind_silent; [apply silent_read_files | intros ?]
  | |- reqs _ (bind (write_bytes _ _) _) =>
      apply reqs_bind_silent; [apply silent_on_files | intros []]
  | |- reqs _ (bind (os_remove _) _) =>
      apply reqs_bind_silent; [apply silent_on_files | intros []]
  | |- reqs _ (bind (session_get _ _) _) =>
      apply reqs_bind_get; intros ?
  | |- reqs _ (ret _) => apply reqs_ret
  | |- reqs _ (if ?c then _ else _) => destruct c eqn:?
  | |- reqs _ (match ?x with _ => _ end) => destruct x eqn:?
  end.

Section WithRuntime.
Context {RT : PyRuntime}.

Lemma save_html_page_entry html page row_dir src :
  ok (line_of src) (fun l => l <> []) (save_html_page html page row_dir src).
Proof.
  unfold save_html_page. repeat mstep; try reflexivity; discriminate.
Qed.

Lemma scrape_page_for_files_entry resp page s row_dir src (w : world) :
  fst (scrape_page_for_files resp page s row_dir src w) <> [].
Proof.
  unfold scrape_page_for_files, bind.
  destruct (scrape_links _ _ _ _ _ _ _ w) as [downloaded w1].
  destruct downloaded as [|f l]; simpl.
  - apply (save_html_page_entry (text resp) page row_dir src w1).
  - discriminate.
Qed.


(** X11. A fetch that yields nothing leaves nothing behind: when
    [try_download_url] returns no entry, the files are as they were
    before the call. *)
Theorem fetch_without_result_keeps_files (u : pystr) (s : session)
  (row_dir : pystr) (src : string) (w : world) :
  fst (try_download_url u s row_dir src w) = [] ->
  files (snd (try_download_url u s row_dir src w)) = files w.
Proof.
  unfold try_download_url.
  cbv beta iota zeta delta [bind].
  destruct (get_checked s u w) as [r w1] eqn:Eg.
  assert (Hw1 : files w1 = files w).
  { unfold get_checked, bind, session_get, ret in Eg.
    inversion Eg. reflexivity. }
  destruct r as [resp|]; [|intros _; exact Hw1].
  destruct (any_in _ _).
  - cbv beta iota zeta
        delta [read_files write_bytes on_files os_remove debug ret fst snd
               files].
    destruct (valid (validate_content _ _ 500)); [discriminate|].
    intros _.
    rewrite fs_write_remove; [exact Hw1|].
    unfold unused_path. destruct (splitext _) as [base ext].
    apply avoid_overwriting_fresh.
  - destruct (_ || _).
    + intros H. exfalso. exact (scrape_page_for_files_entry _ _ _ _ _ _ H).
    + intros _. exact Hw1.
Qed.

Lemma wayback_loop_requests l s row_dir :
  reqs (fun new fl =>
          (exists k, k <= length l
                     /\ new = map wayback_address (firstn k l))
          /\ wayback_result fl)
       (wayback_loop l s row_dir).
Proof.
  induction l as [|u l IH]; simpl wayback_loop.
  - apply reqs_ret. split; [exists 0; split; [lia | reflexivity]|].
    split; [simpl; lia | constructor].
  - assert (Hnext : reqs (fun new fl =>
                            (exists k, k <= length (u :: l)
                                       /\ wayback_address u :: new
                                          = map wayback_address
                                                (firstn k (u :: l)))
                            /\ wayback_result fl)
                         (wayback_loop l s row_dir)).
    { eapply reqs_weaken; [|exact IH].
      intros new fl [[k [Hk E]] Hr]. split; [|exact Hr].
      exists (S k). simpl. split; [lia | rewrite E; reflexivity]. }
    assert (Hone : forall f : file_entry,
               accepted f -> source f = "wayback" ->
               (exists k, k <= length (u :: l)
                          /\ [wayback_address u]
                             = map wayback_address (firstn k (u :: l)))
               /\ wayback_result [f]).
    { intros f Ha Hs. split.
      - exists 1. simpl. split; [lia | reflexivity].
      - split; [simpl; lia|]. constructor; [split; assumption | constructor]. }
    fold (wayback_address u).
    repeat first [ rstep | exact Hnext ];
      apply Hone; try reflexivity; split; first [assumption | reflexivity].
Qed.

Lemma try_wayback_source_requests (row : row_data) (s : session)
  (row_dir : pystr) :
  reqs (fun new fl =>
          (exists k, k <= 3
                     /\ new = map wayback_address (firstn k (urls row)))
          /\ wayback_result fl)
       (try_wayback_source row s row_dir).
Proof.
  unfold try_wayback_source.
  destruct (truthy (urls row)); cbn [negb].
  - eapply reqs_weaken; [|apply wayback_loop_requests].
    intros new fl [[k [Hk Hn]] Hr]. split; [|exact Hr].
    exists k. rewrite length_firstn in Hk. split; [lia|].
    rewrite Hn, firstn_firstn. replace (Nat.min k 3) with k by lia.
    reflexivity.
  - apply reqs_ret. split; [exists 0; split; [lia | reflexivity]|].
    split; [simpl; lia | constructor].
Qed.

(** X12. The Wayback step asks for at most three snapshots, those of the
    first URLs of the row in their order, at the address
    [https://web.archive.org/web/2/] followed by the URL, and returns at
    most one entry, accepted by the validator. *)
Theorem wayback_asks_at_most_three (row : row_data) (s : session)
  (row_dir : pystr) (w : world) :
  let r := try_wayback_source row s row_dir w in
  (exists k,
      k <= 3
      /\ requests (snd r)
         = requests w ++ map wayback_address (firstn k (urls row)))
  /\ length (fst r) <= 1
  /\ Forall (fun f => accepted f /\ source f = "wayback") (fst r).
Proof.
  cbv zeta.
  destruct (try_wayback_source_requests row s row_dir w)
    as [new [E [[k [Hk Hn]] [Hl Hf]]]].
  split; [|split; assumption].
  exists k. split; [exact Hk|]. rewrite E, Hn. reflexivity.
Qed.

Lemma save_html_page_source html page row_dir src :
  ok (line_of src) (from_source src) (save_html_page html page row_dir src).
Proof.
  unfold save_html_page.
  repeat mstep; try reflexivity; repeat constructor.
Qed.

Lemma scrape_links_source hrefs page s row_dir src :
  forall downloaded seen_urls,
    from_source src downloaded ->
    ok (line_of src) (from_source src)
       (scrape_links hrefs page s row_dir src downloaded seen_urls).
Proof.
  induction hrefs as [|h hrefs IH]; intros downloaded seen_urls Hd; simpl.
  - apply ok_ret. exact Hd.
  - repeat first [ mstep | apply IH ]; try reflexivity; try exact Hd.
    apply Forall_app. split; [exact Hd | repeat constructor].
Qed.

Lemma try_download_url_source u s row_dir src :
  ok (line_of src) (from_source src) (try_download_url u s row_dir src).
Proof.
  unfold try_download_url, scrape_page_for_files.
  repeat first
    [ mstep
    | eapply ok_bind; [apply scrape_links_source; constructor|];
      intros downloaded Hd; cbv beta; destruct (truthy downloaded);
      [apply ok_ret; exact Hd | apply save_html_page_source] ];
    try reflexivity; repeat constructor.
Qed.

Lemma try_portal_source_source row pm s row_dir :
  ok (line_of "portal") (from_source "portal")
     (try_portal_source row pm s row_dir).
Proof.
  unfold try_portal_source.
  repeat first [ mstep | apply try_download_url_source ];
    try reflexivity; constructor.
Qed.

Lemma try_direct_urls_source row s row_dir :
  ok (line_of "direct") (from_source "direct") (try_direct_urls row s row_dir).
Proof.
  unfold try_direct_urls. mstep; [apply ok_ret; constructor|].
  generalize (urls row). induction l as [|u l IH]; simpl.
  - apply ok_ret. constructor.
  - mstep; [reflexivity|].
    eapply ok_bind; [apply try_download_url_source|].
    intros fl Hfl; cbv beta.
    destruct (truthy fl) eqn:E.
    + apply ok_ret. exact Hfl.
    + apply truthy_false in E; subst fl. exact IH.
Qed.

Lemma settled_accepted l :
  fetched l -> settled l = true -> Forall accepted l /\ l <> [].
Proof.
  unfold settled. intros [Hall | [g [-> [Hg1 Hg2]]]] H.
  - split; [exact Hall|]. destruct l; [discriminate | discriminate].
  - simpl in H. rewrite Hg2 in H. discriminate.
Qed.

Lemma Forall_both {A : Type} (P Q : A -> Prop) (l : list A) :
  Forall P l -> Forall Q l -> Forall (fun x => P x /\ Q x) l.
Proof.
  induction 1 as [|x l Hx _ IH]; intros HQ; [constructor|].
  inversion HQ; subst. constructor; auto.
Qed.

(** X13. What a harvested record holds.  Its status is [success] exactly
    when it lists files; the files listed were all accepted by the
    validator and fetched by the source that [source_used] names; and a
    record without success is [failed] when the row has URLs and
    [no_urls] when it has none, with no source named. *)
Theorem harvest_row_outcome (row : row_data) (pm : portal_map) (s : session)
  (out : pystr) (w : world) :
  let m := fst (harvest_row row pm s out false w) in
  (status m = "success" <-> files_downloaded m <> [])
  /\ Forall (fun f => accepted f /\ Some (source f) = source_used m)
            (files_downloaded m)
  /\ (status m = "success"
      \/ (status m = "failed" /\ urls row <> [] /\ source_used m = None)
      \/ (status m = "no_urls" /\ urls row = [] /\ source_used m = None)).
Proof.
  cbv zeta. rewrite harvest_row_chain. cbv zeta.
  set (row_dir := path_join out (row_id row)).
  destruct (try_portal_source_ok row pm s row_dir w) as [_ Fp].
  destruct (try_portal_source_source row pm s row_dir w) as [_ Sp].
  set (p := try_portal_source row pm s row_dir w) in *.
  destruct (try_direct_urls_ok row s row_dir (snd p)) as [_ Fd].
  destruct (try_direct_urls_source row s row_dir (snd p)) as [_ Sd].
  set (d := try_direct_urls row s row_dir (snd p)) in *.
  destruct (try_wayback_source_ok row s row_dir (snd d)) as [_ Fy].
  destruct (try_wayback_source_requests row s row_dir (snd d))
    as [_ [_ [_ [_ Sy]]]].
  set (y := try_wayback_source row s row_dir (snd d)) in *.
  clearbody p d y row_dir.
  assert (W : forall (l : list file_entry) (src : string),
             Forall accepted l -> from_source src l ->
             Forall (fun f => accepted f /\ Some (source f) = Some src) l).
  { intros l src Ha Hs. apply Forall_both; [exact Ha|].
    eapply Forall_impl; [|exact Hs]. intros f ->. reflexivity. }
  destruct (settled (fst p)) eqn:Ep.
  { destruct (settled_accepted Fp Ep) as [Ha Hn].
    cbn [fst status files_downloaded source_used set_outcome].
    split; [split; [intros _; exact Hn | reflexivity]|].
    split; [apply W; assumption | left; reflexivity]. }
  destruct (settled (fst d)) eqn:Ed.
  { destruct (settled_accepted Fd Ed) as [Ha Hn].
    cbn [fst status files_downloaded source_used set_outcome].
    split; [split; [intros _; exact Hn | reflexivity]|].
    split; [apply W; assumption | left; reflexivity]. }
  rewrite (accepted_settled Fy). rewrite (accepted_not_failed Fy), andb_false_r.
  destruct (fst y) as [|f l] eqn:Ey; cbn [truthy].
  - destruct (urls row) as [|u l] eqn:Eu; cbn [truthy];
      cbn [fst status files_downloaded source_used set_outcome append_attempt
           set_attempts initial_metadata].
    + split; [split; [discriminate | intros H; exfalso; apply H; reflexivity]|].
      split; [constructor|]. right; right. auto.
    + split; [split; [discriminate | intros H; exfalso; apply H; reflexivity]|].
      split; [constructor|]. right; left.
      split; [reflexivity|]. split; [discriminate | reflexivity].
  - cbn [fst status files_downloaded source_used set_outcome].
    split; [split; [discriminate | reflexivity]|].
    split; [|left; reflexivity].
    eapply Forall_impl; [|exact Sy]. intros g [Hg ->]. split; [exact Hg|].
    reflexivity.
Qed.

Lemma metadata_read_saved m row_dir w :
  metadata_read (metadata_files (snd (save_metadata m row_dir w)))
                (path_join row_dir (lit "metadata.json"))
  = Some (Parsed m).
Proof. simpl. rewrite str_eqb_refl. reflexivity. Qed.

(** A row that was harvested has its record in [metadata.json]. *)
Lemma harvest_row_saved (row : row_data) (pm : portal_map) (s : session)
  (out : pystr) (w : world) :
  let h := harvest_row row pm s out false w in
  metadata_read (metadata_files (snd h))
                (path_join (path_join out (row_id row)) (lit "metadata.json"))
  = Some (Parsed (fst h)).
Proof.
  cbv zeta. rewrite harvest_row_chain. cbv zeta.
  repeat match goal with
         | |- context [if ?c then _ else _] => destruct c
         end;
    apply metadata_read_saved.
Qed.

(** X14. Harvest, then resume.  When a row has been harvested, a run in
    resume mode skips it if the record ended in [success], untouched
    world and one more skipped row; otherwise it harvests the row
    again. *)
Theorem harvest_then_resume (args : arguments) (pm : portal_map)
  (s : session) (out : pystr) (row : row_data) (st : statistics)
  (w : world) :
  resume args = true ->
  let h := harvest_row row pm s out false w in
  main_loop args pm s out [row] st (snd h)
  = if String.eqb (status (fst h)) "success"
    then (count_skipped st, snd h)
    else
      let again := harvest_row row pm s out (dry_run args) (snd h) in
      (update_stats st (fst again), snd again).
Proof.
  intros Hres. cbv zeta.
  pose proof (harvest_row_saved row pm s out w) as Hsaved. cbv zeta in Hsaved.
  set (h := harvest_row row pm s out false w) in *. clearbody h.
  simpl main_loop. unfold bind. rewrite Hres.
  unfold recorded_success. rewrite Hsaved.
  destruct (String.eqb (status (fst h)) "success"); [reflexivity|].
  destruct (harvest_row row pm s out (dry_run args) (snd h)); reflexivity.
Qed.





End WithRuntime.
End HarvestMore.


(** ** The URLs of a row *)

Module InventoryProps.
Import Harvest Inventory Spec2.

Lemma seen_in_spec (u : pystr) (seen : list pystr) :
  seen_in u seen = true <-> In u seen.
Proof.
  unfold seen_in. rewrite existsb_exists. split.
  - intros [v [Hv E]]. apply str_eqb_eq in E. subst v. exact Hv.
  - intros H. exists u. split; [exact H | apply str_eqb_refl].
Qed.

Lemma collected_add (l seen : list pystr) (u : pystr) :
  collected l seen -> seen_in u seen = false ->
  collected (l ++ [u]) (u :: seen).
Proof.
  intros [Hnd Hs] Hu. split.
  - apply NoDup_app; [exact Hnd | repeat constructor; intros [] |].
    intros v Hv [<-|[]]. apply Hs, seen_in_spec in Hv. congruence.
  - intros v. rewrite in_app_iff, Hs. simpl. tauto.
Qed.

Section WithRuntime.
Context {RT : PyRuntime}.
Variable re_findall : string -> pystr -> list pystr.

Lemma add_found_collected found : forall l seen,
  collected l seen ->
  collected (fst (add_found found l seen)) (snd (add_found found l seen))
  /\ incl l (fst (add_found found l seen)).
Proof.
  induction found as [|u found IH]; intros l seen H; simpl.
  - split; [exact H | apply incl_refl].
  - destruct (seen_in _ seen) eqn:E; simpl.
    + apply IH. exact H.
    + destruct (IH _ _ (@collected_add _ _ _ H E)) as [H1 H2].
      split; [exact H1|]. intros v Hv. apply H2, in_app_iff. left; exact Hv.
Qed.

Lemma add_cell_collected c l seen :
  collected l seen ->
  collected (fst (add_cell re_findall c l seen))
            (snd (add_cell re_findall c l seen))
  /\ incl l (fst (add_cell re_findall c l seen))
  /\ forall target,
       hyperlink_target c = Some target ->
       target <> [] -> strip target <> [] ->
       startswith (strip target) (lit "http") = true ->
       In (strip target) (fst (add_cell re_findall c l seen)).
Proof.
  intros H. unfold add_cell.
  set (step1 :=
         match hyperlink_target c with
         | Some target =>
             if truthy target then
               if truthy (strip target) && negb (seen_in (strip target) seen)
                  && startswith (strip target) (lit "http")
               then (l ++ [strip target], strip target :: seen)
               else (l, seen)
             else (l, seen)
         | None => (l, seen)
         end).
  assert (H1 : collected (fst step1) (snd step1) /\ incl l (fst step1)
               /\ forall target,
                    hyperlink_target c = Some target ->
                    target <> [] -> strip target <> [] ->
                    startswith (strip target) (lit "http") = true ->
                    In (strip target) (fst step1)).
  { unfold step1. destruct (hyperlink_target c) as [t|].
    - destruct (truthy t) eqn:Et.
      + destruct (truthy (strip t)) eqn:Eu; simpl.
        * destruct (seen_in (strip t) seen) eqn:Es; simpl.
          -- split; [exact H|]. split; [apply incl_refl|].
             intros t' E _ _ _. inversion E; subst t'.
             apply H, seen_in_spec. exact Es.
          -- destruct (startswith (strip t) (lit "http")) eqn:Eh; simpl.
             ++ split; [apply collected_add; assumption|].
                split; [intros v Hv; apply in_app_iff; left; exact Hv|].
                intros t' E _ _ _. inversion E; subst t'.
                apply in_app_iff. right. left. reflexivity.
             ++ split; [exact H|]. split; [apply incl_refl|].
                intros t' E _ _ Hh. inversion E; subst t'. congruence.
        * split; [exact H|]. split; [apply incl_refl|].
          intros t' E _ Hn _. inversion E; subst t'.
          apply truthy_nonempty in Hn. congruence.
      + split; [exact H|]. split; [apply incl_refl|].
        intros t' E Hn _ _. inversion E; subst t'.
        apply truthy_nonempty in Hn. congruence.
    - split; [exact H|]. split; [apply incl_refl|]. discriminate. }
  destruct step1 as [l1 seen1]. simpl in H1. destruct H1 as [C1 [I1 K1]].
  set (val := strip (value c)).
  set (step2 := if startswith val (lit "http") && negb (seen_in val seen1)
                then (l1 ++ [val], val :: seen1) else (l1, seen1)).
  assert (H2 : collected (fst step2) (snd step2) /\ incl l1 (fst step2)).
  { unfold step2. destruct (startswith val (lit "http")); simpl.
    - destruct (seen_in val seen1) eqn:Es; simpl.
      + split; [exact C1 | apply incl_refl].
      + split; [apply collected_add; assumption|].
        intros v Hv; apply in_app_iff; left; exact Hv.
    - split; [exact C1 | apply incl_refl]. }
  destruct step2 as [l2 seen2]. simpl in H2. destruct H2 as [C2 I2].
  destruct (@add_found_collected (re_findall url_pattern val) _ _ C2)
    as [C3 I3].
  split; [exact C3|]. split.
  - intros v Hv. apply I3, I2, I1. exact Hv.
  - intros t E Hn Hs Hh. apply I3, I2. apply (K1 t); assumption.
Qed.

Lemma extract_loop_collected row col_indices : forall l seen,
  collected l seen ->
  NoDup (extract_loop re_findall row col_indices l seen)
  /\ incl l (extract_loop re_findall row col_indices l seen)
  /\ forall col_idx c target,
       In col_idx col_indices ->
       nth_error row col_idx = Some c ->
       hyperlink_target c = Some target ->
       target <> [] -> strip target <> [] ->
       startswith (strip target) (lit "http") = true ->
       In (strip target) (extract_loop re_findall row col_indices l seen).
Proof.
  induction col_indices as [|i cols IH]; intros l seen H; simpl.
  - split; [apply H|]. split; [apply incl_refl|]. intros ? ? ? [].
  - destruct (nth_error row i) as [c|] eqn:En.
    + destruct (@add_cell_collected c _ _ H) as [C [I K]].
      destruct (add_cell re_findall c l seen) as [l1 seen1]. simpl in C, I, K.
      destruct (IH _ _ C) as [N [I' K']].
      split; [exact N|]. split; [intros v Hv; apply I', I; exact Hv|].
      intros j c' t [<-|Hj] Ec Et Hn Hs Hh.
      * rewrite En in Ec. inversion Ec; subst c'.
        apply I'. apply (K t); assumption.
      * apply (K' j c' t); assumption.
    + destruct (IH _ _ H) as [N [I' K']].
      split; [exact N|]. split; [exact I'|].
      intros j c' t [<-|Hj] Ec Et Hn Hs Hh.
      * rewrite En in Ec. discriminate.
      * apply (K' j c' t); assumption.
Qed.

(** X16. The URLs extracted from a row hold no duplicate, whatever the
    cells hold and whatever the pattern finds in their text. *)
Theorem extract_urls_unique (row : list cell) (col_indices : list nat) :
  NoDup (extract_urls_from_row re_findall row col_indices).
Proof.
  apply extract_loop_collected. split; [constructor | tauto].
Qed.

(** X17. No hyperlink is lost: the target of the hyperlink of a cell in
    one of the columns read, once stripped, is among the URLs extracted as
    soon as it is not blank and starts with [http]. *)
Theorem hyperlink_extracted (row : list cell) (col_indices : list nat)
  (col_idx : nat) (c : cell) (target : pystr) :
  In col_idx col_indices ->
  nth_error row col_idx = Some c ->
  hyperlink_target c = Some target ->
  target <> [] ->
  strip target <> [] ->
  startswith (strip target) (lit "http") = true ->
  In (strip target) (extract_urls_from_row re_findall row col_indices).
Proof.
  apply extract_loop_collected. split; [constructor | tauto].
Qed.

End WithRuntime.
End InventoryProps.

(** ** Validation of what was harvested *)

Module RevalidateProps.
Import Validate Harvest Revalidate Spec2.

Lemma sum_counts_count_reason (r : string) (l : list (string * nat)) :
  sum_counts (count_reason r l) = S (sum_counts l).
Proof.
  induction l as [|[k v] l IH]; simpl; [reflexivity|].
  destruct (String.eqb k r); simpl; [lia | rewrite IH; lia].
Qed.

Lemma insert_sorted_length (x : pystr) (l : list pystr) :
  length (insert_sorted x l) = S (length l).
Proof.
  induction l as [|y l IH]; simpl; [reflexivity|].
  destruct (str_leb x y); simpl; [reflexivity | rewrite IH; reflexivity].
Qed.

Lemma sorted_length (l : list pystr) : length (sorted l) = length l.
Proof.
  induction l as [|x l IH]; simpl; [reflexivity|].
  rewrite insert_sorted_length, IH. reflexivity.
Qed.

Section WithRuntime.
Context {RT : PyRuntime}.
Variable listdir : pystr -> option (list pystr).
Variable isdigit : pystr -> bool.

Lemma directory_loop_app fs dir_path names n : forall results,
  directory_loop fs dir_path names n results
  = results ++ directory_loop fs dir_path names n [].
Proof.
  induction names as [|fname names IH]; intros results; simpl.
  - rewrite app_nil_r. reflexivity.
  - destruct (str_eqb fname (lit "metadata.json")); [apply IH|].
    destruct (fs_exists fs (path_join dir_path fname)); [|apply IH].
    rewrite IH, (IH [_]), app_assoc. reflexivity.
Qed.

Lemma files_loop_spec fs folder_name row_dir names :
  forall row_valid rs invalid_details,
    let r := files_loop fs folder_name row_dir names row_valid rs
                        invalid_details in
    let results := directory_loop fs row_dir names 500 [] in
    fst (fst r) = row_valid || existsb valid results
    /\ sum_counts (snd (fst r))
       = sum_counts rs + length (filter (fun v => negb (valid v)) results)
    /\ exists added,
         snd r = invalid_details ++ added
         /\ map detail_reason added
            = map reason (filter (fun v => negb (valid v)) results)
         /\ Forall (fun d => detail_row d = folder_name) added.
Proof.
  induction names as [|fname names IH]; intros row_valid rs det; cbv zeta.
  - simpl. rewrite orb_false_r. split; [reflexivity|]. split; [lia|].
    exists []. rewrite app_nil_r. repeat split; constructor.
  - simpl files_loop. simpl directory_loop.
    destruct (str_eqb fname (lit "metadata.json")); [apply IH|].
    destruct (fs_exists fs (path_join row_dir fname)); simpl negb; cbv iota;
      [|apply IH].
    rewrite directory_loop_app. simpl app.
    set (vr := validate_content fs (path_join row_dir fname) 500).
    destruct (valid vr) eqn:Ev.
    + specialize (IH true rs det). cbv zeta in IH.
      destruct IH as [H1 [H2 [added [H3 [H4 H5]]]]].
      simpl. rewrite Ev. simpl. rewrite orb_true_r.
      split; [exact H1|]. split; [exact H2|].
      exists added. auto.
    + specialize (IH row_valid (count_reason (reason vr) rs)
                     (det ++ [ {| detail_row := folder_name;
                                  detail_file := fname;
                                  detail_reason := reason vr;
                                  detail_details := details vr |} ])).
      cbv zeta in IH.
      destruct IH as [H1 [H2 [added [H3 [H4 H5]]]]].
      simpl. rewrite Ev. simpl.
      split; [exact H1|].
      split; [rewrite H2, sum_counts_count_reason; lia|].
      exists ({| detail_row := folder_name; detail_file := fname;
                 detail_reason := reason vr;
                 detail_details := details vr |} :: added).
      split; [rewrite H3, <- app_assoc; reflexivity|].
      split; [simpl; rewrite H4; reflexivity|].
      constructor; [reflexivity | exact H5].
Qed.

(** X18. [validate_existing] and [validate_directory] agree on a row:
    the row is valid exactly when one of the results of
    [validate_directory] for its folder is, and the reasons recorded for
    the row are those of the rejected results, in their order. *)
Theorem row_valid_iff_some_result_valid (fs : filesystem)
  (folder_name row_dir : pystr) (names : list pystr)
  (rs : list (string * nat)) (invalid_details : list invalid_detail) :
  listdir row_dir = Some names ->
  let r := files_loop fs folder_name row_dir names false rs invalid_details in
  let results := validate_directory listdir fs row_dir 500 in
  fst (fst r) = existsb valid results
  /\ exists added,
       snd r = invalid_details ++ added
       /\ map detail_reason added
          = map reason (filter (fun v => negb (valid v)) results).
Proof.
  intros Hdir. cbv zeta. unfold validate_directory. rewrite Hdir.
  destruct (files_loop_spec fs folder_name row_dir names false rs
                            invalid_details)
    as [H1 [_ [added [H3 [H4 _]]]]].
  split; [exact H1|]. exists added. auto.
Qed.

Lemma rows_loop_counts fs output_dir folders : forall st invalid_details,
  total_rows st = valid_rows st + invalid_rows st ->
  sum_counts (reasons st) = length invalid_details ->
  let r := rows_loop listdir isdigit fs output_dir folders st
                     invalid_details in
  total_rows (fst r) = valid_rows (fst r) + invalid_rows (fst r)
  /\ sum_counts (reasons (fst r)) = length (snd r)
  /\ total_rows (fst r) <= total_rows st + length folders.
Proof.
  induction folders as [|folder folders IH]; intros st det Ht Hs; cbv zeta.
  - simpl. split; [exact Ht|]. split; [exact Hs | lia].
  - simpl rows_loop.
    destruct (listdir (path_join output_dir folder)) as [names|].
    2:{ destruct (IH st det Ht Hs) as [H1 [H2 H3]].
        split; [exact H1|]. split; [exact H2 | simpl; lia]. }
    destruct (isdigit folder); simpl negb; cbv iota.
    2:{ destruct (IH st det Ht Hs) as [H1 [H2 H3]].
        split; [exact H1|]. split; [exact H2 | simpl; lia]. }
    destruct (files_loop_spec fs folder (path_join output_dir folder) names
                              false (reasons st) det)
      as [_ [F2 [added [F3 [F4 _]]]]].
    destruct (files_loop fs folder (path_join output_dir folder) names false
                         (reasons st) det) as [[row_valid rs] det'].
    simpl in F2, F3.
    assert (Hs' : sum_counts rs = length det').
    { rewrite F2, F3, length_app, Hs.
      rewrite <- (length_map detail_reason added), F4, length_map.
      reflexivity. }
    destruct row_valid.
    + destruct (IH {| total_rows := total_rows st + 1;
                      valid_rows := valid_rows st + 1;
                      invalid_rows := invalid_rows st; reasons := rs |} det')
        as [H1 [H2 H3]]; [simpl; lia | exact Hs' |].
      split; [exact H1|]. split; [exact H2 | simpl in *; lia].
    + destruct (IH {| total_rows := total_rows st + 1;
                      valid_rows := valid_rows st;
                      invalid_rows := invalid_rows st + 1; reasons := rs |}
                   det')
        as [H1 [H2 H3]]; [simpl; lia | exact Hs' |].
      split; [exact H1|]. split; [exact H2 | simpl in *; lia].
Qed.

(** X19. The statistics of [validate_existing] add up: every row counted
    is either valid or invalid, the counts per reason sum to the number of
    invalid files reported, and no more rows are counted than the output
    directory has entries. *)
Theorem validate_existing_counts (fs : filesystem) (output_dir : pystr)
  (names : list pystr) (st : validation_stats)
  (invalid_details : list invalid_detail) :
  listdir output_dir = Some names ->
  validate_existing listdir isdigit fs output_dir
  = Some (st, invalid_details) ->
  total_rows st = valid_rows st + invalid_rows st
  /\ sum_counts (reasons st) = length invalid_details
  /\ total_rows st <= length names.
Proof.
  intros Hdir. unfold validate_existing. rewrite Hdir. intros E.
  inversion E as [Er]. clear E.
  destruct (rows_loop_counts fs output_dir (sorted names)
              {| total_rows := 0; valid_rows := 0; invalid_rows := 0;
                 reasons := [] |} [] eq_refl eq_refl)
    as [H1 [H2 H3]].
  rewrite Er in H1, H2, H3. simpl in H1, H2, H3.
  rewrite sorted_length in H3. auto.
Qed.

End WithRuntime.
End RevalidateProps.

(** ** Loading the inventory and auditing a collection *)

Module SortProps.
Import Revalidate Spec3.

Lemma str_leb_trans (s t u : pystr) :
  str_leb s t = true -> str_leb t u = true -> str_leb s u = true.
Proof.
  revert t u. induction s as [|x s IH]; intros t u; [reflexivity|].
  destruct t as [|y t]; [discriminate|].
  destruct u as [|z u]; [intros _ H; discriminate H|].
  simpl.
  destruct (N.ltb_spec x y), (N.ltb_spec y x), (N.ltb_spec y z),
    (N.ltb_spec z y), (N.ltb_spec x z), (N.ltb_spec z x);
    try reflexivity; try discriminate; try lia.
  apply IH.
Qed.

Lemma str_leb_total (s t : pystr) :
  str_leb s t = false -> str_leb t s = true.
Proof.
  revert t. induction s as [|x s IH]; intros t; [discriminate|].
  destruct t as [|y t]; [reflexivity|]. simpl.
  destruct (N.ltb_spec x y), (N.ltb_spec y x);
    try reflexivity; try discriminate; try lia.
  apply IH.
Qed.

Lemma insert_sorted_In (x : pystr) (l : list pystr) (y : pystr) :
  In y (insert_sorted x l) <-> y = x \/ In y l.
Proof.
  induction l as [|z l IH]; simpl; [intuition|].
  destruct (str_leb x z); simpl; [intuition|].
  rewrite IH. intuition.
Qed.

Lemma sorted_In (l : list pystr) (y : pystr) : In y (sorted l) <-> In y l.
Proof.
  induction l as [|x l IH]; simpl; [reflexivity|].
  rewrite insert_sorted_In, IH. intuition.
Qed.

Lemma insert_sorted_sorted (x : pystr) (l : list pystr) :
  StronglySorted leq l -> StronglySorted leq (insert_sorted x l).
Proof.
  induction 1 as [|y l Hs IH Hy]; simpl.
  - constructor; constructor.
  - destruct (str_leb x y) eqn:E.
    + constructor; [constructor; assumption|].
      constructor; [exact E|].
      eapply Forall_impl; [|exact Hy]. intros z Hz.
      exact (str_leb_trans _ _ _ E Hz).
    + constructor; [exact IH|].
      apply Forall_forall. intros z Hz. apply insert_sorted_In in Hz.
      destruct Hz as [-> | Hz]; [exact (str_leb_total _ _ E)|].
      rewrite Forall_forall in Hy. exact (Hy z Hz).
Qed.

Lemma sorted_sorted (l : list pystr) : StronglySorted leq (sorted l).
Proof.
  induction l as [|x l IH]; simpl; [constructor|].
  apply insert_sorted_sorted. exact IH.
Qed.

Lemma insert_sorted_least (x : pystr) (l : list pystr) :
  Forall (leq x) l -> insert_sorted x l = x :: l.
Proof.
  intros F. destruct F as [|y l Hy F]; [reflexivity|].
  simpl. unfold leq in Hy. rewrite Hy. reflexivity.
Qed.

Lemma filter_insert_sorted (p : pystr -> bool) (x : pystr) (l : list pystr) :
  StronglySorted leq l ->
  filter p (insert_sorted x l)
  = if p x then insert_sorted x (filter p l) else filter p l.
Proof.
  induction 1 as [|y l Hs IH Hy]; simpl.
  - destruct (p x); reflexivity.
  - destruct (str_leb x y) eqn:E; simpl.
    + destruct (p x) eqn:Ex; [|reflexivity].
      destruct (p y) eqn:Ey.
      * simpl. rewrite E. reflexivity.
      * rewrite insert_sorted_least; [reflexivity|].
        apply Forall_forall. intros z Hz. apply filter_In in Hz as [Hz _].
        rewrite Forall_forall in Hy.
        exact (str_leb_trans _ _ _ E (Hy z Hz)).
    + rewrite IH. destruct (p y) eqn:Ey, (p x) eqn:Ex; simpl;
        rewrite ?E; reflexivity.
Qed.

Lemma filter_sorted (p : pystr -> bool) (l : list pystr) :
  filter p (sorted l) = sorted (filter p l).
Proof.
  induction l as [|x l IH]; simpl; [reflexivity|].
  rewrite filter_insert_sorted by apply sorted_sorted.
  rewrite IH. destruct (p x); reflexivity.
Qed.

End SortProps.

Module LoadingProps.
Import Harvest Inventory Loading Spec3.

Lemma zfill4_uint (d : Decimal.uint) (k : nat) :
  repeat 48%N k ++ lit (NilEmpty.string_of_uint d)
  = lit (NilEmpty.string_of_uint (Nat.iter k Decimal.D0 d)).
Proof.
  induction k as [|k IH]; [reflexivity|].
  simpl. rewrite IH. reflexivity.
Qed.

Lemma of_uint_zeros (d : Decimal.uint) (k : nat) :
  Nat.of_uint (Nat.iter k Decimal.D0 d) = Nat.of_uint d.
Proof.
  induction k as [|k IH]; [reflexivity|].
  simpl. rewrite <- IH. reflexivity.
Qed.

Lemma row_id_of_inj (m n : nat) : row_id_of m = row_id_of n -> m = n.
Proof.
  unfold row_id_of, zfill4, str_of_nat. rewrite !zfill4_uint.
  intros E. apply NamingProps.lit_inj in E.
  set (dm := Nat.iter _ _ (Nat.to_uint m)) in E.
  set (dn := Nat.iter _ _ (Nat.to_uint n)) in E.
  assert (Eu : dm = dn).
  { pose proof (NilEmpty.usu dm) as Hm. rewrite E, NilEmpty.usu in Hm.
    congruence. }
  apply (f_equal Nat.of_uint) in Eu. unfold dm, dn in Eu.
  rewrite !of_uint_zeros, !DecimalNat.Unsigned.of_to in Eu. exact Eu.
Qed.

Lemma past_end_mono (end_row : option nat) (i k : nat) :
  past_end end_row i = true -> i <= k -> past_end end_row k = true.
Proof.
  unfold past_end. destruct end_row as [e|]; [|discriminate].
  intros H Hk. apply andb_true_iff in H as [H1 H2].
  apply Nat.ltb_lt in H2. rewrite H1. simpl. apply Nat.ltb_lt. lia.
Qed.

Lemma combine_seq_fst {A : Type} (l : list A) (i : nat) :
  Forall (fun p => i <= fst p) (combine (seq i (length l)) l).
Proof.
  revert i. induction l as [|x l IH]; intros i; simpl; constructor.
  - simpl. lia.
  - eapply Forall_impl; [|apply (IH (S i))]. simpl. intros p Hp. lia.
Qed.

Lemma NoDup_fst_filter {A : Type} (f : nat * A -> bool) (l : list A) (i : nat) :
  NoDup (map fst (filter f (combine (seq i (length l)) l))).
Proof.
  revert i. induction l as [|x l IH]; intros i; simpl; [constructor|].
  destruct (f (i, x)); simpl; [|apply IH].
  constructor; [|apply IH].
  intros Hin. apply in_map_iff in Hin as [p [E Hp]].
  apply filter_In in Hp as [Hp _].
  pose proof (combine_seq_fst l (S i)) as F.
  rewrite Forall_forall in F. apply F in Hp. lia.
Qed.

Section WithRuntime.
Context {RT : PyRuntime}.
Variable re_findall : string -> pystr -> list pystr.

Lemma build_row_id row row_idx col_map url_cols r :
  build_row re_findall row row_idx col_map url_cols = Some r ->
  row_id r = row_id_of row_idx.
Proof.
  unfold build_row.
  destruct (field row _); [|discriminate].
  destruct (field row _); [|discriminate].
  destruct (field row _); [|discriminate].
  destruct (field row _); [|discriminate].
  destruct (field row _); [|discriminate].
  intros E. inversion E. reflexivity.
Qed.

Lemma rows_from_ids sheet start_row end_row col_map url_cols :
  forall row_idx acc rows,
    rows_from re_findall sheet row_idx start_row end_row col_map url_cols acc
    = Some rows ->
    map row_id rows
    = map row_id acc
      ++ map (fun p => row_id_of (fst p))
             (filter (loaded start_row end_row)
                     (combine (seq row_idx (length sheet)) sheet)).
Proof.
  induction sheet as [|row sheet IH]; intros row_idx acc rows; simpl.
  - intros E. inversion E. rewrite app_nil_r. reflexivity.
  - unfold loaded at 1. simpl fst. simpl snd.
    destruct (row_idx <? start_row) eqn:Es.
    { apply Nat.ltb_lt in Es.
      replace (start_row <=? row_idx) with false
        by (symmetry; apply Nat.leb_gt; exact Es).
      simpl. apply IH. }
    apply Nat.ltb_ge in Es.
    replace (start_row <=? row_idx) with true
      by (symmetry; apply Nat.leb_le; exact Es).
    destruct (past_end end_row row_idx) eqn:Ep.
    { simpl. intros E. inversion E. subst rows.
      assert (F : filter (loaded start_row end_row)
                         (combine (seq (S row_idx) (length sheet)) sheet)
                  = []).
      { pose proof (combine_seq_fst sheet (S row_idx)) as F.
        induction F as [|p l Hp _ IHF]; [reflexivity|].
        simpl. unfold loaded at 1.
        rewrite (past_end_mono end_row Ep (k := fst p)) by lia.
        rewrite andb_false_r. exact IHF. }
      rewrite F, app_nil_r. reflexivity. }
    destruct (forallb is_none row) eqn:En; simpl; [apply IH|].
    destruct (build_row re_findall row row_idx col_map url_cols) as [r|] eqn:Eb;
      [|discriminate].
    intros E. apply IH in E. rewrite E, map_app, <- app_assoc. simpl.
    rewrite (build_row_id _ _ _ _ Eb). reflexivity.
Qed.

(** X20. The rows that [load_inventory] returns are the rows of the sheet
    that lie in the range and are not empty, each with the number of its
    position in the sheet, written with four digits at least; empty rows
    leave gaps in the numbering, and no two rows share a [row_id]. *)
Theorem row_ids_numbered header_row sheet start_row end_row rows :
  load_inventory re_findall header_row sheet start_row end_row = Some rows ->
  map row_id rows
  = map (fun p => row_id_of (fst p))
        (filter (loaded start_row end_row)
                (combine (seq 1 (length sheet)) sheet))
  /\ NoDup (map row_id rows).
Proof.
  unfold load_inventory. intros E. apply rows_from_ids in E. simpl in E.
  split; [exact E|]. rewrite E.
  rewrite <- (map_map fst row_id_of).
  apply NamingProps.NoDup_map_inj; [exact row_id_of_inj|].
  apply NoDup_fst_filter.
Qed.

(** The columns found by their headers are columns of the first row. *)
Lemma dict_set_bound k v d n :
  Forall (fun p => snd p < n) d -> v < n ->
  Forall (fun p : pystr * nat => snd p < n) (dict_set k v d).
Proof.
  intros F Hv. induction F as [|[k' v'] d Hp F IH]; simpl.
  - constructor; [exact Hv | constructor].
  - destruct (str_eqb k' k); constructor; auto.
Qed.

Lemma headers_from_bound n cells : forall idx headers,
  idx + length cells <= n ->
  Forall (fun p => snd p < n) headers ->
  Forall (fun p : pystr * nat => snd p < n) (headers_from cells idx headers).
Proof.
  induction cells as [|c cells IH]; intros idx headers Hn F; simpl in *;
    [exact F|].
  apply IH; [lia|]. apply dict_set_bound; [exact F | lia].
Qed.

Lemma find_header_bound pat headers n i :
  Forall (fun p : pystr * nat => snd p < n) headers ->
  find_header pat headers = Some i -> i < n.
Proof.
  intros F. induction F as [|[k v] d Hp F IH]; simpl; [discriminate|].
  destruct (contains k (lit pat)); [|exact IH].
  intros E. inversion E. subst. exact Hp.
Qed.

Lemma find_pattern_bound pats headers n i :
  Forall (fun p : pystr * nat => snd p < n) headers ->
  find_pattern pats headers = Some i -> i < n.
Proof.
  intros F. induction pats as [|pat pats IH]; simpl; [discriminate|].
  destruct (find_header pat headers) as [j|] eqn:E; [|exact IH].
  intros E'. inversion E'. subst. exact (find_header_bound _ F E).
Qed.

Lemma col_map_of_bound headers n :
  Forall (fun p : pystr * nat => snd p < n) headers ->
  Forall (fun p : string * nat => snd p < n) (col_map_of headers).
Proof.
  intros F. unfold col_map_of. apply Forall_flat_map.
  apply Forall_forall. intros [key pats] _. simpl.
  destruct (find_pattern pats headers) as [i|] eqn:E; constructor;
    [|constructor].
  exact (find_pattern_bound _ F E).
Qed.

Lemma col_get_bound col_map key default n :
  Forall (fun p : string * nat => snd p < n) col_map -> default < n ->
  col_get col_map key default < n.
Proof.
  intros F Hd. induction F as [|[k v] l Hp F IH]; simpl; [exact Hd|].
  destruct (String.eqb k key); [exact Hp | exact IH].
Qed.

Lemma field_some row i : i < length row -> exists s, field row i = Some s.
Proof.
  intros H. unfold field.
  destruct (nth_error row i) as [c|] eqn:E; [eexists; reflexivity|].
  apply nth_error_None in E. lia.
Qed.

Lemma rows_from_total sheet start_row end_row col_map url_cols n :
  Forall (fun p : string * nat => snd p < n) col_map -> 5 <= n ->
  Forall (fun row => n <= length row) sheet ->
  forall row_idx acc,
    exists rows,
      rows_from re_findall sheet row_idx start_row end_row col_map url_cols acc
      = Some rows.
Proof.
  intros Fc Hn Fs. induction Fs as [|row sheet Hrow Fs IH]; intros row_idx acc;
    simpl; [eexists; reflexivity|].
  destruct (row_idx <? start_row); [apply IH|].
  destruct (past_end end_row row_idx); [eexists; reflexivity|].
  destruct (forallb is_none row); [apply IH|].
  unfold build_row.
  destruct (@field_some row (col_get col_map "office" 0)) as [o ->].
  { pose proof (@col_get_bound col_map "office" 0 n Fc). lia. }
  destruct (@field_some row (col_get col_map "doc_number" 1)) as [d ->].
  { pose proof (@col_get_bound col_map "doc_number" 1 n Fc). lia. }
  destruct (@field_some row (col_get col_map "title" 2)) as [t ->].
  { pose proof (@col_get_bound col_map "title" 2 n Fc). lia. }
  destruct (@field_some row (col_get col_map "date" 3)) as [da ->].
  { pose proof (@col_get_bound col_map "date" 3 n Fc). lia. }
  destruct (@field_some row (col_get col_map "type" 4)) as [ty ->].
  { pose proof (@col_get_bound col_map "type" 4 n Fc). lia. }
  apply IH.
Qed.

(** X21. [load_inventory] raises no [IndexError] on a sheet of five
    columns or more whose rows are as wide as its first row: every column
    it reads, found by a header or taken by default, exists. *)
Theorem load_inventory_returns header_row sheet start_row end_row :
  5 <= length header_row ->
  Forall (fun row => length row = length header_row) sheet ->
  exists rows,
    load_inventory re_findall header_row sheet start_row end_row = Some rows.
Proof.
  intros Hn Fs. unfold load_inventory.
  apply rows_from_total with (n := length header_row).
  - apply col_map_of_bound.
    apply headers_from_bound; [simpl; lia | constructor].
  - exact Hn.
  - eapply Forall_impl; [|exact Fs]. simpl. intros row E. lia.
Qed.

End WithRuntime.
End LoadingProps.

Module AuditProps.
Import Validate Harvest Audit Spec2 Spec3.

Lemma sum_counts_count_key (r : string) (l : list (string * nat)) :
  sum_counts (count_key r l) = S (sum_counts l).
Proof. apply RevalidateProps.sum_counts_count_reason. Qed.

Lemma sum_offices_count_office office r l :
  sum_offices (count_office office r l) = S (sum_offices l).
Proof.
  induction l as [|[k v] l IH]; simpl; [reflexivity|].
  destruct (str_eqb k office); simpl.
  - rewrite sum_counts_count_key. lia.
  - rewrite IH. lia.
Qed.

Lemma count_file_counted st office ftype vr :
  files_counted st -> files_counted (count_file st office ftype vr).
Proof.
  intros [H1 [H2 [H3 H4]]]. unfold count_file, files_counted.
  destruct (valid vr); simpl;
    rewrite ?sum_counts_count_key, ?sum_offices_count_office; lia.
Qed.

Lemma count_file_rows st office ftype vr :
  let st' := count_file st office ftype vr in
  total_rows st' = total_rows st
  /\ rows_with_valid_content st' = rows_with_valid_content st
  /\ rows_with_only_junk st' = rows_with_only_junk st
  /\ rows_empty st' = rows_empty st
  /\ total_files st' = total_files st + 1.
Proof. unfold count_file. destruct (valid vr); simpl; auto. Qed.

Lemma count_row_counted st k :
  files_counted st -> files_counted (count_row st k).
Proof. intros H. exact H. Qed.

(** A step of the two loops over the rows, from the hypothesis of
    induction. *)
Ltac agree_step IH :=
  match goal with
  | |- exists a junk' mixed', rows_loop _ _ _ _ _ ?sa ?j ?m = _ /\ _ =>
      match goal with
      | |- context [Revalidate.rows_loop _ _ _ _ _ ?sr ?d] =>
          let a := fresh "a" in
          let junk' := fresh "junk'" in
          let mixed' := fresh "mixed'" in
          let E := fresh "E" in
          let R := fresh "R" in
          destruct (IH sr d sa j m) as [a [junk' [mixed' [E R]]]];
          [ simpl; lia | simpl; lia | simpl; first [reflexivity | assumption]
          | exists a, junk', mixed'; split; [exact E|];
            cbv zeta in R |- *;
            destruct R as [? [? [? R]]]; repeat split; auto;
            rewrite R; simpl; lia ]
      end
  end.

Section WithRuntime.
Context {RT : PyRuntime}.
Variable listdir : pystr -> option (list pystr).
Variable isdigit : pystr -> bool.
Variable random_sample : list pystr -> nat -> list pystr.

Lemma audit_files_loop_spec fs office row_dir names :
  forall st row_has_valid row_invalids,
    let r := files_loop fs office row_dir names st row_has_valid
                        row_invalids in
    let results :=
      map (fun f => validate_content fs (path_join row_dir f) 500) names in
    (files_counted st -> files_counted (fst (fst r)))
    /\ total_rows (fst (fst r)) = total_rows st
    /\ rows_with_valid_content (fst (fst r)) = rows_with_valid_content st
    /\ rows_with_only_junk (fst (fst r)) = rows_with_only_junk st
    /\ rows_empty (fst (fst r)) = rows_empty st
    /\ snd (fst r) = row_has_valid || existsb valid results
    /\ total_files (fst (fst r)) = total_files st + length names
    /\ length (snd r)
       = length row_invalids
         + length (filter (fun v => negb (valid v)) results).
Proof.
  induction names as [|fname names IH]; intros st rv inv; cbv zeta.
  - simpl. rewrite orb_false_r. split; [auto|]. repeat split; auto; lia.
  - simpl files_loop. simpl map.
    set (vr := validate_content fs (path_join row_dir fname) 500).
    set (ftype := detect_file_type fs (path_join row_dir fname)).
    clearbody vr ftype.
    destruct (count_file_rows st office ftype vr) as [C1 [C2 [C3 [C4 C5]]]].
    destruct (valid vr) eqn:Ev.
    + specialize (IH (count_file st office ftype vr) true inv).
      cbv zeta in IH.
      destruct IH as [H0 [H1 [H2 [H3 [H4 [H5 [H6 H7]]]]]]].
      rewrite C1 in H1. rewrite C2 in H2. rewrite C3 in H3. rewrite C4 in H4.
      rewrite C5 in H6.
      simpl. rewrite Ev. simpl. rewrite orb_true_r.
      split; [intros Hc; apply H0, count_file_counted, Hc|].
      repeat split; auto. lia.
    + specialize (IH (count_file st office ftype vr) rv
                     (inv ++ [ {| inv_file := fname; inv_reason := reason vr;
                                  inv_details := details vr |} ])).
      cbv zeta in IH.
      destruct IH as [H0 [H1 [H2 [H3 [H4 [H5 [H6 H7]]]]]]].
      rewrite C1 in H1. rewrite C2 in H2. rewrite C3 in H3. rewrite C4 in H4.
      rewrite C5 in H6.
      simpl. rewrite Ev. simpl.
      split; [intros Hc; apply H0, count_file_counted, Hc|].
      repeat split; auto; [lia|].
      rewrite H7, length_app. simpl. lia.
Qed.

Lemma audit_rows_loop_counts fs mds scan_dir folders :
  forall st junk mixed st' junk' mixed',
    rows_loop listdir fs mds scan_dir folders st junk mixed
    = Some (st', junk', mixed') ->
    (files_counted st -> files_counted st')
    /\ total_rows st' = total_rows st
    /\ rows_counted st' = rows_counted st + length folders
    /\ (length junk = rows_with_only_junk st ->
        length junk' = rows_with_only_junk st')
    /\ (length mixed <= rows_with_valid_content st ->
        length mixed' <= rows_with_valid_content st')
    /\ (Forall (fun j => junk_files j <> []) junk ->
        Forall (fun j => junk_files j <> []) junk').
Proof.
  induction folders as [|folder folders IH];
    intros st junk mixed st' junk' mixed'; simpl.
  - intros E. inversion E. subst. split; [auto|].
    unfold rows_counted. repeat split; auto; lia.
  - destruct (office_status mds _) as [office status].
    destruct (listdir (path_join scan_dir folder)) as [names|]; [|discriminate].
    set (row_dir := path_join scan_dir folder).
    set (files := filter _ names).
    destruct (truthy files) eqn:Et; simpl negb; cbv iota.
    2:{ intros E. apply IH in E.
        destruct E as [H0 [H1 [H2 [H3 [H4 H5]]]]].
        unfold rows_counted in *. simpl in *.
        split; [exact H0|]. repeat split; auto; lia. }
    pose proof (audit_files_loop_spec fs office row_dir files st false []) as F.
    cbv zeta in F.
    destruct (files_loop fs office row_dir files st false [])
      as [[st1 row_has_valid] row_invalids].
    simpl in F. destruct F as [F0 [F1 [F2 [F3 [F4 [F5 [F6 F7]]]]]]].
    destruct row_has_valid.
    + intros E. apply IH in E.
      destruct E as [H0 [H1 [H2 [H3 [H4 H5]]]]].
      unfold rows_counted in *. simpl in *.
      split; [intros Hc; apply H0, F0, Hc|].
      split; [lia|]. split; [lia|].
      split; [intros Hj; apply H3; lia|].
      split; [|exact H5].
      intros Hm. apply H4.
      destruct (truthy row_invalids); [rewrite length_app; simpl|]; lia.
    + intros E. apply IH in E.
      destruct E as [H0 [H1 [H2 [H3 [H4 H5]]]]].
      unfold rows_counted in *. simpl in *.
      split; [intros Hc; apply H0, F0, Hc|].
      split; [lia|]. split; [lia|].
      split; [intros Hj; apply H3; rewrite length_app; simpl; lia|].
      split; [intros Hm; apply H4; lia|].
      intros Hj. apply H5. apply Forall_app. split; [exact Hj|].
      constructor; [|constructor]. simpl.
      intros ->. simpl in F7.
      assert (Hall : filter (fun v => negb (valid v))
                (map (fun f => validate_content fs (path_join row_dir f) 500)
                     files) = []).
      { apply length_zero_iff_nil. symmetry. exact F7. }
      clearbody files. destruct files as [|f files']; [discriminate Et|].
      simpl in F5, Hall.
      destruct (valid (validate_content fs (path_join row_dir f) 500));
        [discriminate F5 | discriminate Hall].
Qed.

(** X22. The counters that [audit_collection] returns add up, with or
    without sampling: every row scanned is counted once, as a row with
    valid content, with junk only or empty; every file is valid or
    invalid; the counts per type sum to the files, the counts per reason
    and per office to the invalid files; [junk_rows] has one entry for
    each row with junk only, each with a file, and [mixed_rows] no more
    entries than there are rows with valid content. *)
Theorem audit_counts fs mds scan_dir sample_size st junk_rows mixed_rows :
  audit_collection listdir isdigit random_sample fs mds scan_dir sample_size
  = Some (st, junk_rows, mixed_rows) ->
  total_rows st
  = rows_with_valid_content st + rows_with_only_junk st + rows_empty st
  /\ total_files st = valid_files st + invalid_files st
  /\ sum_counts (file_types st) = total_files st
  /\ sum_counts (failure_reasons st) = invalid_files st
  /\ sum_offices (failure_by_office st) = invalid_files st
  /\ length junk_rows = rows_with_only_junk st
  /\ length mixed_rows <= rows_with_valid_content st
  /\ Forall (fun j => junk_files j <> []) junk_rows.
Proof.
  unfold audit_collection.
  destruct (listdir scan_dir) as [names|]; [|discriminate].
  set (folders := match sample_size with Some _ => _ | None => _ end).
  intros E. apply audit_rows_loop_counts in E.
  destruct E as [H0 [H1 [H2 [H3 [H4 H5]]]]].
  unfold rows_counted in H2. simpl in H1, H2, H3, H4.
  destruct H0 as [G1 [G2 [G3 G4]]].
  { unfold files_counted. simpl. auto. }
  repeat split; auto; try lia.
Qed.

Lemma files_agree fs folder office row_dir names :
  forall rv rs det st inv,
    failure_reasons st = rs ->
    let r := Revalidate.files_loop fs folder row_dir names rv rs det in
    let a :=
      files_loop fs office row_dir
        (filter (fun f => fs_exists fs (path_join row_dir f)
                          && negb (str_eqb f (lit "metadata.json")))
                names)
        st rv inv in
    fst (fst r) = snd (fst a)
    /\ snd (fst r) = failure_reasons (fst (fst a)).
Proof.
  induction names as [|fname names IH]; intros rv rs det st inv Hrs; cbv zeta.
  - simpl. auto.
  - simpl Revalidate.files_loop. simpl filter.
    destruct (str_eqb fname (lit "metadata.json")).
    { rewrite andb_false_r. apply IH. exact Hrs. }
    destruct (fs_exists fs (path_join row_dir fname)); simpl negb; simpl andb;
      cbv iota; [|apply IH; exact Hrs].
    simpl files_loop.
    set (vr := validate_content fs (path_join row_dir fname) 500).
    set (ftype := detect_file_type fs (path_join row_dir fname)).
    clearbody vr ftype.
    destruct (valid vr) eqn:Ev.
    + apply IH. unfold count_file. rewrite Ev. exact Hrs.
    + apply IH. unfold count_file. rewrite Ev. simpl. rewrite Hrs.
      reflexivity.
Qed.

Lemma rows_agree fs mds scan_dir folders :
  forall st_r det st_a junk mixed,
    Revalidate.valid_rows st_r = rows_with_valid_content st_a ->
    Revalidate.invalid_rows st_r
    = rows_with_only_junk st_a + rows_empty st_a ->
    Revalidate.reasons st_r = failure_reasons st_a ->
    exists a junk' mixed',
      rows_loop listdir fs mds scan_dir
                (filter (row_folder listdir isdigit scan_dir) folders)
                st_a junk mixed
      = Some (a, junk', mixed')
      /\ let r := fst (Revalidate.rows_loop listdir isdigit fs scan_dir
                                            folders st_r det) in
         Revalidate.valid_rows r = rows_with_valid_content a
         /\ Revalidate.invalid_rows r
            = rows_with_only_junk a + rows_empty a
         /\ Revalidate.reasons r = failure_reasons a
         /\ Revalidate.total_rows r
            = Revalidate.total_rows st_r
              + length (filter (row_folder listdir isdigit scan_dir)
                               folders).
Proof.
  induction folders as [|folder folders IH];
    intros st_r det st_a junk mixed Hv Hi Hr.
  - simpl. exists st_a, junk, mixed. repeat split; auto.
  - simpl Revalidate.rows_loop. cbn [filter].
    assert (Erf : row_folder listdir isdigit scan_dir folder
                  = match listdir (path_join scan_dir folder) with
                    | Some _ => isdigit folder
                    | None => false
                    end).
    { unfold row_folder, isdir.
      destruct (listdir (path_join scan_dir folder)); reflexivity. }
    rewrite Erf. clear Erf.
    destruct (listdir (path_join scan_dir folder)) as [names|] eqn:El.
    2:{ apply IH; assumption. }
    destruct (isdigit folder); simpl negb; cbv iota.
    2:{ apply IH; assumption. }
    simpl rows_loop.
    destruct (office_status mds _) as [office status].
    rewrite El.
    set (row_dir := path_join scan_dir folder) in *.
    pose proof (@files_agree fs folder office row_dir names false
                  (Revalidate.reasons st_r) det st_a [] (eq_sym Hr)) as F.
    cbv zeta in F.
    set (files := filter _ names) in *. clearbody files.
    destruct (Revalidate.files_loop fs folder row_dir names false
                (Revalidate.reasons st_r) det) as [[row_valid rs] det'].
    simpl in F.
    destruct (truthy files) eqn:Et; simpl negb; cbv iota.
    + destruct (files_loop fs office row_dir files st_a false [])
        as [[st1 row_has_valid] row_invalids] eqn:Ef.
      pose proof (audit_files_loop_spec fs office row_dir files st_a false [])
        as S. cbv zeta in S. rewrite Ef in S. simpl in S, F.
      destruct S as [_ [S1 [S2 [S3 [S4 _]]]]].
      destruct F as [F1 F2]. subst row_valid rs.
      destruct row_has_valid; cbv iota; agree_step IH.
    + destruct files as [|f files]; [|discriminate Et].
      simpl in F. destruct F as [F1 F2]. subst row_valid rs.
      cbv iota. agree_step IH.
Qed.

(** X23. [audit_collection] without sampling and [validate_existing]
    agree on a directory: where [validate_existing] returns, the audit
    returns too, it scans the same number of rows, finds the same number
    of rows with valid content and the same counts per reason, and the
    rows that [validate_existing] counts as invalid are those that the
    audit counts as empty or with junk only. *)
Theorem audit_agrees_with_validate_existing fs mds scan_dir st det :
  Revalidate.validate_existing listdir isdigit fs scan_dir = Some (st, det) ->
  exists a junk_rows mixed_rows,
    audit_collection listdir isdigit random_sample fs mds scan_dir None
    = Some (a, junk_rows, mixed_rows)
    /\ total_rows a = Revalidate.total_rows st
    /\ rows_with_valid_content a = Revalidate.valid_rows st
    /\ rows_with_only_junk a + rows_empty a = Revalidate.invalid_rows st
    /\ failure_reasons a = Revalidate.reasons st.
Proof.
  unfold Revalidate.validate_existing, audit_collection.
  destruct (listdir scan_dir) as [names|]; [|discriminate].
  intros E. injection E as E.
  change (fun f => isdir listdir (path_join scan_dir f) && isdigit f)
    with (row_folder listdir isdigit scan_dir).
  rewrite <- SortProps.filter_sorted.
  set (folders := filter _ (Revalidate.sorted names)).
  destruct (@rows_agree fs mds scan_dir (Revalidate.sorted names)
              {| Revalidate.total_rows := 0; Revalidate.valid_rows := 0;
                 Revalidate.invalid_rows := 0; Revalidate.reasons := [] |}
              [] (initial_stats (length folders)) [] []
              eq_refl eq_refl eq_refl)
    as [a [junk' [mixed' [Ea R]]]].
  cbv zeta in R. rewrite E in R. simpl in R.
  destruct R as [R1 [R2 [R3 R4]]].
  fold folders in Ea, R4.
  exists a, junk', mixed'. split; [exact Ea|].
  apply audit_rows_loop_counts in Ea. destruct Ea as [_ [T _]].
  simpl in T. rewrite T, R4. auto.
Qed.

End WithRuntime.
End AuditProps.

Module RepairProps.
Import Validate Harvest Spec2 Spec3.

Section WithRuntime.
Context {RT : PyRuntime}.
Variable listdir : pystr -> option (list pystr).
Variable isdigit : pystr -> bool.
Variable random_sample : list pystr -> nat -> list pystr.

Lemma files_loops fs office row_dir names :
  forall st rv inv bad,
    map (fun f => (Audit.inv_file f, Audit.inv_reason f)) inv
    = map (fun f => (Repair.filename f, Repair.bad_reason f)) bad ->
    let a := Audit.files_loop fs office row_dir names st rv inv in
    let r := Repair.files_loop fs row_dir names rv bad in
    snd (fst a) = fst r
    /\ map (fun f => (Audit.inv_file f, Audit.inv_reason f)) (snd a)
       = map (fun f => (Repair.filename f, Repair.bad_reason f)) (snd r).
Proof.
  induction names as [|fname names IH]; intros st rv inv bad H; cbv zeta.
  - simpl. auto.
  - simpl Audit.files_loop. simpl Repair.files_loop.
    destruct (valid (validate_content fs (path_join row_dir fname) 500)).
    + apply IH. exact H.
    + apply IH. rewrite !map_app, H. reflexivity.
Qed.

Lemma rows_loops fs mds scan_dir folders :
  forall st junk mixed bad_rows a junk' mixed',
    map junk_report junk
    = map bad_report
          (filter (fun b => negb (Repair.has_valid_file b)) bad_rows) ->
    map mixed_report mixed
    = map bad_report (filter Repair.has_valid_file bad_rows) ->
    Audit.rows_loop listdir fs mds scan_dir folders st junk mixed
    = Some (a, junk', mixed') ->
    exists bad_rows',
      Repair.rows_loop listdir fs mds scan_dir folders bad_rows
      = Some bad_rows'
      /\ map junk_report junk'
         = map bad_report
               (filter (fun b => negb (Repair.has_valid_file b)) bad_rows')
      /\ map mixed_report mixed'
         = map bad_report (filter Repair.has_valid_file bad_rows').
Proof.
  induction folders as [|folder folders IH];
    intros st junk mixed bad_rows a junk' mixed' Hj Hm.
  - simpl. intros E. inversion E. subst. exists bad_rows. auto.
  - simpl Audit.rows_loop. simpl Repair.rows_loop.
    destruct (Audit.office_status mds _) as [office status].
    destruct (listdir (path_join scan_dir folder)) as [names|]; [|discriminate].
    set (row_dir := path_join scan_dir folder).
    set (files := filter _ names). clearbody files.
    destruct (truthy files) eqn:Et; simpl negb; cbv iota.
    2:{ apply IH; assumption. }
    pose proof (@files_loops fs office row_dir files st false [] [] eq_refl)
      as F.
    pose proof (AuditProps.audit_files_loop_spec fs office row_dir files st
                  false []) as S.
    cbv zeta in F, S.
    destruct (Audit.files_loop fs office row_dir files st false [])
      as [[st1 row_has_valid] row_invalids].
    destruct (Repair.files_loop fs row_dir files false []) as [has_valid bad].
    simpl in F, S. destruct F as [F1 F2]. subst has_valid.
    destruct S as [_ [_ [_ [_ [_ [S5 [_ S7]]]]]]].
    assert (Eb : truthy bad = truthy row_invalids).
    { apply (f_equal (@length _)) in F2. rewrite !length_map in F2.
      destruct bad, row_invalids; simpl in F2; try discriminate; reflexivity. }
    destruct row_has_valid.
    + rewrite Eb. destruct (truthy row_invalids).
      * apply IH.
        -- rewrite filter_app, map_app. simpl. rewrite app_nil_r. exact Hj.
        -- rewrite filter_app, !map_app. simpl. rewrite Hm. f_equal.
           unfold mixed_report, bad_report. simpl. rewrite F2. reflexivity.
      * apply IH; assumption.
    + assert (Hne : truthy row_invalids = true).
      { destruct files as [|f files]; [discriminate Et|].
        simpl in S5, S7.
        destruct (valid (validate_content fs (path_join row_dir f) 500));
          [discriminate S5|].
        simpl in S7. destruct row_invalids; [discriminate S7 | reflexivity]. }
      rewrite Eb, Hne. apply IH.
      * rewrite filter_app, !map_app. simpl. rewrite Hj. f_equal.
        unfold junk_report, bad_report. simpl. rewrite F2. reflexivity.
      * rewrite filter_app, map_app. simpl. rewrite app_nil_r. exact Hm.
Qed.

(** X24. [identify_bad_files] of the repair selects the rows that the
    audit without sampling reports: the rows it flags as having no valid
    file are the [junk_rows] of the audit and those it flags as having one
    are the [mixed_rows], in the same order and with the same rejected
    files and reasons. *)
Theorem repair_targets_audited_rows fs mds scan_dir a junk_rows mixed_rows :
  Audit.audit_collection listdir isdigit random_sample fs mds scan_dir None
  = Some (a, junk_rows, mixed_rows) ->
  exists bad_rows,
    Repair.identify_bad_files listdir isdigit fs mds scan_dir = Some bad_rows
    /\ map junk_report junk_rows
       = map bad_report
             (filter (fun b => negb (Repair.has_valid_file b)) bad_rows)
    /\ map mixed_report mixed_rows
       = map bad_report (filter Repair.has_valid_file bad_rows)
    /\ length bad_rows = length junk_rows + length mixed_rows.
Proof.
  unfold Audit.audit_collection, Repair.identify_bad_files.
  destruct (listdir scan_dir) as [names|]; [|discriminate].
  intros E.
  apply (@rows_loops fs mds scan_dir _ _ [] [] [] a junk_rows mixed_rows
           eq_refl eq_refl) in E.
  destruct E as [bad_rows [E [Hj Hm]]].
  exists bad_rows. split; [exact E|]. split; [exact Hj|]. split; [exact Hm|].
  apply (f_equal (@length _)) in Hj, Hm. rewrite !length_map in Hj, Hm.
  rewrite Hj, Hm.
  rewrite <- (filter_length Repair.has_valid_file bad_rows) at 1. lia.
Qed.

End WithRuntime.
End RepairProps.

(** ** The further properties at concrete inputs *)

Module Run2.
Import Validate Harvest Spec Spec2 Inventory Revalidate Scenario Scenario2.
Import ValidateProps HarvestProps NamingProps ValidateMore HarvestMore.
Import InventoryProps RevalidateProps.

#[local] Existing Instance Ascii7.runtime.

Lemma below_size_floor_rejected_witness :
  let fs := one_file named_pdf pdf_stub in
  valid (validate_content fs named_pdf 500) = false
  /\ reason (validate_content fs named_pdf 500)
     = if length pdf_stub =? 0 then "file_empty" else "file_too_small".
Proof.
  apply (@below_size_floor_rejected Ascii7.runtime
           (one_file named_pdf pdf_stub) named_pdf 500 pdf_stub).
  - vm_compute. reflexivity.
  - apply Nat.ltb_lt. vm_compute. reflexivity.
Defined.

Lemma accepted_text_is_clean_witness :
  let data := write_text guidance_page in
  200 <= length data
  /\ is_html_masquerading_as_pdf (one_file named_html data) named_html = false
  /\ ~ has_indicator (read_text data) DOJ_INDICATORS
  /\ ~ has_indicator (read_text data) WAYBACK_ERROR_INDICATORS
  /\ 500 <= length (extract_visible_text (read_text data))
  /\ (has_indicator (read_text data) GENERIC_ERROR_INDICATORS ->
      2000 <= length (extract_visible_text (read_text data))).
Proof.
  apply (@accepted_text_is_clean Ascii7.runtime
           (one_file named_html (write_text guidance_page)) named_html 500
           (write_text guidance_page)).
  - vm_compute. reflexivity.
  - vm_compute. reflexivity.
  - vm_compute. reflexivity.
Defined.

Lemma signature_recorded_witness :
  validate_content (one_file named_pdf png_image) named_pdf 500
  = result true named_pdf "ok"
           [("actual_type", d_tag "png");
            ("size_bytes", d_int (length png_image))].
Proof.
  apply (@signature_recorded Ascii7.runtime (one_file named_pdf png_image)
           named_pdf 500 png_image (x89 :: b "PNG") "png").
  - vm_compute. reflexivity.
  - right; right; right; left. reflexivity.
  - vm_compute. reflexivity.
  - apply Nat.leb_le. vm_compute. reflexivity.
Defined.


Lemma fetch_without_result_keeps_files_witness :
  files (snd (try_download_url url_stub site_dead_then_stub row_dir "direct"
                               empty_world))
  = files empty_world.
Proof.
  apply (@fetch_without_result_keeps_files Ascii7.runtime url_stub
           site_dead_then_stub row_dir "direct" empty_world).
  vm_compute. reflexivity.
Defined.

Lemma harvest_then_resume_witness :
  let h := harvest_row (row [url_pdf]) [] site_denied_then_pdf out false
                       empty_world in
  main_loop resume_args [] site_denied_then_pdf out [row [url_pdf]] no_stats
            (snd h)
  = if String.eqb (status (fst h)) "success"
    then (count_skipped no_stats, snd h)
    else
      let again := harvest_row (row [url_pdf]) [] site_denied_then_pdf out
                               (dry_run resume_args) (snd h) in
      (update_stats no_stats (fst again), snd again).
Proof.
  apply (@harvest_then_resume Ascii7.runtime resume_args []
           site_denied_then_pdf out (row [url_pdf]) no_stats empty_world).
  reflexivity.
Defined.

(** The row of the scenario resumes with a skip. *)
Example harvested_row_is_skipped :
  let h := harvest_row (row [url_pdf]) [] site_denied_then_pdf out false
                       empty_world in
  main_loop resume_args [] site_denied_then_pdf out [row [url_pdf]] no_stats
            (snd h)
  = (count_skipped no_stats, snd h).
Proof. vm_compute. reflexivity. Qed.

Lemma hyperlink_extracted_witness :
  In (strip (lit " https://www.acf.hhs.gov/occ/im-2016-02 "))
     (extract_urls_from_row Ascii7Ext.re_findall sheet_row [0; 1; 2]).
Proof.
  apply (@hyperlink_extracted Ascii7.runtime Ascii7Ext.re_findall sheet_row
           [0; 1; 2] 0
           {| hyperlink_target :=
                Some (lit " https://www.acf.hhs.gov/occ/im-2016-02 ");
              value := lit "CCDF-ACF-IM-2016-02" |}
           (lit " https://www.acf.hhs.gov/occ/im-2016-02 ")).
  - left. reflexivity.
  - reflexivity.
  - reflexivity.
  - discriminate.
  - vm_compute. discriminate.
  - vm_compute. reflexivity.
Defined.

(** The three addresses of the row give two URLs. *)
Example sheet_row_urls :
  extract_urls_from_row Ascii7Ext.re_findall sheet_row [0; 1; 2]
  = [ lit "https://www.acf.hhs.gov/occ/im-2016-02";
      lit "http://archive.acf.hhs.gov/im1602.htm" ].
Proof. vm_compute. reflexivity. Qed.

Lemma row_valid_iff_some_result_valid_witness :
  let names := [lit "metadata.json"; lit "im.pdf"; lit "page_content.html"] in
  let r := files_loop tree_files (lit "0001") (lit "output_v2/0001") names
                      false [] [] in
  let results := validate_directory (Ascii7Ext.listdir tree) tree_files
                                    (lit "output_v2/0001") 500 in
  fst (fst r) = existsb valid results
  /\ exists added,
       snd r = [] ++ added
       /\ map detail_reason added
          = map reason (filter (fun v => negb (valid v)) results).
Proof.
  apply (@row_valid_iff_some_result_valid Ascii7.runtime
           (Ascii7Ext.listdir tree) tree_files (lit "0001")
           (lit "output_v2/0001")
           [lit "metadata.json"; lit "im.pdf"; lit "page_content.html"]
           [] []).
  vm_compute. reflexivity.
Defined.

Lemma validate_existing_counts_witness :
  let r := rows_loop (Ascii7Ext.listdir tree) Ascii7Ext.isdigit tree_files out
             (sorted [lit "0002"; lit "reports"; lit "0001"])
             {| total_rows := 0; valid_rows := 0; invalid_rows := 0;
                reasons := [] |} [] in
  total_rows (fst r) = valid_rows (fst r) + invalid_rows (fst r)
  /\ sum_counts (reasons (fst r)) = length (snd r)
  /\ total_rows (fst r) <= 3.
Proof.
  apply (@validate_existing_counts Ascii7.runtime (Ascii7Ext.listdir tree)
           Ascii7Ext.isdigit tree_files out
           [lit "0002"; lit "reports"; lit "0001"]).
  - vm_compute. reflexivity.
  - vm_compute. reflexivity.
Defined.

(** The output directory of the scenario: two rows, one valid, and three
    files rejected. *)
Example tree_statistics :
  option_map (fun r => (total_rows (fst r), valid_rows (fst r),
                        invalid_rows (fst r), reasons (fst r)))
             (validate_existing (Ascii7Ext.listdir tree) Ascii7Ext.isdigit
                                tree_files out)
  = Some (2, 1, 1,
          [ ("doj_access_denied", 1); ("generic_error_page", 1);
            ("file_too_small", 1) ]).
Proof. vm_compute. reflexivity. Qed.

End Run2.

(** ** The sheet and the audit of the scenario *)

Module Run3.
Import Validate Harvest Inventory Loading Spec2 Spec3.
Import Scenario Scenario2 Scenario3.
#[local] Existing Instance Ascii7.runtime.

(** The inventory of the scenario gives the rows 0001 and 0003. *)
Example inventory_rows :
  option_map (map (fun r => (row_id r, office r, urls r)))
             (load_inventory Ascii7Ext.re_findall inventory_header inventory
                             1 None)
  = Some [ (lit "0001", lit "OCC",
            [lit "https://www.acf.hhs.gov/occ/im-2016-02"]);
           (lit "0003", lit "OHS",
            [lit "https://eclkc.ohs.acf.hhs.gov/pi"]) ].
Proof. vm_compute. reflexivity. Qed.

(** A sheet of three columns whose headers name no date: reading the
    date of a row raises. *)
Example narrow_sheet_raises :
  load_inventory Ascii7Ext.re_findall narrow_header narrow_inventory 1 None
  = None.
Proof. vm_compute. reflexivity. Qed.

Lemma load_inventory_returns_witness :
  exists rows,
    load_inventory Ascii7Ext.re_findall inventory_header inventory 1 (Some 3)
    = Some rows.
Proof.
  apply (@LoadingProps.load_inventory_returns Ascii7.runtime
           Ascii7Ext.re_findall inventory_header inventory 1 (Some 3)).
  - simpl. lia.
  - repeat constructor.
Defined.

Lemma row_ids_numbered_witness :
  map row_id loaded_rows
  = map (fun p => row_id_of (fst p))
        (filter (loaded 1 None) (combine (seq 1 (length inventory)) inventory))
  /\ NoDup (map row_id loaded_rows).
Proof.
  apply (@LoadingProps.row_ids_numbered Ascii7.runtime Ascii7Ext.re_findall
           inventory_header inventory 1 None loaded_rows).
  vm_compute. reflexivity.
Defined.

(** The audit of the output directory of the scenario: two rows, one
    with a valid document and a rejected page, one with junk only. *)
Example audit_statistics :
  option_map
    (fun r =>
       let st := fst (fst r) in
       (Audit.total_rows st, Audit.rows_with_valid_content st,
        Audit.rows_with_only_junk st, Audit.rows_empty st,
        Audit.total_files st, Audit.valid_files st, Audit.invalid_files st,
        Audit.file_types st, Audit.failure_reasons st,
        map Audit.junk_name (snd (fst r)), map Audit.mixed_name (snd r)))
    audited
  = Some (2, 1, 1, 0, 4, 1, 3, [("pdf", 2); ("html", 2)],
          [ ("doj_access_denied", 1); ("generic_error_page", 1);
            ("file_too_small", 1) ],
          [lit "0002"], [lit "0001"]).
Proof. vm_compute. reflexivity. Qed.

Lemma audit_counts_witness :
  let st := fst (fst audit_result) in
  Audit.total_rows st
  = Audit.rows_with_valid_content st + Audit.rows_with_only_junk st
    + Audit.rows_empty st
  /\ Audit.total_files st = Audit.valid_files st + Audit.invalid_files st
  /\ sum_counts (Audit.file_types st) = Audit.total_files st
  /\ sum_counts (Audit.failure_reasons st) = Audit.invalid_files st
  /\ sum_offices (Audit.failure_by_office st) = Audit.invalid_files st
  /\ length (snd (fst audit_result)) = Audit.rows_with_only_junk st
  /\ length (snd audit_result) <= Audit.rows_with_valid_content st
  /\ Forall (fun j => Audit.junk_files j <> []) (snd (fst audit_result)).
Proof.
  apply (@AuditProps.audit_counts Ascii7.runtime (Ascii7Ext.listdir tree)
           Ascii7Ext.isdigit (fun folders n => firstn n folders) tree_files
           [] out None (fst (fst audit_result)) (snd (fst audit_result))
           (snd audit_result)).
  vm_compute. reflexivity.
Defined.

Lemma audit_agrees_with_validate_existing_witness :
  exists a junk_rows mixed_rows,
    Audit.audit_collection (Ascii7Ext.listdir tree) Ascii7Ext.isdigit
      (fun folders n => firstn n folders) tree_files [] out None
    = Some (a, junk_rows, mixed_rows)
    /\ Audit.total_rows a = Revalidate.total_rows (fst revalidated)
    /\ Audit.rows_with_valid_content a
       = Revalidate.valid_rows (fst revalidated)
    /\ Audit.rows_with_only_junk a + Audit.rows_empty a
       = Revalidate.invalid_rows (fst revalidated)
    /\ Audit.failure_reasons a = Revalidate.reasons (fst revalidated).
Proof.
  apply (@AuditProps.audit_agrees_with_validate_existing Ascii7.runtime
           (Ascii7Ext.listdir tree) Ascii7Ext.isdigit
           (fun folders n => firstn n folders) tree_files [] out
           (fst revalidated) (snd revalidated)).
  vm_compute. reflexivity.
Defined.

Lemma repair_targets_audited_rows_witness :
  exists bad_rows,
    Repair.identify_bad_files (Ascii7Ext.listdir tree) Ascii7Ext.isdigit
      tree_files [] out
    = Some bad_rows
    /\ map junk_report (snd (fst audit_result))
       = map bad_report
             (filter (fun b => negb (Repair.has_valid_file b)) bad_rows)
    /\ map mixed_report (snd audit_result)
       = map bad_report (filter Repair.has_valid_file bad_rows)
    /\ length bad_rows
       = length (snd (fst audit_result)) + length (snd audit_result).
Proof.
  apply (@RepairProps.repair_targets_audited_rows Ascii7.runtime
           (Ascii7Ext.listdir tree) Ascii7Ext.isdigit
           (fun folders n => firstn n folders) tree_files [] out
           (fst (fst audit_result))).
  vm_compute. reflexivity.
Defined.

(** The rows to repair in the output directory of the scenario. *)
Example bad_rows_of_tree :
  option_map (map (fun b => (bad_report b, Repair.has_valid_file b)))
             (Repair.identify_bad_files (Ascii7Ext.listdir tree)
                Ascii7Ext.isdigit tree_files [] out)
  = Some [ ((lit "0001", [(lit "page_content.html", "doj_access_denied")]),
            true);
           ((lit "0002", [(lit "page_content.html", "generic_error_page");
                          (lit "stub.pdf", "file_too_small")]),
            false) ].
Proof. vm_compute. reflexivity. Qed.

End Run3.
